(** * The Kindle conversion wrapper, embedded and verified

    A shallow embedding of [kindle_conversion_wrapper.py]: the
    configuration loader ([parse_simple_config], [load_config]), the
    single-book pipeline ([KindleProcessor]), the batch driver
    ([BatchProcessor]), the prerequisites and the entry point
    ([check_prerequisites], [main]), followed by the properties of the
    specification and further properties of the code, stated and proved
    against these definitions.

    Modelling conventions.
    - Text is a [string] of code points below 256, and a file holds such
      a text; the character classes of [str.strip], [str.isdigit] and
      [str.lower] and the digits of [int] are Python's on these code
      points.
    - A Python value is a [value]; a [dict] is a [gmap string value].
    - The file system is a tree of [node]s rooted at the directory the
      process runs in, from which a path that starts with a slash is read
      as well; there are no permissions, links or I/O errors, and a [..]
      component is an ordinary name, which no directory holds.
    - Code that can raise returns a [result]; code that also touches the
      file system, runs a process or prints is a function on [world].
    - What the interpreter and the operating system decide on their own
      (the stage executables, [os.rename], [json], [str] of an exception,
      the clock) is a field of [Host], over which every theorem
      quantifies; what [argparse] makes of the command line is a
      parameter of [main].  A process that is started runs to completion.
    - [int] refuses a string of more than 4300 digits, the default of
      [sys.set_int_max_str_digits].
    - What a run prints is kept as a list of [event]s: the processes
      started and the banners that tell the steps and the books apart. *)

From stdpp Require Import gmap strings list fin_maps pretty.
From Stdlib Require Import ZArith Ascii Lia.

Set Warnings "-register-all".

(** ** Python's [str] methods *)

Module Py.

Definition LF : ascii := ascii_of_nat 10.
Definition CR : ascii := ascii_of_nat 13.

(** [c.isspace()]: TAB, LF, VT, FF, CR, the four separators FS GS RS
    US, the space, NEL and the no-break space. *)
Definition isspace (c : ascii) : bool :=
  let n := nat_of_ascii c in
  ((9 <=? n) && (n <=? 13)) || ((28 <=? n) && (n <=? 32))
  || (n =? 133) || (n =? 160).

(** The digits [int] reads: [0] to [9]. *)
Definition decimal_char (c : ascii) : bool :=
  let n := nat_of_ascii c in (48 <=? n) && (n <=? 57).

(** [c.isdigit()]: the decimal digits and the superscripts two, three
    and one. *)
Definition isdigit_char (c : ascii) : bool :=
  let n := nat_of_ascii c in
  decimal_char c || (n =? 178) || (n =? 179) || (n =? 185).

(** [c.lower()]: the capital letters A to Z and, but for the
    multiplication sign, those from A-grave to Thorn. *)
Definition lower_char (c : ascii) : ascii :=
  let n := nat_of_ascii c in
  if ((65 <=? n) && (n <=? 90))
     || ((192 <=? n) && (n <=? 222) && negb (n =? 215))
  then ascii_of_nat (n + 32) else c.

Definition nonempty (s : string) : bool :=
  match s with EmptyString => false | String _ _ => true end.

Fixpoint lstrip (s : string) : string :=
  match s with
  | EmptyString => EmptyString
  | String c s' => if isspace c then lstrip s' else s
  end.

Fixpoint rstrip (s : string) : string :=
  match s with
  | EmptyString => EmptyString
  | String c s' =>
      match rstrip s' with
      | EmptyString => if isspace c then EmptyString else String c EmptyString
      | r => String c r
      end
  end.

(** [s.strip()] *)
Definition strip (s : string) : string := rstrip (lstrip s).

(** [s.startswith(p)] *)
Fixpoint startswith (p s : string) : bool :=
  match p with
  | EmptyString => true
  | String a p' =>
      match s with
      | EmptyString => false
      | String b s' => Ascii.eqb a b && startswith p' s'
      end
  end.

(** [s.endswith(suf)] *)
Fixpoint endswith (suf s : string) : bool :=
  if String.eqb s suf then true
  else match s with
       | EmptyString => false
       | String _ s' => endswith suf s'
       end.

(** [sub in s] for a string [s] *)
Fixpoint contains (sub s : string) : bool :=
  if startswith sub s then true
  else match s with
       | EmptyString => false
       | String _ s' => contains sub s'
       end.

(** [s.split(sep, 1)] for a one-character [sep] that occurs in [s]:
    the text before the first [sep] and the text after it. *)
Fixpoint split_once (sep : ascii) (s : string) : option (string * string) :=
  match s with
  | EmptyString => None
  | String c s' =>
      if Ascii.eqb c sep then Some (EmptyString, s')
      else match split_once sep s' with
           | Some (a, b) => Some (String c a, b)
           | None => None
           end
  end.

(** [s.split(sep)] for a one-character [sep]: never the empty list. *)
Fixpoint split (sep : ascii) (s : string) : list string :=
  match s with
  | EmptyString => [EmptyString]
  | String c s' =>
      if Ascii.eqb c sep then EmptyString :: split sep s'
      else match split sep s' with
           | [] => [String c EmptyString]
           | w :: ws => String c w :: ws
           end
  end.

(** [s.lower()] *)
Fixpoint lower (s : string) : string :=
  match s with
  | EmptyString => EmptyString
  | String c s' => String (lower_char c) (lower s')
  end.

Fixpoint all_digits (s : string) : bool :=
  match s with
  | EmptyString => true
  | String c s' => isdigit_char c && all_digits s'
  end.

(** [s.isdigit()]: at least one character, all of them digits. *)
Definition isdigit (s : string) : bool := nonempty s && all_digits s.

Fixpoint int_acc (acc : Z) (s : string) : Z :=
  match s with
  | EmptyString => acc
  | String c s' => int_acc (10 * acc + (Z.of_nat (nat_of_ascii c) - 48)) s'
  end.

(** The number a string of decimal digits writes. *)
Definition decimal (s : string) : Z := int_acc 0 s.

(** How many decimal digits a string starts with. *)
Fixpoint leading_decimals (s : string) : nat :=
  match s with
  | EmptyString => 0
  | String c s' => if decimal_char c then S (leading_decimals s') else 0
  end.

(** The first [n] characters of [s]. *)
Fixpoint take_chars (n : nat) (s : string) : string :=
  match n, s with
  | S n', String c s' => String c (take_chars n' s')
  | _, _ => EmptyString
  end.

(** The longest run of digits [int] converts,
    [sys.get_int_max_str_digits()]. *)
Definition max_str_digits : Z := 4300.

Definition exceeds_limit (digits : nat) : string :=
  "Exceeds the limit (4300 digits) for integer string conversion: value has "
  +:+ pretty digits
  +:+ " digits; use sys.set_int_max_str_digits() to increase the limit".

(** The message shows the first 200 characters of [repr(s)]. *)
Definition invalid_literal (s : string) : string :=
  "invalid literal for int() with base 10: "
  +:+ take_chars 200 ("'" +:+ s +:+ "'").

(** [int(s)] for a string [s] that [isdigit] accepts: the number, or the
    message of the [ValueError].  The digits are counted as they are
    read, so a run of more than [max_str_digits] of them is refused
    before a character that is no decimal digit is met. *)
Definition int (s : string) : Z + string :=
  let digits := leading_decimals s in
  if (max_str_digits <? Z.of_nat digits)%Z then inr (exceeds_limit digits)
  else if digits <? String.length s then inr (invalid_literal s)
  else inl (decimal s).

(** [s.replace(old, new)] for a non-empty [old]: occurrences are found
    left to right and do not overlap.  [skip] counts the characters of
    the occurrence just replaced that are still to be dropped. *)
Fixpoint replace_from (skip : nat) (old new s : string) : string :=
  match s with
  | EmptyString => EmptyString
  | String c s' =>
      match skip with
      | S k => replace_from k old new s'
      | O =>
          if startswith old s
          then new +:+ replace_from (String.length old - 1) old new s'
          else String c (replace_from 0 old new s')
      end
  end.

Definition replace (old new s : string) : string := replace_from 0 old new s.

(** [re.sub(r'[...]', '', s)] for a class of characters *)
Fixpoint remove_chars (bad : ascii -> bool) (s : string) : string :=
  match s with
  | EmptyString => EmptyString
  | String c s' =>
      if bad c then remove_chars bad s' else String c (remove_chars bad s')
  end.

(** [sep.join(l)] *)
Fixpoint join (sep : string) (l : list string) : string :=
  match l with
  | [] => EmptyString
  | [x] => x
  | x :: rest => x +:+ sep +:+ join sep rest
  end.

(** Iterating over a text file opened with the default universal
    newlines: CR LF and a lone CR read as LF, and every line keeps its
    terminator. *)
Fixpoint readlines (s : string) : list string :=
  match s with
  | EmptyString => []
  | String c s' =>
      if Ascii.eqb c CR then
        match s' with
        | String c' _ =>
            if Ascii.eqb c' LF then readlines s'
            else String LF EmptyString :: readlines s'
        | EmptyString => [String LF EmptyString]
        end
      else if Ascii.eqb c LF then String LF EmptyString :: readlines s'
      else match readlines s' with
           | [] => [String c EmptyString]
           | l :: ls => String c l :: ls
           end
  end.

(** [fnmatch] for the patterns the wrapper uses: literal characters and
    [*], which matches any run of characters. *)
Fixpoint fnmatch (pat : string) : string -> bool :=
  match pat with
  | EmptyString => fun name => negb (nonempty name)
  | String p pat' =>
      if Ascii.eqb p "*"%char then
        fix star (name : string) : bool :=
          if fnmatch pat' name then true
          else match name with
               | EmptyString => false
               | String _ name' => star name'
               end
      else fun name =>
        match name with
        | EmptyString => false
        | String c name' => Ascii.eqb c p && fnmatch pat' name'
        end
  end.

End Py.

Arguments Py.startswith : simpl nomatch.

(** ** Python values, exceptions and results *)

Inductive value :=
| VNone
| VBool (b : bool)
| VInt (n : Z)
| VStr (s : string)
| VList (l : list value)
| VDict (d : gmap string value).

(** The exceptions the wrapper raises or lets through.  [OSError] stands
    for its subclasses other than [FileNotFoundError]
    ([IsADirectoryError], [NotADirectoryError], ...). *)
Inductive exn :=
| CalledProcessError (returncode : Z) (cmd : list string) (out err : string)
| Exception (msg : string)
| FileNotFoundError (msg : string)
| ValueError (msg : string)
| KeyError (key : string)
| IndexError
| TypeError
| AttributeError
| OSError
| JSONDecodeError.

Inductive result (A : Type) :=
| Ok (a : A)
| Raise (e : exn).

Arguments Ok {A} a.
Arguments Raise {A} e.

Definition bind {A B : Type} (r : result A) (k : A -> result B) : result B :=
  match r with
  | Ok a => k a
  | Raise e => Raise e
  end.

Declare Scope py_scope.
Delimit Scope py_scope with py.
Notation "x <- c ;; k" := (bind c (fun x => k))
  (at level 100, c at next level, right associativity) : py_scope.
Open Scope py_scope.

(** [bool(v)] *)
Definition truthy (v : value) : bool :=
  match v with
  | VNone => false
  | VBool b => b
  | VInt n => negb (n =? 0)%Z
  | VStr s => Py.nonempty s
  | VList l => match l with [] => false | _ :: _ => true end
  | VDict d => match map_to_list d with [] => false | _ :: _ => true end
  end.

(** [v == s] for a string literal [s] *)
Definition eq_str (v : value) (s : string) : bool :=
  match v with
  | VStr t => String.eqb t s
  | _ => false
  end.

(** [obj[key]] with a string key: only a dict can be indexed by one. *)
Definition getitem (obj : value) (key : string) : result value :=
  match obj with
  | VDict d =>
      match d !! key with
      | Some v => Ok v
      | None => Raise (KeyError key)
      end
  | _ => Raise TypeError
  end.

(** [obj[key] = v] with a string key *)
Definition setitem (obj : value) (key : string) (v : value) : result value :=
  match obj with
  | VDict d => Ok (VDict (<[key := v]> d))
  | _ => Raise TypeError
  end.

(** [key in obj] for a string [key]: key membership in a dict, substring
    in a string, element in a list; the other values are not iterable. *)
Definition py_in (key : string) (obj : value) : result bool :=
  match obj with
  | VDict d => Ok (match d !! key with Some _ => true | None => false end)
  | VStr s => Ok (Py.contains key s)
  | VList l => Ok (existsb (fun v => eq_str v key) l)
  | _ => Raise TypeError
  end.

Definition dict (items : list (string * value)) : value :=
  VDict (list_to_map items).

(** ** The configuration loader *)

(** The type conversion of [parse_simple_config]. *)
Definition convert (text : string) : result value :=
  if String.eqb (Py.lower text) "true" then Ok (VBool true)
  else if String.eqb (Py.lower text) "false" then Ok (VBool false)
  else if Py.isdigit text then
    match Py.int text with
    | inl n => Ok (VInt n)
    | inr msg => Raise (ValueError msg)
    end
  else Ok (VStr text).

(** The nested-dict construction of [parse_simple_config]: [current]
    walks down [keys[:-1]], creating the dicts that are missing, and
    [keys[-1]] is assigned in the last one.  The dicts are updated in
    place, so each parent sees the update of its child. *)
Fixpoint set_nested (keys : list string) (v : value) (current : value)
  : result value :=
  match keys with
  | [] => Raise IndexError
  | k :: rest =>
      match rest with
      | [] => setitem current k v
      | _ :: _ =>
          present <- py_in k current ;;
          current1 <- (if present then Ok current
                       else setitem current k (VDict ∅)) ;;
          child <- getitem current1 k ;;
          child' <- set_nested rest v child ;;
          setitem current1 k child'
      end
  end.

(** The body of the loop of [parse_simple_config], on one line. *)
Definition parse_line (config : value) (line : string) : result value :=
  let line := Py.strip line in
  if negb (Py.nonempty line) || Py.startswith "#" line then Ok config
  else if Py.contains "=" line then
    match Py.split_once "="%char line with
    | Some (key, value) =>
        let key := Py.strip key in
        value <- convert (Py.strip value) ;;
        set_nested (Py.split "."%char key) value config
    | None => Raise (ValueError "")
    end
  else Ok config.

Fixpoint parse_lines (config : value) (lines : list string) : result value :=
  match lines with
  | [] => Ok config
  | line :: rest => config' <- parse_line config line ;; parse_lines config' rest
  end.

(** [parse_simple_config], on the text of the file. *)
Definition parse_simple_config (content : string) : result value :=
  parse_lines (VDict ∅) (Py.readlines content).

(** [merge_dicts], the local function of [load_config].  [acc] is the
    dict [default], updated in place key by key; the recursion is on the
    dict [custom]. *)
Fixpoint merge_dicts (default : gmap string value) (custom : value)
  {struct custom} : gmap string value :=
  match custom with
  | VDict c =>
      map_fold
        (fun key value acc =>
           match acc !! key, value with
           | Some (VDict d), VDict _ => <[key := VDict (merge_dicts d value)]> acc
           | _, _ => <[key := value]> acc
           end)
        default c
  | _ => default
  end.

Definition default_config : gmap string value :=
  list_to_map
    [ ("pipeline", dict
        [ ("download", dict [ ("enabled", VBool true);
                              ("pages_per_batch", VInt 5);
                              ("auto_confirm", VBool false) ]);
          ("decode", dict [ ("enabled", VBool true);
                            ("mode", VStr "progressive");
                            ("early_exit", VBool true);
                            ("save_images", VBool true) ]);
          ("epub", dict [ ("enabled", VBool true);
                          ("output_name", VStr "auto");
                          ("include_metadata", VBool true) ]) ]);
      ("paths", dict [ ("downloads", VStr "downloads");
                       ("fonts", VStr "fonts");
                       ("output", VStr "output") ]);
      ("batch", dict [ ("continue_on_error", VBool true) ]);
      ("logging", dict [ ("level", VStr "INFO");
                         ("save_logs", VBool true);
                         ("log_file", VStr "kindle_processor.log") ]) ].

(** ** Paths and the file system *)

Inductive node :=
| File (content : string)
| Dir (entries : gmap string node).

(** A [pathlib.Path]: whether it starts at the root, and its components.
    Empty components and [.] are dropped when a path is built. *)
Record Path := { anchored : bool; parts : list string }.

Definition mkPath (s : string) : Path :=
  {| anchored := Py.startswith "/" s;
     parts := filter (fun c : string => c ≠ "" ∧ c ≠ ".") (Py.split "/"%char s) |}.

(** [p / s] *)
Definition joinpath (p : Path) (s : string) : Path :=
  let q := mkPath s in
  if anchored q then q
  else {| anchored := anchored p; parts := parts p ++ parts q |}.

(** [str(p)] *)
Definition path_str (p : Path) : string :=
  if anchored p then "/" +:+ Py.join "/" (parts p)
  else match parts p with
       | [] => "."
       | _ :: _ => Py.join "/" (parts p)
       end.

Fixpoint lookup_path (p : list string) (n : node) : option node :=
  match p with
  | [] => Some n
  | name :: rest =>
      match n with
      | Dir es =>
          match es !! name with
          | Some child => lookup_path rest child
          | None => None
          end
      | File _ => None
      end
  end.

(** [p.exists()] *)
Definition path_exists (p : Path) (root : node) : bool :=
  match lookup_path (parts p) root with
  | Some _ => true
  | None => false
  end.

(** [list(p.glob(pattern))] for a pattern without a separator: the names
    of the entries of the directory [p] that match; nothing when [p] is
    not a directory. *)
Definition glob (pattern : string) (p : Path) (root : node) : list string :=
  match lookup_path (parts p) root with
  | Some (Dir es) => List.filter (Py.fnmatch pattern) (map fst (map_to_list es))
  | _ => []
  end.

(** Removing what is at a path, whatever it is. *)
Fixpoint remove_path (p : list string) (n : node) : node :=
  match p with
  | [] => n
  | name :: rest =>
      match n with
      | Dir es =>
          match rest with
          | [] => Dir (delete name es)
          | _ :: _ =>
              match es !! name with
              | Some child => Dir (<[name := remove_path rest child]> es)
              | None => n
              end
          end
      | File _ => n
      end
  end.

(** [shutil.rmtree(p, ignore_errors=True)]: a directory goes with all it
    holds; on anything else the error is swallowed. *)
Definition rmtree_ignore_errors (p : list string) (root : node) : node :=
  match lookup_path p root with
  | Some (Dir _) => remove_path p root
  | _ => root
  end.

(** [p.unlink(missing_ok=True)] *)
Definition unlink_missing_ok (p : list string) (root : node) : result node :=
  match lookup_path p root with
  | Some (File _) => Ok (remove_path p root)
  | Some (Dir _) => Raise OSError
  | None => Ok root
  end.

(** [open(p).read()] *)
Definition read_text (p : Path) (root : node) : result string :=
  match lookup_path (parts p) root with
  | Some (File content) => Ok content
  | Some (Dir _) => Raise OSError
  | None => Raise (FileNotFoundError (path_str p))
  end.

(** [open(p, 'w').write(content)] *)
Fixpoint write_text (p : list string) (content : string) (n : node)
  : result node :=
  match p with
  | [] => Raise OSError
  | name :: rest =>
      match n with
      | File _ => Raise OSError
      | Dir es =>
          match rest with
          | [] =>
              match es !! name with
              | Some (Dir _) => Raise OSError
              | _ => Ok (Dir (<[name := File content]> es))
              end
          | _ :: _ =>
              match es !! name with
              | Some child =>
                  child' <- write_text rest content child ;;
                  Ok (Dir (<[name := child']> es))
              | None => Raise (FileNotFoundError name)
              end
          end
      end
  end.

(** [load_config] *)
Definition load_config (root : node) (config_file : option string)
  : result (gmap string value) :=
  match config_file with
  | Some f =>
      if Py.nonempty f && path_exists (mkPath f) root then
        content <- read_text (mkPath f) root ;;
        custom_config <- parse_simple_config content ;;
        Ok (merge_dicts default_config custom_config)
      else Ok default_config
  | None => Ok default_config
  end.

(** ** Command-line overrides ([main]) *)

Record Args := {
  arg_asin : option string;
  arg_config : option string;
  arg_fast : bool;
  arg_full : bool;
  arg_progressive : bool;
  arg_yes : bool;
  arg_output_name : option string;
  arg_skip_download : bool;
  arg_skip_decode : bool;
  arg_skip_epub : bool;
  arg_batch : option string
}.

(** [config[a][b][c]] *)
Definition get3 (config : gmap string value) (a b c : string) : result value :=
  sec <- getitem (VDict config) a ;;
  sub <- getitem sec b ;;
  getitem sub c.

(** [config[a][b][c] = v] *)
Definition set3 (config : gmap string value) (a b c : string) (v : value)
  : result (gmap string value) :=
  sec <- getitem (VDict config) a ;;
  sub <- getitem sec b ;;
  sub' <- setitem sub c v ;;
  sec' <- setitem sec b sub' ;;
  Ok (<[a := sec']> config).

Definition set3_if (cond : bool) (a b c : string) (v : value)
    (config : gmap string value) : result (gmap string value) :=
  if cond then set3 config a b c v else Ok config.

(** The overrides that [main] applies to the loaded configuration. *)
Definition apply_cli_overrides (args : Args) (config : gmap string value)
  : result (gmap string value) :=
  config <- (if arg_fast args then set3 config "pipeline" "decode" "mode" (VStr "fast")
             else if arg_full args then set3 config "pipeline" "decode" "mode" (VStr "full")
             else if arg_progressive args
                  then set3 config "pipeline" "decode" "mode" (VStr "progressive")
             else Ok config) ;;
  config <- set3_if (arg_yes args) "pipeline" "download" "auto_confirm" (VBool true) config ;;
  config <- (match arg_output_name args with
             | Some name =>
                 set3_if (Py.nonempty name) "pipeline" "epub" "output_name" (VStr name) config
             | None => Ok config
             end) ;;
  config <- set3_if (arg_skip_download args) "pipeline" "download" "enabled" (VBool false) config ;;
  config <- set3_if (arg_skip_decode args) "pipeline" "decode" "enabled" (VBool false) config ;;
  set3_if (arg_skip_epub args) "pipeline" "epub" "enabled" (VBool false) config.

(** The configuration [main] hands to the processors. *)
Definition configure (root : node) (args : Args) : result (gmap string value) :=
  config <- load_config root (arg_config args) ;;
  apply_cli_overrides args config.

(** ** The host: processes, the operating system, the interpreter *)

(** One entry of the batch report: [{"asin", "status": "success"}] or
    [{"asin", "status": "failed", "error"}]. *)
Inductive batch_record :=
| RSuccess (asin : string)
| RFailed (asin : string) (error : string).

Definition record_asin (r : batch_record) : string :=
  match r with
  | RSuccess a => a
  | RFailed a _ => a
  end.

Definition is_success (r : batch_record) : bool :=
  match r with
  | RSuccess _ => true
  | RFailed _ _ => false
  end.

(** What a run lets an observer see, in order: the processes started and
    the banners printed. *)
Inductive event :=
| EvRun (cmd : list string)
| EvStep (i n : nat) (name : string)
| EvStepOk (name : string)
| EvStepFailed (name : string)
| EvCleanup
| EvPipelineOk (asin : string)
| EvBook (i n : nat) (asin : string)
| EvSummary (results : list batch_record).

(** A [subprocess.CompletedProcess] *)
Record completed := { returncode : Z; stdout : string; stderr : string }.

Record Host := {
  (** the state of everything outside the file tree *)
  Ext : Type;
  (** running a command to completion *)
  spawn : list string -> Ext -> node -> completed * Ext * node;
  (** [os.rename], whose outcome depends on the platform *)
  os_rename : Path -> Path -> node -> result node;
  (** [json.loads]; [None] when the text is not JSON *)
  json_loads : string -> option value;
  (** [json.dumps(results, indent=2)] *)
  json_dumps : list batch_record -> string;
  (** [str(e)] *)
  str_exn : exn -> string;
  (** [datetime.now().strftime('%Y%m%d_%H%M%S')] *)
  strftime_now : Ext -> string
}.

Section Wrapper.

Context (H : Host).

Record world := { fs : node; ext : Ext H; events : list event }.

(** A computation that may raise and that changes the world either way. *)
Definition M (A : Type) : Type := world -> result A * world.

Definition ret {A : Type} (a : A) : M A := fun w => (Ok a, w).

Definition raise {A : Type} (e : exn) : M A := fun w => (Raise e, w).

Definition mbind {A B : Type} (c : M A) (k : A -> M B) : M B :=
  fun w =>
    match c w with
    | (Ok a, w') => k a w'
    | (Raise e, w') => (Raise e, w')
    end.

Notation "x <~ c ;; k" := (mbind c (fun x => k))
  (at level 100, c at next level, right associativity) : py_scope.

Definition lift {A : Type} (r : result A) : M A := fun w => (r, w).

(** [try: c  except Exception as e: handler(e)] *)
Definition try_except {A : Type} (c : M A) (handler : exn -> M A) : M A :=
  fun w =>
    match c w with
    | (Ok a, w') => (Ok a, w')
    | (Raise e, w') => handler e w'
    end.

Definition log (e : event) (w : world) : world :=
  {| fs := fs w; ext := ext w; events := events w ++ [e] |}.

Definition emit (e : event) : M unit := fun w => (Ok tt, log e w).

Definition get_fs : M node := fun w => (Ok (fs w), w).

Definition put_fs (root : node) : M unit :=
  fun w => (Ok tt, {| fs := root; ext := ext w; events := events w |}).

(** [subprocess.run(cmd, capture_output=True, text=True, check=True)] *)
Definition subprocess_run (cmd : list string) : M completed :=
  fun w =>
    let '(r, ext', fs') := spawn H cmd (ext w) (fs w) in
    let w' := {| fs := fs'; ext := ext'; events := events w ++ [EvRun cmd] |} in
    if (returncode r =? 0)%Z then (Ok r, w')
    else (Raise (CalledProcessError (returncode r) cmd (stdout r) (stderr r)), w').

(** ** The single-book processor *)

Record KindleProcessor := {
  asin : string;
  config : gmap string value;
  book_dir : Path
}.

(** [KindleProcessor.__init__] *)
Definition new_processor (asin : string) (config : gmap string value)
  : result KindleProcessor :=
  paths <- getitem (VDict config) "paths" ;;
  downloads <- getitem paths "downloads" ;;
  match downloads with
  | VStr d => Ok {| asin := asin; config := config;
                    book_dir := joinpath (mkPath d) asin |}
  | _ => Raise TypeError
  end.

(** An entry of a directory, as [glob] yields it. *)
Definition entry (p : Path) (name : string) : Path :=
  {| anchored := anchored p; parts := parts p ++ [name] |}.

Definition is_nil {A : Type} (l : list A) : bool :=
  match l with [] => true | _ :: _ => false end.

Definition mapping_file : Path := mkPath "ttf_character_mapping.json".
Definition epub_file : Path := mkPath "decoded_book.epub".

(** The command line of [download_book]. *)
Definition download_cmd (self : KindleProcessor) : result (list string) :=
  let cmd := ["python3"; "download_full_book.py"; asin self] in
  auto_confirm <- get3 (config self) "pipeline" "download" "auto_confirm" ;;
  Ok (if truthy auto_confirm then cmd ++ ["--yes"] else cmd).

Definition download_book (self : KindleProcessor) : M unit :=
  cmd <~ lift (download_cmd self) ;;
  _ <~ subprocess_run cmd ;;
  root <~ get_fs ;;
  if negb (path_exists (book_dir self) root) then
    raise (Exception ("Download failed - book directory not created: "
                      +:+ path_str (book_dir self)))
  else if is_nil (glob "batch_*" (book_dir self) root) then
    raise (Exception "Download failed - no batch directories found")
  else ret tt.

(** The command line of [decode_glyphs]. *)
Definition decode_cmd (self : KindleProcessor) : result (list string) :=
  let cmd := ["python3"; "decode_glyphs_complete.py"; path_str (book_dir self)] in
  pipeline <- getitem (VDict (config self)) "pipeline" ;;
  decode_config <- getitem pipeline "decode" ;;
  mode <- getitem decode_config "mode" ;;
  Ok (if eq_str mode "fast" then cmd ++ ["--fast"]
      else if eq_str mode "full" then cmd ++ ["--full"]
      else if eq_str mode "progressive" then cmd ++ ["--progressive"]
      else cmd).

Definition decode_glyphs (self : KindleProcessor) : M unit :=
  cmd <~ lift (decode_cmd self) ;;
  _ <~ subprocess_run cmd ;;
  root <~ get_fs ;;
  if negb (path_exists mapping_file root) then
    raise (Exception "Decode failed - character mapping file not created")
  else ret tt.

(** The character class of the [re.sub] of [create_epub]: the angle
    brackets, the colon, the double quote (code 34), both slashes, the
    bar, the question mark and the star. *)
Definition illegal_char (c : ascii) : bool :=
  existsb (Ascii.eqb c)
    ["<"; ">"; ":"; ascii_of_nat 34; "/"; "\"; "|"; "?"; "*"]%char.

(** The title [create_epub] names the book with. *)
Definition clean_title (self : KindleProcessor) (root : node) : result string :=
  let metadata_file :=
    joinpath (joinpath (book_dir self) "batch_0") "metadata.json" in
  if path_exists metadata_file root then
    text <- read_text metadata_file root ;;
    metadata <- (match json_loads H text with
                 | Some v => Ok v
                 | None => Raise JSONDecodeError
                 end) ;;
    book_title <- (match metadata with
                   | VDict d => Ok (default (VStr (asin self)) (d !! "bookTitle"))
                   | _ => Raise AttributeError
                   end) ;;
    match book_title with
    | VStr t => Ok (Py.strip (Py.remove_chars illegal_char t))
    | _ => Raise TypeError
    end
  else Ok (asin self).

(** The file name [create_epub] renames the book to. *)
Definition custom_name (output_name : value) (asin clean_title : string)
  : result string :=
  if eq_str output_name "auto" then Ok (clean_title +:+ ".epub")
  else match output_name with
       | VStr t =>
           let name := Py.replace "{title}" clean_title
                         (Py.replace "{asin}" asin t) in
           Ok (if Py.endswith ".epub" name then name else name +:+ ".epub")
       | _ => Raise AttributeError
       end.

(** The command line of [create_epub]. *)
Definition create_epub_cmd (self : KindleProcessor) : list string :=
  ["python3"; "create_epub.py"; path_str (book_dir self)].

Definition create_epub (self : KindleProcessor) : M unit :=
  _ <~ subprocess_run (create_epub_cmd self) ;;
  root <~ get_fs ;;
  if negb (path_exists epub_file root) then
    raise (Exception "EPUB creation failed - output file not found")
  else
    title <~ lift (clean_title self root) ;;
    output_name <~ lift (get3 (config self) "pipeline" "epub" "output_name") ;;
    name <~ lift (custom_name output_name (asin self) title) ;;
    root' <~ lift (os_rename H epub_file (mkPath name) root) ;;
    put_fs root'.

Definition is_complete_batch (batch_dir : Path) (root : node) : bool :=
  forallb (fun pattern => negb (is_nil (glob pattern batch_dir root)))
    ["page_data_*.json"].

(** The first loop of [cleanup_on_failure], over the globbed names. *)
Definition remove_incomplete (book_dir : Path) (names : list string)
    (root : node) : node :=
  foldl (fun root name =>
           let batch_dir := entry book_dir name in
           if is_complete_batch batch_dir root then root
           else rmtree_ignore_errors (parts batch_dir) root)
        root names.

(** The second loop of [cleanup_on_failure]. *)
Fixpoint remove_partial (files : list string) : M unit :=
  match files with
  | [] => ret tt
  | file_path :: rest =>
      let path := mkPath file_path in
      root <~ get_fs ;;
      _ <~ (if path_exists path root then
              root' <~ lift (unlink_missing_ok (parts path) root) ;;
              put_fs root'
            else ret tt) ;;
      remove_partial rest
  end.

Definition cleanup_on_failure (self : KindleProcessor) : M unit :=
  _ <~ emit EvCleanup ;;
  root <~ get_fs ;;
  _ <~ (if path_exists (book_dir self) root then
          put_fs (remove_incomplete (book_dir self)
                    (glob "batch_*" (book_dir self) root) root)
        else ret tt) ;;
  remove_partial ["ttf_character_mapping.json"; "decoded_book.epub"].

Inductive step := DownloadBook | DecodeGlyphs | CreateEpub.

Definition step_name (s : step) : string :=
  match s with
  | DownloadBook => "Download Book"
  | DecodeGlyphs => "Decode Glyphs"
  | CreateEpub => "Create EPUB"
  end.

Definition step_func (self : KindleProcessor) (s : step) : M unit :=
  match s with
  | DownloadBook => download_book self
  | DecodeGlyphs => decode_glyphs self
  | CreateEpub => create_epub self
  end.

(** The step list of [run_pipeline]. *)
Definition build_steps (self : KindleProcessor) : result (list step) :=
  download <- get3 (config self) "pipeline" "download" "enabled" ;;
  let steps := if truthy download then [DownloadBook] else [] in
  decode <- get3 (config self) "pipeline" "decode" "enabled" ;;
  let steps := steps ++ (if truthy decode then [DecodeGlyphs] else []) in
  epub <- get3 (config self) "pipeline" "epub" "enabled" ;;
  Ok (steps ++ (if truthy epub then [CreateEpub] else [])).

(** The loop of [run_pipeline] from step number [i] of [n] on. *)
Fixpoint run_steps (self : KindleProcessor) (n i : nat) (steps : list step)
  : M unit :=
  match steps with
  | [] => ret tt
  | s :: rest =>
      _ <~ emit (EvStep i n (step_name s)) ;;
      _ <~ try_except
             (_ <~ step_func self s ;; emit (EvStepOk (step_name s)))
             (fun e =>
                _ <~ emit (EvStepFailed (step_name s)) ;;
                _ <~ cleanup_on_failure self ;;
                raise e) ;;
      run_steps self n (S i) rest
  end.

Definition run_pipeline (self : KindleProcessor) : M unit :=
  steps <~ lift (build_steps self) ;;
  _ <~ run_steps self (length steps) 1 steps ;;
  emit (EvPipelineOk (asin self)).

(** ** The batch processor *)

(** The list comprehension of [process_batch]. *)
Fixpoint load_asins (lines : list string) : list string :=
  match lines with
  | [] => []
  | line :: rest =>
      if Py.nonempty (Py.strip line) && negb (Py.startswith "#" line)
      then Py.strip line :: load_asins rest
      else load_asins rest
  end.

(** The head of [process_batch]: the identifiers of the list file. *)
Definition read_book_list (book_list_file : string) (root : node)
  : result (list string) :=
  let file := mkPath book_list_file in
  if negb (path_exists file root) then
    Raise (FileNotFoundError ("Book list file not found: " +:+ path_str file))
  else
    text <- read_text file root ;;
    let asins := load_asins (Py.readlines text) in
    if is_nil asins then Raise (ValueError ("No ASINs found in " +:+ path_str file))
    else Ok asins.

(** [self.config.get('batch', {}).get('continue_on_error', True)] *)
Definition continue_on_error (config : gmap string value) : result value :=
  match default (VDict ∅) (config !! "batch") with
  | VDict batch => Ok (default (VBool true) (batch !! "continue_on_error"))
  | _ => Raise AttributeError
  end.

(** The body of the [try] of the batch loop. *)
Definition process_one (config : gmap string value) (asin : string) : M unit :=
  processor <~ lift (new_processor asin config) ;;
  run_pipeline processor.

(** The loop of [process_batch] from book number [i] of [n] on;
    [results] is the list the loop appends to. *)
Fixpoint batch_loop (config : gmap string value) (n i : nat)
    (asins : list string) (results : list batch_record)
  : M (list batch_record) :=
  match asins with
  | [] => ret results
  | asin :: rest =>
      _ <~ emit (EvBook i n asin) ;;
      fun w =>
        match process_one config asin w with
        | (Ok _, w') =>
            batch_loop config n (S i) rest (results ++ [RSuccess asin]) w'
        | (Raise e, w') =>
            let results := results ++ [RFailed asin (str_exn H e)] in
            match continue_on_error config with
            | Ok flag =>
                if truthy flag then batch_loop config n (S i) rest results w'
                else (Ok results, w')
            | Raise e' => (Raise e', w')
            end
        end
  end.

Definition generate_batch_report (results : list batch_record) : M unit :=
  _ <~ emit (EvSummary results) ;;
  fun w =>
    let report_file :=
      mkPath ("batch_report_" +:+ strftime_now H (ext w) +:+ ".json") in
    match write_text (parts report_file) (json_dumps H results) (fs w) with
    | Ok root' => put_fs root' w
    | Raise e => (Raise e, w)
    end.

Definition process_batch (book_list_file : string) (config : gmap string value)
  : M unit :=
  root <~ get_fs ;;
  asins <~ lift (read_book_list book_list_file root) ;;
  results <~ batch_loop config (length asins) 1 asins [] ;;
  generate_batch_report results.

End Wrapper.

(** ** The prerequisites and the entry point *)

Definition required_scripts : list string :=
  ["download_full_book.py"; "decode_glyphs_complete.py"; "create_epub.py"].

(** The first loop of [check_prerequisites]. *)
Fixpoint check_scripts (scripts : list string) (root : node) : result unit :=
  match scripts with
  | [] => Ok tt
  | script :: rest =>
      if negb (path_exists (mkPath script) root)
      then Raise (FileNotFoundError ("Required script not found: " +:+ script))
      else check_scripts rest root
  end.

Definition check_prerequisites (root : node) : result unit :=
  _ <- check_scripts required_scripts root ;;
  if negb (path_exists (mkPath "headers.json") root) then
    Raise (FileNotFoundError
             "headers.json not found - please create from headers.example.json")
  else
    let fonts_dir := mkPath "fonts" in
    if negb (path_exists fonts_dir root) then
      Raise (FileNotFoundError "fonts/ directory not found")
    else if is_nil (glob "*.ttf" fonts_dir root) then
      Raise (FileNotFoundError "No TTF font files found in fonts/ directory")
    else Ok tt.

(** The two lists of [generate_batch_report]: the records whose status
    is [success], and those whose status is [failed]. *)
Definition is_failed (r : batch_record) : bool :=
  match r with
  | RSuccess _ => false
  | RFailed _ _ => true
  end.

Definition successful (results : list batch_record) : list batch_record :=
  List.filter is_success results.

Definition failed (results : list batch_record) : list batch_record :=
  List.filter is_failed results.

(** How a run of the program ends: [main] returns, or the interpreter
    exits with a status. *)
Inductive outcome :=
| Returned
| Exited (status : Z).

(** [args.asin] and [args.batch] read as conditions: given and not
    empty. *)
Definition given (o : option string) : bool :=
  match o with
  | Some s => Py.nonempty s
  | None => false
  end.

(** What [parser.parse_args()] makes of a command line: the arguments,
    or an exit of its own, with status 0 after [--help] and 2 after a
    command line it rejects. *)
Inductive parsed :=
| Parsed (args : Args)
| ParserExit (status : Z).

Section Main.

Context (H : Host).

(** [argparse] on the parser of [create_parser]. *)
Context (parse_args : list string -> parsed).

Notation "x <~ c ;; k" := (mbind H c (fun x => k))
  (at level 100, c at next level, right associativity) : py_scope.

(** The [try] block of [main]. *)
Definition main_body (args : Args) : M H unit :=
  root <~ get_fs H ;;
  _ <~ lift H (check_prerequisites root) ;;
  config <~ lift H (configure root args) ;;
  if given (arg_batch args) then
    match arg_batch args with
    | Some book_list_file => process_batch H book_list_file config
    | None => raise H TypeError
    end
  else
    match arg_asin args with
    | Some asin => process_one H config asin
    | None => raise H TypeError
    end.

(** [main] on the command line [argv]: an exit of [parse_args] ends the
    run, [parser.error] exits with status 2, the handler of the [try]
    block with status 1. *)
Definition main (argv : list string) : world H -> outcome * world H :=
  fun w =>
    match parse_args argv with
    | ParserExit status => (Exited status, w)
    | Parsed args =>
        if negb (given (arg_asin args)) && negb (given (arg_batch args))
        then (Exited 2, w)
        else if given (arg_asin args) && given (arg_batch args)
        then (Exited 2, w)
        else match main_body args w with
             | (Ok _, w') => (Returned, w')
             | (Raise _, w') => (Exited 1, w')
             end
    end.

End Main.

(** ** Definitions used to state the properties *)

(** A line is blank when all its characters are white space. *)
Fixpoint blank (s : string) : bool :=
  match s with
  | EmptyString => true
  | String c s' => Py.isspace c && blank s'
  end.

(** The identifier list in the words of the specification: the lines that
    are not blank and do not start with [#], each one trimmed. *)
Definition spec_keeps (line : string) : bool :=
  negb (blank line) && negb (Py.startswith "#" line).

Definition spec_identifiers (lines : list string) : list string :=
  map Py.strip (List.filter spec_keeps lines).

(** The list file of the scenario: [ID1], a comment, a line holding one
    space, [ID2]. *)
Definition scenario_list : string :=
  "ID1" +:+ String Py.LF "" +:+ "# comment" +:+ String Py.LF ""
  +:+ " " +:+ String Py.LF "" +:+ "ID2" +:+ String Py.LF "".

Definition scenario_root : node :=
  Dir (<["book_list.txt" := File scenario_list]> ∅).

(** A text that neither starts nor ends with white space. *)
Definition space_free_ends (t : string) : Prop :=
  (forall c rest, t = String c rest -> Py.isspace c = false)
  /\ (forall init c, t = init +:+ String c "" -> Py.isspace c = false).

(** [t] is [s] without the white space at its two ends. *)
Definition trimmed_of (s t : string) : Prop :=
  (exists pre post,
     s = pre +:+ t +:+ post /\ blank pre = true /\ blank post = true)
  /\ space_free_ends t.

(** A list file whose lines are padded: [ID1] between spaces, a [#]
    after a tab, an empty line, [ID2] before a carriage return. *)
Definition padded_list : string :=
  "  ID1 " +:+ String Py.LF ""
  +:+ String (ascii_of_nat 9) "# note" +:+ String Py.LF ""
  +:+ String Py.LF ""
  +:+ "ID2" +:+ String Py.CR (String Py.LF "").

Definition padded_root : node :=
  Dir (<["padded.txt" := File padded_list]> ∅).

(** A text of decimal digits only. *)
Fixpoint decimals (s : string) : bool :=
  match s with
  | EmptyString => true
  | String c s' => Py.decimal_char c && decimals s'
  end.

(** The digit 1, [n] times. *)
Definition ones (n : nat) : string := Nat.iter n (String "1") "".

(** The value at a dotted path of nested dicts. *)
Fixpoint get_path (keys : list string) (v : value) : option value :=
  match keys with
  | [] => Some v
  | k :: rest =>
      match v with
      | VDict d =>
          match d !! k with
          | Some child => get_path rest child
          | None => None
          end
      | _ => None
      end
  end.

(** A dotted key can be stored under [current] when every prefix of it
    that is already bound is bound to a dict. *)
Fixpoint path_free (keys : list string) (current : value) : Prop :=
  match keys with
  | [] => False
  | k :: rest =>
      match current with
      | VDict d =>
          match rest with
          | [] => True
          | _ :: _ =>
              match d !! k with
              | Some child => path_free rest child
              | None => True
              end
          end
      | _ => False
      end
  end.

(** A line that [parse_simple_config] passes over. *)
Definition skipped (line : string) : Prop :=
  blank line = true
  \/ Py.startswith "#" (Py.strip line) = true
  \/ Py.contains "=" (Py.strip line) = false.

(** The type conversion in the words of the specification: the strings
    [true] and [false] become booleans, a string of digits becomes an
    integer, anything else stays a string. *)
Definition spec_convert (text : string) : value :=
  if String.eqb text "true" then VBool true
  else if String.eqb text "false" then VBool false
  else if Py.isdigit text then VInt (Py.decimal text)
  else VStr text.

(** An override file that changes a default, replaces a section by a
    scalar and adds a section. *)
Definition override_text : string :=
  "pipeline.decode.mode = fast" +:+ String Py.LF ""
  +:+ "logging = 0" +:+ String Py.LF ""
  +:+ "extra.key = yes" +:+ String Py.LF "".

Definition override_root : node :=
  Dir (<["my_config.txt" := File override_text]> ∅).

Definition override_dict : gmap string value :=
  list_to_map
    [ ("pipeline", dict [ ("decode", dict [ ("mode", VStr "fast") ]) ]);
      ("logging", VInt 0);
      ("extra", dict [ ("key", VStr "yes") ]) ].

(** A host for the examples: every executable succeeds and changes
    nothing, [os.rename] moves what is at the root of the tree, and the
    JSON decoder reads [{}] as the empty object and any other text as an
    object whose [bookTitle] is that text. *)
Definition exit_ok : completed := {| returncode := 0; stdout := ""; stderr := "" |}.

Definition move_entry (src dst : Path) (root : node) : result node :=
  match parts src, parts dst, root with
  | [s], [d], Dir es =>
      match es !! s with
      | Some n => Ok (Dir (<[d := n]> (delete s es)))
      | None => Raise (FileNotFoundError s)
      end
  | _, _, _ => Raise OSError
  end.

Definition idle_host : Host :=
  {| Ext := unit;
     spawn := fun _ e root => (exit_ok, e, root);
     os_rename := move_entry;
     json_loads := fun text =>
                     if String.eqb text "{}" then Some (VDict ∅)
                     else Some (dict [("bookTitle", VStr text)]);
     json_dumps := fun results => Py.join "," (map record_asin results);
     str_exn := fun e => match e with
                         | Exception msg | FileNotFoundError msg
                         | ValueError msg => msg
                         | _ => "error"
                         end;
     strftime_now := fun _ => "20260101_000000" |}.

(** A book directory that holds [batch_0/metadata.json] with the given
    text, under [downloads]. *)
Definition book_root (asin metadata : string) : node :=
  Dir {[ "downloads" :=
         Dir {[ asin :=
                Dir {[ "batch_0" :=
                       Dir {[ "metadata.json" := File metadata ]} ]} ]} ]}.

Definition book (asin : string) : KindleProcessor :=
  {| asin := asin; config := default_config;
     book_dir := joinpath (mkPath "downloads") asin |}.

(** A book whose configuration asks for the decode mode [turbo]. *)
Definition turbo_book : KindleProcessor :=
  {| asin := "B0FLBTR2FS";
     config := merge_dicts default_config
                 (dict [("pipeline", dict [("decode", dict [("mode", VStr "turbo")])])]);
     book_dir := joinpath (mkPath "downloads") "B0FLBTR2FS" |}.

Definition start (H : Host) (root : node) (e : Ext H) : world H :=
  {| fs := root; ext := e; events := [] |}.

(** What the first loop of [cleanup_on_failure] removes: a directory
    that holds no entry named [page_data_*.json]. *)
Definition incomplete (o : option node) : bool :=
  match o with
  | Some (Dir sub) =>
      is_nil (List.filter (Py.fnmatch "page_data_*.json") (map fst (map_to_list sub)))
  | _ => false
  end.

(** The entries of the book directory after that loop. *)
Definition prune (names : list string) (es : gmap string node) : gmap string node :=
  foldl (fun es name => if incomplete (es !! name) then delete name es else es)
        es names.

(** The second loop of [cleanup_on_failure] on the file tree alone. *)
Fixpoint unlink_all (files : list string) (root : node) : result unit * node :=
  match files with
  | [] => (Ok tt, root)
  | file_path :: rest =>
      let path := mkPath file_path in
      if path_exists path root then
        match unlink_missing_ok (parts path) root with
        | Ok root' => unlink_all rest root'
        | Raise e => (Raise e, root)
        end
      else unlink_all rest root
  end.

(** A name under which the current directory holds no directory. *)
Definition no_dir_at (name : string) (root : node) : Prop :=
  forall es, lookup_path [name] root ≠ Some (Dir es).

(** A file name that is a path of one component. *)
Definition single_name (f : string) : Prop := parts (mkPath f) = [f].

(** A tree left by a failed run: one batch with page data, one without,
    and a character mapping in the current directory. *)
Definition failed_root : node :=
  Dir {[ "downloads" :=
           Dir {[ "B0FLBTR2FS" :=
                    Dir (<[ "batch_0" :=
                              Dir (<[ "page_data_0_4.json" := File "[]" ]>
                                     {[ "metadata.json" := File "{}" ]}) ]>
                           {[ "batch_1" := Dir {[ "metadata.json" := File "{}" ]} ]}) ]};
         "ttf_character_mapping.json" := File "{}" ]}.

(** A tree in which the character mapping is a directory, the EPUB a
    file, and the only batch holds a directory named like page data. *)
Definition blocked_root : node :=
  Dir {[ "downloads" :=
           Dir {[ "B0FLBTR2FS" :=
                    Dir {[ "batch_6" := Dir {[ "page_data_1.json" := Dir ∅ ]} ]} ]};
         "ttf_character_mapping.json" := Dir ∅;
         "decoded_book.epub" := File "epub" ]}.

(** A book directory that holds a file named like a batch, and nothing
    else. *)
Definition notes_root : node :=
  Dir {[ "downloads" :=
           Dir {[ "B0FLBTR2FS" := Dir {[ "batch_notes.txt" := File "" ]} ]} ]}.

(** A current directory in which the name of the EPUB is a directory. *)
Definition epub_dir_root : node := Dir {[ "decoded_book.epub" := Dir ∅ ]}.

(** The command line of a step. *)
Definition step_cmd (self : KindleProcessor) (s : step) : result (list string) :=
  match s with
  | DownloadBook => download_cmd self
  | DecodeGlyphs => decode_cmd self
  | CreateEpub => Ok (create_epub_cmd self)
  end.

(** The executable of a step. *)
Definition step_script (s : step) : string :=
  match s with
  | DownloadBook => "download_full_book.py"
  | DecodeGlyphs => "decode_glyphs_complete.py"
  | CreateEpub => "create_epub.py"
  end.

(** The artifact a step must find once its process has returned:
    the book directory with an entry named [batch_*]; the character
    mapping; the EPUB. *)
Definition artifact_present (self : KindleProcessor) (s : step) (root : node)
  : bool :=
  match s with
  | DownloadBook =>
      path_exists (book_dir self) root
      && negb (is_nil (glob "batch_*" (book_dir self) root))
  | DecodeGlyphs => path_exists mapping_file root
  | CreateEpub => path_exists epub_file root
  end.

(** The world once a process has returned. *)
Definition ran (H : Host) (cmd : list string) (w : world H)
    (ext' : Ext H) (fs' : node) : world H :=
  {| fs := fs'; ext := ext'; events := events H w ++ [EvRun cmd] |}.

(** What [except ...: cleanup_on_failure(); raise] makes of a failed
    step. *)
Definition reraise_after_cleanup (H : Host) (self : KindleProcessor)
    (e : exn) (w : world H) : result unit * world H :=
  match cleanup_on_failure H self w with
  | (Ok _, w') => (Raise e, w')
  | (Raise e', w') => (Raise e', w')
  end.

(** The events of [run_steps] from step number [i] on: a step that
    succeeds shows its banner, its process and its success; the first
    step that fails shows its banner, its process if it got that far, its
    failure and the cleanup, and ends the trace.  The flag tells whether
    every step succeeded. *)
Inductive steps_trace (self : KindleProcessor) (n : nat)
  : nat -> list step -> list event -> bool -> Prop :=
| trace_done i : steps_trace self n i [] [] true
| trace_ok i s rest cmd evs ok :
    step_cmd self s = Ok cmd ->
    steps_trace self n (S i) rest evs ok ->
    steps_trace self n i (s :: rest)
      (EvStep i n (step_name s) :: EvRun cmd :: EvStepOk (step_name s) :: evs) ok
| trace_no_process i s rest :
    steps_trace self n i (s :: rest)
      [EvStep i n (step_name s); EvStepFailed (step_name s); EvCleanup] false
| trace_failed i s rest cmd :
    step_cmd self s = Ok cmd ->
    steps_trace self n i (s :: rest)
      [EvStep i n (step_name s); EvRun cmd; EvStepFailed (step_name s); EvCleanup]
      false.

(** A run with [--skip-decode] over the default configuration. *)
Definition skip_decode_args : Args :=
  {| arg_asin := Some "B0FLBTR2FS"; arg_config := None;
     arg_fast := false; arg_full := false; arg_progressive := false;
     arg_yes := false; arg_output_name := None;
     arg_skip_download := false; arg_skip_decode := true; arg_skip_epub := false;
     arg_batch := None |}.

Definition skip_decode_book : KindleProcessor :=
  {| asin := "B0FLBTR2FS";
     config := match apply_cli_overrides skip_decode_args default_config with
               | Ok config => config
               | Raise _ => default_config
               end;
     book_dir := joinpath (mkPath "downloads") "B0FLBTR2FS" |}.

(** The identifiers a run started on, in order: those of the [BOOK i/n]
    banners, printed at the top of every round of the batch loop. *)
Definition book_of (e : event) : option string :=
  match e with
  | EvBook _ _ asin => Some asin
  | _ => None
  end.

Definition books (evs : list event) : list string := omap book_of evs.

(** The batch loop in the words of the specification, from book number
    [i] on: the identifiers are taken in order; one that succeeds is
    recorded as a success, one that fails as a failure with the message
    of the exception; after a failure the loop goes on when
    [continue_on_error] is true and stops, the rest untouched, when it is
    false. *)
Inductive batch_run (H : Host) (config : gmap string value) (n : nat)
  : nat -> list string -> world H -> list batch_record -> world H -> Prop :=
| batch_end i w : batch_run H config n i [] w [] w
| batch_success i asin rest w w1 rs w2 :
    process_one H config asin (log H (EvBook i n asin) w) = (Ok tt, w1) ->
    batch_run H config n (S i) rest w1 rs w2 ->
    batch_run H config n i (asin :: rest) w (RSuccess asin :: rs) w2
| batch_failure_continue i asin rest w e w1 rs w2 flag :
    process_one H config asin (log H (EvBook i n asin) w) = (Raise e, w1) ->
    continue_on_error config = Ok flag -> truthy flag = true ->
    batch_run H config n (S i) rest w1 rs w2 ->
    batch_run H config n i (asin :: rest) w (RFailed asin (str_exn H e) :: rs) w2
| batch_failure_halt i asin rest w e w1 flag :
    process_one H config asin (log H (EvBook i n asin) w) = (Raise e, w1) ->
    continue_on_error config = Ok flag -> truthy flag = false ->
    batch_run H config n i (asin :: rest) w [RFailed asin (str_exn H e)] w1.

(** A host whose download leaves a first batch under the book directory,
    except for the identifier [BAD], on which it exits with code 1. *)
Definition add_book (asin : string) (root : node) : node :=
  match root with
  | Dir es =>
      let downloads := match es !! "downloads" with
                       | Some (Dir d) => d
                       | _ => ∅
                       end in
      Dir (<["downloads" :=
               Dir (<[asin := Dir {[ "batch_0" := Dir ∅ ]}]> downloads)]> es)
  | File _ => root
  end.

Definition picky_host : Host :=
  {| Ext := unit;
     spawn := fun cmd e root =>
                match cmd with
                | [_; _; asin] =>
                    if String.eqb asin "BAD"
                    then ({| returncode := 1; stdout := ""; stderr := "no such book" |},
                          e, root)
                    else (exit_ok, e, add_book asin root)
                | _ => (exit_ok, e, root)
                end;
     os_rename := move_entry;
     json_loads := json_loads idle_host;
     json_dumps := json_dumps idle_host;
     str_exn := str_exn idle_host;
     strftime_now := strftime_now idle_host |}.

(** A configuration that only downloads and stops a batch at the first
    failure, and the same one going on after a failure. *)
Definition download_only (continue : bool) : gmap string value :=
  merge_dicts default_config
    (dict [ ("pipeline", dict [ ("decode", dict [("enabled", VBool false)]);
                                ("epub", dict [("enabled", VBool false)]) ]);
            ("batch", dict [("continue_on_error", VBool continue)]) ]).

Definition five_books : list string := ["B1"; "BAD"; "B3"; "B4"; "B5"].

(** The file [generate_batch_report] writes. *)
Definition report_file (H : Host) (w : world H) : Path :=
  mkPath ("batch_report_" +:+ strftime_now H (ext H w) +:+ ".json").

(** The batch of five under [picky_host]: the world at the start, after
    the first book, and after the second, which fails. *)
Definition batch_start : world picky_host := start picky_host (Dir ∅) tt.

Definition after_first : world picky_host :=
  snd (process_one picky_host (download_only false) "B1"
         (log picky_host (EvBook 1 5 "B1") batch_start)).

Definition after_second : world picky_host :=
  snd (process_one picky_host (download_only false) "BAD"
         (log picky_host (EvBook 2 5 "BAD") after_first)).

Definition second_failure : exn :=
  CalledProcessError 1 ["python3"; "download_full_book.py"; "BAD"] "" "no such book".

(** A directory in which the wrapper can start: the three stage
    scripts, [headers.json] and one font. *)
Definition ready_entries : gmap string node :=
  list_to_map
    [ ("download_full_book.py", File "");
      ("decode_glyphs_complete.py", File "");
      ("create_epub.py", File "");
      ("headers.json", File "{}");
      ("fonts", Dir {[ "Bookerly.ttf" := File "" ]}) ].

Definition ready_root : node := Dir ready_entries.

(** The processes a run started, in order. *)
Definition run_of (e : event) : option (list string) :=
  match e with
  | EvRun cmd => Some cmd
  | _ => None
  end.

Definition runs (evs : list event) : list (list string) := omap run_of evs.

(** Arguments that name a list of books, and arguments whose identifier
    is the empty text. *)
Definition batch_args : Args :=
  {| arg_asin := None; arg_config := None;
     arg_fast := false; arg_full := false; arg_progressive := false;
     arg_yes := false; arg_output_name := None;
     arg_skip_download := false; arg_skip_decode := false; arg_skip_epub := false;
     arg_batch := Some "book_list.txt" |}.

Definition blank_args : Args :=
  {| arg_asin := Some ""; arg_config := None;
     arg_fast := false; arg_full := false; arg_progressive := false;
     arg_yes := false; arg_output_name := None;
     arg_skip_download := false; arg_skip_decode := false; arg_skip_epub := false;
     arg_batch := None |}.

(** Two parsers for the examples: one that reads every command line as
    the given arguments, and one that rejects every command line. *)
Definition parse_as (args : Args) : list string -> parsed :=
  fun _ => Parsed args.

Definition parse_rejecting : list string -> parsed :=
  fun _ => ParserExit 2.

(** A configuration can start no pipeline for a book when no processor
    can be made of it, or none with a list of steps. *)
Definition no_pipeline (a : string) (config : gmap string value) : Prop :=
  (exists e, new_processor a config = Raise e)
  \/ (exists self e, new_processor a config = Ok self
                     /\ build_steps self = Raise e).

(** Arguments for one book of which only the download is wanted, and
    the processor [main] builds from them over the defaults. *)
Definition download_args : Args :=
  {| arg_asin := Some "B1"; arg_config := None;
     arg_fast := false; arg_full := false; arg_progressive := false;
     arg_yes := false; arg_output_name := None;
     arg_skip_download := false; arg_skip_decode := true; arg_skip_epub := true;
     arg_batch := None |}.

Definition download_config : gmap string value :=
  match apply_cli_overrides download_args default_config with
  | Ok config => config
  | Raise _ => default_config
  end.

Definition download_book_B1 : KindleProcessor :=
  {| asin := "B1"; config := download_config;
     book_dir := joinpath (mkPath "downloads") "B1" |}.

(** A directory ready for a batch of two books, the second of which the
    download of [picky_host] refuses; arguments that ask for the
    download of that batch only; and the world the batch loop leaves. *)
Definition batch_root : node :=
  Dir (<["book_list.txt" := File ("B1" +:+ String Py.LF "" +:+ "BAD" +:+ String Py.LF "")]>
         ready_entries).

Definition batch_download_args : Args :=
  {| arg_asin := None; arg_config := None;
     arg_fast := false; arg_full := false; arg_progressive := false;
     arg_yes := false; arg_output_name := None;
     arg_skip_download := false; arg_skip_decode := true; arg_skip_epub := true;
     arg_batch := Some "book_list.txt" |}.

Definition batch_done : world picky_host :=
  snd (batch_loop picky_host download_config 2 1 ["B1"; "BAD"] []
         (start picky_host batch_root tt)).

(** A directory ready to start whose override file makes
    [paths.downloads] a number; arguments for one book that name the
    file; and the configuration [main] makes of them. *)
Definition numeric_root : node :=
  Dir (<["my_config.txt" := File "paths.downloads = 2024"]> ready_entries).

Definition numeric_args : Args :=
  {| arg_asin := Some "B1"; arg_config := Some "my_config.txt";
     arg_fast := false; arg_full := false; arg_progressive := false;
     arg_yes := false; arg_output_name := None;
     arg_skip_download := false; arg_skip_decode := false; arg_skip_epub := false;
     arg_batch := None |}.

Definition numeric_config : gmap string value :=
  match configure numeric_root numeric_args with
  | Ok config => config
  | Raise _ => ∅
  end.

(** A directory ready for a batch of one book, which the download of
    [picky_host] refuses, under an override file that makes [batch] a
    number; the arguments, the configuration, and the world the batch
    loop leaves. *)
Definition unreadable_root : node :=
  Dir (<["book_list.txt" := File ("BAD" +:+ String Py.LF "")]>
         (<["my_config.txt" := File "batch = 5"]> ready_entries)).

Definition unreadable_args : Args :=
  {| arg_asin := None; arg_config := Some "my_config.txt";
     arg_fast := false; arg_full := false; arg_progressive := false;
     arg_yes := false; arg_output_name := None;
     arg_skip_download := false; arg_skip_decode := true; arg_skip_epub := true;
     arg_batch := Some "book_list.txt" |}.

Definition unreadable_config : gmap string value :=
  match configure unreadable_root unreadable_args with
  | Ok config => config
  | Raise _ => ∅
  end.

Definition unreadable_done : world picky_host :=
  snd (batch_loop picky_host unreadable_config 1 1 ["BAD"] []
         (start picky_host unreadable_root tt)).

(** Whether a summary was printed. *)
Definition is_summary (e : event) : bool :=
  match e with
  | EvSummary _ => true
  | _ => false
  end.

(** Two dotted keys part ways when, after a common prefix, each has a
    component and the two components differ: neither key is a prefix of
    the other. *)
Definition diverge (keys keys' : list string) : Prop :=
  exists prefix k rest k' rest',
    keys = prefix ++ k :: rest /\ keys' = prefix ++ k' :: rest' /\ k ≠ k'.

(** What an assignment line assigns to: the components of its key, when
    the parser does not pass over the line. *)
Definition assigned_keys (line : string) : option (list string) :=
  let line := Py.strip line in
  if negb (Py.nonempty line) || Py.startswith "#" line then None
  else match Py.split_once "="%char line with
       | Some (key, _) => Some (Py.split "."%char (Py.strip key))
       | None => None
       end.

(** A dotted key that a mapping does not mention: walking down the
    mappings along the key ends at a component that is not bound. *)
Fixpoint unset (keys : list string) (v : value) : bool :=
  match keys with
  | [] => false
  | k :: rest =>
      match v with
      | VDict d =>
          match d !! k with
          | Some child => unset rest child
          | None => true
          end
      | _ => false
      end
  end.

(** A configuration in which the three sections of [pipeline] are
    mappings, as in the defaults. *)
Definition has_sections (config : gmap string value) : Prop :=
  exists pipeline download decode epub,
    config !! "pipeline" = Some (VDict pipeline)
    /\ pipeline !! "download" = Some (VDict download)
    /\ pipeline !! "decode" = Some (VDict decode)
    /\ pipeline !! "epub" = Some (VDict epub).

(** The settings under [pipeline] that the command line can override:
    section and key. *)
Definition cli_targets : list (string * string) :=
  [ ("decode", "mode"); ("download", "auto_confirm"); ("epub", "output_name");
    ("download", "enabled"); ("decode", "enabled"); ("epub", "enabled") ].

(** The decode mode the command line asks for, if any. *)
Definition cli_mode (args : Args) : option string :=
  if arg_fast args then Some "fast"
  else if arg_full args then Some "full"
  else if arg_progressive args then Some "progressive"
  else None.

(** The output name the command line asks for, if any: an empty name
    asks for nothing. *)
Definition cli_output_name (args : Args) : option string :=
  match arg_output_name args with
  | Some name => if Py.nonempty name then Some name else None
  | None => None
  end.

(** Arguments with every override. *)
Definition busy_args : Args :=
  {| arg_asin := Some "B0FLBTR2FS"; arg_config := None;
     arg_fast := true; arg_full := false; arg_progressive := false;
     arg_yes := true; arg_output_name := Some "{asin}";
     arg_skip_download := false; arg_skip_decode := false; arg_skip_epub := true;
     arg_batch := None |}.

(** One override of [main]: an assignment at a three-key path, made
    when the command line asks for a value. *)
Definition override_step (asked : option value) (a b c : string)
    (config : gmap string value) : result (gmap string value) :=
  match asked with
  | Some v => set3 config a b c v
  | None => Ok config
  end.

Definition when (cond : bool) (v : value) : option value :=
  if cond then Some v else None.

(** Whether a text holds a character of a class. *)
Fixpoint has_char (p : ascii -> bool) (s : string) : bool :=
  match s with
  | EmptyString => false
  | String c s' => p c || has_char p s'
  end.

Definition is_slash (c : ascii) : bool := Ascii.eqb c "/".

(** A tree left by a failed run in which the book directory holds a
    cover beside an empty batch. *)
Definition crowded_root : node :=
  Dir {[ "downloads" :=
           Dir {[ "B0FLBTR2FS" :=
                    Dir (<[ "batch_1" := Dir ∅ ]> {[ "cover.jpg" := File "jpg" ]}) ]};
         "decoded_book.epub" := File "" ]}.

(** The configuration an override file with the line
    [paths.downloads = 2024] gives. *)
Definition numeric_downloads : gmap string value :=
  merge_dicts default_config (dict [("paths", dict [("downloads", VInt 2024)])]).

(** Arguments that name the override file of the example, without and
    with a mode of their own, and the configurations [main] makes of
    them. *)
Definition file_args (full : bool) : Args :=
  {| arg_asin := Some "B0FLBTR2FS"; arg_config := Some "my_config.txt";
     arg_fast := false; arg_full := full; arg_progressive := false;
     arg_yes := false; arg_output_name := None;
     arg_skip_download := false; arg_skip_decode := false; arg_skip_epub := false;
     arg_batch := None |}.

Definition file_config (full : bool) : gmap string value :=
  match configure override_root (file_args full) with
  | Ok config => config
  | Raise _ => ∅
  end.

(** What an assignment line assigns: the components of its key and the
    text of its value. *)
Definition assignment (line : string) : option (list string * string) :=
  match assigned_keys line, Py.split_once "="%char (Py.strip line) with
  | Some keys, Some (_, val) => Some (keys, Py.strip val)
  | _, _ => None
  end.

(** The assignments of a file, in order. *)
Definition settings (lines : list string) : list (list string * string) :=
  omap assignment lines.

(** Keys that part ways two by two. *)
Fixpoint apart {A : Type} (l : list (list string * A)) : Prop :=
  match l with
  | [] => True
  | (keys, _) :: rest =>
      Forall (fun s => diverge keys (fst s)) rest /\ apart rest
  end.

(** The settings with their values converted, or the error of the
    first value that does not convert. *)
Fixpoint converted (l : list (list string * string))
  : result (list (list string * value)) :=
  match l with
  | [] => Ok []
  | (keys, val) :: rest =>
      v <- convert val ;;
      rest' <- converted rest ;;
      Ok ((keys, v) :: rest')
  end.

(** A value other than a mapping. *)
Definition scalar (v : value) : Prop := forall d, v ≠ VDict d.

(** A file of three settings and a comment. *)
Definition settings_text : string :=
  "pipeline.decode.mode = fast" +:+ String Py.LF ""
  +:+ "# the output" +:+ String Py.LF ""
  +:+ "pipeline.epub.output_name=book" +:+ String Py.LF ""
  +:+ "paths.downloads = /tmp/books".

(** * Properties *)

(** ** The string methods on examples *)

Example strip_both : Py.strip "  a b  " = "a b".
Proof. reflexivity. Qed.

Example split_once_first :
  Py.split_once "="%char "k = a=b" = Some ("k ", " a=b").
Proof. reflexivity. Qed.

Example split_dots : Py.split "."%char "a..b" = ["a"; ""; "b"].
Proof. reflexivity. Qed.

Example replace_twice : Py.replace "ab" "X" "abab-aab" = "XX-aX".
Proof. reflexivity. Qed.

Example int_leading_zero : Py.int "007" = inl 7%Z.
Proof. reflexivity. Qed.

Example int_superscript :
  Py.isdigit (String "1" (String (ascii_of_nat 178) "")) = true
  /\ Py.int (String "1" (String (ascii_of_nat 178) ""))
     = inr ("invalid literal for int() with base 10: '"
            +:+ String "1" (String (ascii_of_nat 178) "'")).
Proof. split; reflexivity. Qed.

Example strip_no_break_space :
  Py.strip (String (ascii_of_nat 160) (String "x" (String (ascii_of_nat 133) "")))
  = "x".
Proof. reflexivity. Qed.

Example lower_latin :
  Py.lower (String (ascii_of_nat 201) (String (ascii_of_nat 215) "T"))
  = String (ascii_of_nat 233) (String (ascii_of_nat 215) "t").
Proof. reflexivity. Qed.

Example readlines_mixed :
  Py.readlines (String "a" (String Py.CR (String Py.LF "b")))
  = [String "a" (String Py.LF ""); "b"].
Proof. reflexivity. Qed.

Example fnmatch_page : Py.fnmatch "page_data_*.json" "page_data_12.json" = true.
Proof. reflexivity. Qed.

Example fnmatch_page_no : Py.fnmatch "page_data_*.json" "page_data_12.jsonx" = false.
Proof. reflexivity. Qed.

(** ** The path and line models on examples *)

Example readlines_terminators :
  Py.readlines (String "a" (String Py.CR (String Py.LF (String "b" (String Py.CR
     (String "c" (String Py.LF (String Py.LF "d"))))))))
  = [String "a" (String Py.LF ""); String "b" (String Py.LF "");
     String "c" (String Py.LF ""); String Py.LF ""; "d"].
Proof. reflexivity. Qed.

Example path_str_examples :
  path_str (mkPath "") = "."
  /\ path_str (joinpath (mkPath "downloads") "") = "downloads"
  /\ path_str (joinpath (mkPath "downloads") "./x//y/") = "downloads/x/y"
  /\ path_str (joinpath (mkPath "/a") "b") = "/a/b"
  /\ path_str (joinpath (mkPath "a") "/b") = "/b"
  /\ parts (mkPath "a/../b") = ["a"; ".."; "b"].
Proof. repeat split. Qed.

Example strip_separators :
  Py.strip (String " " (String (ascii_of_nat 28) (String " " (String "a"
     (String " " (String "b" (String (ascii_of_nat 9) (String (ascii_of_nat 31) ""))))))))
  = "a b".
Proof. reflexivity. Qed.

Example remove_illegal :
  Py.strip (Py.remove_chars illegal_char
              (String "M" (String "y" (String ":" (String " "
                 (String (ascii_of_nat 34) "B<o>o|k?*/\ ")))))) = "My Book".
Proof. reflexivity. Qed.

(** ** Appending *)

Lemma append_cons c a b : String c a +:+ b = String c (a +:+ b).
Proof. done. Qed.

Lemma append_nil b : "" +:+ b = b.
Proof. done. Qed.

(** ** Trimming *)


Lemma rstrip_empty_blank s : Py.rstrip s = "" <-> blank s = true.
Proof.
  induction s as [|c s IH]; simpl; [tauto|].
  destruct (Py.rstrip s) eqn:E.
  - destruct (Py.isspace c); simpl; [tauto|]. split; discriminate.
  - split; [discriminate|]. intros [_ Hb]%andb_prop.
    apply IH in Hb. discriminate.
Qed.

Lemma blank_lstrip s : blank (Py.lstrip s) = blank s.
Proof.
  induction s as [|c s IH]; simpl; [done|].
  destruct (Py.isspace c) eqn:E; simpl; [done|]. by rewrite E.
Qed.

Lemma nonempty_strip s : Py.nonempty (Py.strip s) = negb (blank s).
Proof.
  unfold Py.strip. rewrite <- (blank_lstrip s).
  destruct (Py.rstrip (Py.lstrip s)) eqn:E.
  - apply rstrip_empty_blank in E. by rewrite E.
  - destruct (blank (Py.lstrip s)) eqn:B; [|done].
    apply rstrip_empty_blank in B. congruence.
Qed.

Lemma rstrip_idem s : Py.rstrip (Py.rstrip s) = Py.rstrip s.
Proof.
  induction s as [|c s IH]; simpl; [done|].
  destruct (Py.rstrip s) eqn:E.
  - destruct (Py.isspace c) eqn:Ec; simpl; [done|]. by rewrite Ec.
  - simpl in *. by rewrite IH.
Qed.

(** What [lstrip] returns starts with a character that is not white
    space, and [rstrip] keeps that character. *)
Lemma lstrip_rstrip_lstrip s :
  Py.lstrip (Py.rstrip (Py.lstrip s)) = Py.rstrip (Py.lstrip s).
Proof.
  induction s as [|c s IH]; simpl; [done|].
  destruct (Py.isspace c) eqn:Ec; [done|].
  simpl. destruct (Py.rstrip s); rewrite ?Ec; simpl; by rewrite Ec.
Qed.

Lemma strip_idem s : Py.strip (Py.strip s) = Py.strip s.
Proof.
  unfold Py.strip. by rewrite lstrip_rstrip_lstrip, rstrip_idem.
Qed.

(** What [lstrip] cuts off is white space, and what it leaves does not
    start with white space. *)
Lemma lstrip_spec s :
  (exists pre, s = pre +:+ Py.lstrip s /\ blank pre = true)
  /\ (forall c rest, Py.lstrip s = String c rest -> Py.isspace c = false).
Proof.
  induction s as [|c s [(pre & Hs & Hb) Hfirst]]; simpl.
  - split; [by exists ""|done].
  - destruct (Py.isspace c) eqn:Ec.
    + split; [|done]. exists (String c pre). split.
      * rewrite append_cons. by f_equal.
      * simpl. by rewrite Ec.
    + split; [by exists ""|]. by intros ? ? [= <- <-].
Qed.

Lemma append_last_inv init c a :
  init +:+ String c "" = String a "" -> init = "" /\ c = a.
Proof.
  destruct init as [|b init]; simpl; [by intros [= ->]|].
  intros [= _ H]. by destruct init.
Qed.

(** What [rstrip] cuts off is white space, and what it leaves does not
    end with white space. *)
Lemma rstrip_spec s :
  (exists post, s = Py.rstrip s +:+ post /\ blank post = true)
  /\ (forall init c, Py.rstrip s = init +:+ String c "" -> Py.isspace c = false).
Proof.
  induction s as [|c s [(post & Hs & Hb) Hlast]]; simpl.
  - split; [by exists ""|]. intros init c. by destruct init.
  - destruct (Py.rstrip s) as [|a r] eqn:E.
    + apply rstrip_empty_blank in E.
      destruct (Py.isspace c) eqn:Ec.
      * split; [|intros init c'; by destruct init].
        exists (String c s). simpl. by rewrite Ec, E.
      * split; [by exists s|].
        intros init c' Hi. symmetry in Hi.
        by apply append_last_inv in Hi as [_ ->].
    + split.
      * exists post. split; [|done]. rewrite append_cons. by f_equal.
      * intros init c' Hi. destruct init as [|b init]; [done|].
        simpl in Hi. injection Hi as _ Hi. by apply (Hlast init c').
Qed.

Lemma rstrip_keeps_first c s :
  Py.isspace c = false -> exists r, Py.rstrip (String c s) = String c r.
Proof.
  intros Hc. simpl. destruct (Py.rstrip s); rewrite ?Hc; eauto.
Qed.

(** [strip] returns the text without the white space at its two ends. *)
Lemma strip_trimmed s : trimmed_of s (Py.strip s).
Proof.
  unfold Py.strip.
  destruct (lstrip_spec s) as [(pre & Hs & Hpre) Hfirst].
  destruct (rstrip_spec (Py.lstrip s)) as [(post & Hl & Hpost) Hlast].
  split; [|split].
  - exists pre, post. split; [|done]. by rewrite <- Hl.
  - intros c rest Hr. destruct (Py.lstrip s) as [|c0 r0] eqn:El; [done|].
    pose proof (Hfirst c0 r0 eq_refl) as Hc0.
    destruct (rstrip_keeps_first c0 r0 Hc0) as [r Hk].
    rewrite Hk in Hr. by injection Hr as <- _.
  - exact Hlast.
Qed.

(** ** C7: the identifier list *)


Lemma load_asins_spec lines : load_asins lines = spec_identifiers lines.
Proof.
  unfold spec_identifiers.
  induction lines as [|line rest IH]; simpl; [done|].
  unfold spec_keeps at 1. rewrite nonempty_strip.
  destruct (negb (blank line) && negb (Py.startswith "#" line)); simpl;
    by rewrite IH.
Qed.

Lemma spec_identifiers_trimmed_of lines :
  Forall2 trimmed_of (List.filter spec_keeps lines) (spec_identifiers lines).
Proof.
  unfold spec_identifiers.
  induction (List.filter spec_keeps lines) as [|line rest IH]; simpl;
    constructor; [apply strip_trimmed|done].
Qed.

Lemma spec_identifiers_trimmed lines :
  Forall (fun id => id ≠ "" ∧ Py.strip id = id) (spec_identifiers lines).
Proof.
  unfold spec_identifiers. apply Forall_forall. intros id Hin.
  apply list_elem_of_In, in_map_iff in Hin as (line & <- & Hin).
  apply filter_In in Hin as [_ Hk].
  unfold spec_keeps in Hk. apply andb_prop in Hk as [Hb _].
  split; [|apply strip_idem].
  intros E. pose proof (nonempty_strip line) as N.
  rewrite E in N. simpl in N. rewrite <- N in Hb. discriminate.
Qed.


(** C7. The batch processor reads the list file as follows: an absent
    file raises [FileNotFoundError]; otherwise the identifiers are the
    lines that are not blank and do not start with [#], each trimmed of
    its surrounding white space, in the order of the file, and an empty
    result raises [ValueError].  Every identifier is non-empty and
    trimmed: it is its line without the white space before and after
    it, and neither starts nor ends with white space.  A comment is a
    line whose first character is [#]; a [#] after white space does not
    make one.  The file of the scenario yields [ID1], [ID2], and the
    padded file [ID1], [# note], [ID2]. *)
Theorem read_book_list_spec (book_list_file : string) (root : node) :
  (lookup_path (parts (mkPath book_list_file)) root = None ->
   exists msg, read_book_list book_list_file root = Raise (FileNotFoundError msg))
  /\ (forall text,
        lookup_path (parts (mkPath book_list_file)) root = Some (File text) ->
        let ids := spec_identifiers (Py.readlines text) in
        (ids = [] ->
         exists msg, read_book_list book_list_file root = Raise (ValueError msg))
        /\ (ids ≠ [] -> read_book_list book_list_file root = Ok ids)
        /\ Forall (fun id => id ≠ "" ∧ Py.strip id = id) ids
        /\ Forall2 trimmed_of (List.filter spec_keeps (Py.readlines text)) ids)
  /\ (lookup_path (parts (mkPath book_list_file)) root = Some (File scenario_list) ->
      read_book_list book_list_file root = Ok ["ID1"; "ID2"])
  /\ (lookup_path (parts (mkPath book_list_file)) root = Some (File padded_list) ->
      read_book_list book_list_file root = Ok ["ID1"; "# note"; "ID2"]).
Proof.
  unfold read_book_list, path_exists, read_text.
  split; [|split; [|split]].
  - intros ->. simpl. eauto.
  - intros text ->. simpl. rewrite load_asins_spec.
    split; [|split; [|split]].
    + intros ->. simpl. eauto.
    + intros Hne. destruct (spec_identifiers (Py.readlines text)); done.
    + apply spec_identifiers_trimmed.
    + apply spec_identifiers_trimmed_of.
  - intros ->. reflexivity.
  - intros ->. reflexivity.
Qed.

Lemma read_book_list_spec_witness :
  read_book_list "book_list.txt" scenario_root = Ok ["ID1"; "ID2"]
  /\ (exists msg, read_book_list "missing.txt" scenario_root
                  = Raise (FileNotFoundError msg))
  /\ read_book_list "padded.txt" padded_root = Ok ["ID1"; "# note"; "ID2"]
  /\ Forall2 trimmed_of
       ["  ID1 " +:+ String Py.LF ""; String (ascii_of_nat 9) "# note" +:+ String Py.LF "";
        "ID2" +:+ String Py.LF ""]
       ["ID1"; "# note"; "ID2"].
Proof.
  split; [|split; [|split]].
  - apply (read_book_list_spec "book_list.txt" scenario_root). reflexivity.
  - apply (read_book_list_spec "missing.txt" scenario_root). reflexivity.
  - apply (proj1 (proj2 (proj1 (proj2 (read_book_list_spec "padded.txt" padded_root))
                           padded_list eq_refl))).
    discriminate.
  - apply (proj2 (proj2 (proj2 (proj1 (proj2 (read_book_list_spec "padded.txt" padded_root))
                                  padded_list eq_refl)))).
Defined.

(** ** The lines of the override file *)

Lemma split_nonempty sep s : Py.split sep s ≠ [].
Proof.
  destruct s as [|c s]; simpl; [done|].
  destruct (Ascii.eqb c sep); [done|]. by destruct (Py.split sep s).
Qed.

(** [split_once] cuts at the first separator. *)
Lemma split_once_spec sep s a b :
  Py.split_once sep s = Some (a, b) ->
  s = a +:+ String sep b /\ Py.split_once sep a = None.
Proof.
  revert a. induction s as [|c s IH]; simpl; intros a; [done|].
  destruct (Ascii.eqb c sep) eqn:E.
  - apply Ascii.eqb_eq in E as ->. intros [= <- <-]. done.
  - destruct (Py.split_once sep s) as [[a' b']|]; [|done].
    intros [= <- <-]. destruct (IH a' eq_refl) as [-> Hn].
    split; [done|]. simpl. by rewrite E, Hn.
Qed.

Lemma contains_char_split_once sep s :
  Py.contains (String sep "") s = true <-> is_Some (Py.split_once sep s).
Proof.
  induction s as [|c s IH].
  - split; [done|]. by intros [? ?].
  - cbn [Py.contains Py.startswith Py.split_once].
    rewrite andb_true_r, (Ascii.eqb_sym sep c).
    destruct (Ascii.eqb c sep); [split; eauto|].
    rewrite IH. destruct (Py.split_once sep s) as [[? ?]|].
    + split; eauto.
    + split; by intros [? ?].
Qed.

Lemma path_free_empty keys : keys ≠ [] -> path_free keys (VDict ∅).
Proof.
  destruct keys as [|k [|k' rest]]; simpl; [done..|].
  by rewrite lookup_empty.
Qed.

Lemma set_nested_cons k rest v current :
  rest ≠ [] ->
  set_nested (k :: rest) v current =
    (present <- py_in k current ;;
     current1 <- (if present then Ok current
                  else setitem current k (VDict ∅)) ;;
     child <- getitem current1 k ;;
     child' <- set_nested rest v child ;;
     setitem current1 k child').
Proof. by destruct rest. Qed.

Lemma path_free_cons k rest d :
  rest ≠ [] ->
  path_free (k :: rest) (VDict d) <->
  match d !! k with
  | Some child => path_free rest child
  | None => True
  end.
Proof. by destruct rest. Qed.

Lemma path_free_dict keys current :
  path_free keys current -> exists d, current = VDict d.
Proof. destruct keys, current; simpl; try done. eauto. Qed.

(** Where the path is free, [set_nested] stores the value at it. *)
Lemma set_nested_ok keys v d :
  path_free keys (VDict d) ->
  exists d', set_nested keys v (VDict d) = Ok (VDict d')
             /\ get_path keys (VDict d') = Some v.
Proof.
  revert d. induction keys as [|k rest IH]; intros d; [done|].
  destruct (decide (rest = [])) as [->|Hne].
  - intros _. eexists. split; [done|]. simpl. by rewrite lookup_insert_eq.
  - rewrite path_free_cons, set_nested_cons by done. simpl.
    destruct (d !! k) as [child|] eqn:E; simpl.
    + rewrite E. simpl. intros Hfree.
      destruct (path_free_dict _ _ Hfree) as [c ->].
      destruct (IH c Hfree) as (c' & -> & Hget). simpl.
      eexists. split; [done|]. by rewrite lookup_insert_eq.
    + intros _. rewrite lookup_insert_eq. simpl.
      destruct (IH ∅ (path_free_empty _ Hne)) as (c' & -> & Hget).
      simpl. eexists. split; [done|]. by rewrite lookup_insert_eq.
Qed.

(** Where it is not, the assignment raises [TypeError]: a value that is
    not a dict stands in the way. *)
Lemma set_nested_blocked keys v current :
  keys ≠ [] -> ¬ path_free keys current ->
  set_nested keys v current = Raise TypeError.
Proof.
  revert current. induction keys as [|k rest IH]; intros current; [done|].
  intros _ Hn. destruct (decide (rest = [])) as [->|Hne].
  - destruct current; simpl in *; done.
  - rewrite set_nested_cons by done.
    destruct current as [| | |s|l|d]; try done.
    + simpl. by destruct (Py.contains k s).
    + simpl. by destruct (existsb _ l).
    + rewrite path_free_cons in Hn by done. simpl.
      destruct (d !! k) as [child|] eqn:E; [|done].
      simpl. rewrite E. simpl. by rewrite (IH child).
Qed.

Lemma convert_cases text :
  (Py.lower text = "true" -> convert text = Ok (VBool true))
  /\ (Py.lower text = "false" -> convert text = Ok (VBool false))
  /\ (Py.lower text ≠ "true" -> Py.lower text ≠ "false" ->
      Py.isdigit text = true ->
      convert text = match Py.int text with
                     | inl n => Ok (VInt n)
                     | inr msg => Raise (ValueError msg)
                     end)
  /\ (Py.lower text ≠ "true" -> Py.lower text ≠ "false" ->
      Py.isdigit text = false -> convert text = Ok (VStr text)).
Proof.
  unfold convert. repeat split.
  - by intros ->.
  - by intros ->.
  - intros H1%String.eqb_neq H2%String.eqb_neq ->. by rewrite H1, H2.
  - intros H1%String.eqb_neq H2%String.eqb_neq ->. by rewrite H1, H2.
Qed.

(** A text of decimal digits starts with as many of them as it is long;
    any other text starts with fewer. *)
Lemma leading_decimals_all s :
  decimals s = true -> Py.leading_decimals s = String.length s.
Proof.
  induction s as [|c s IH]; simpl; [done|].
  intros [-> Hs]%andb_prop. by rewrite IH.
Qed.

Lemma leading_decimals_some s :
  decimals s = false -> Py.leading_decimals s < String.length s.
Proof.
  induction s as [|c s IH]; simpl; [done|].
  destruct (Py.decimal_char c); simpl; [|lia].
  intros Hs. apply IH in Hs. lia.
Qed.

(** [int] on the strings [isdigit] accepts: decimal digits, at most
    4300 of them, give the number they write; more than 4300 decimal
    digits at the head of the string, and any character that is no
    decimal digit, give a [ValueError]. *)
Lemma int_cases s :
  (decimals s = true ->
   (Z.of_nat (String.length s) <= Py.max_str_digits)%Z ->
   Py.int s = inl (Py.decimal s))
  /\ (decimals s = true ->
      (Py.max_str_digits < Z.of_nat (String.length s))%Z ->
      Py.int s = inr (Py.exceeds_limit (String.length s)))
  /\ (decimals s = false -> exists msg, Py.int s = inr msg).
Proof.
  unfold Py.int. repeat split.
  - intros Hd Hl. rewrite (leading_decimals_all s Hd).
    destruct (Z.ltb_spec Py.max_str_digits (Z.of_nat (String.length s))); [lia|].
    by rewrite Nat.ltb_irrefl.
  - intros Hd Hl. rewrite (leading_decimals_all s Hd).
    by destruct (Z.ltb_spec Py.max_str_digits (Z.of_nat (String.length s))); [|lia].
  - intros Hd%leading_decimals_some.
    destruct (_ <? _)%Z; [eauto|].
    destruct (Nat.ltb_spec (Py.leading_decimals s) (String.length s)); [eauto|lia].
Qed.

(** [int] returns a number exactly on the decimal texts of at most 4300
    digits. *)
Lemma int_returns s n :
  Py.int s = inl n <->
  decimals s = true
  /\ (Z.of_nat (String.length s) <= Py.max_str_digits)%Z
  /\ n = Py.decimal s.
Proof.
  destruct (int_cases s) as (Hok & Hlong & Hbad). split.
  - intros Hi. destruct (decimals s) eqn:Hd.
    + destruct (Z.le_gt_cases (Z.of_nat (String.length s)) Py.max_str_digits) as [Hl|Hl].
      * rewrite (Hok eq_refl Hl) in Hi. by injection Hi as <-.
      * rewrite (Hlong eq_refl) in Hi by lia. done.
    + destruct (Hbad eq_refl) as [msg Hm]. congruence.
  - intros (Hd & Hl & ->). by apply Hok.
Qed.

(** The converse of [split_once_spec]. *)
Lemma split_once_complete sep a b :
  Py.contains (String sep "") a = false ->
  Py.split_once sep (a +:+ String sep b) = Some (a, b).
Proof.
  induction a as [|c a IH].
  - intros _. simpl. by rewrite Ascii.eqb_refl.
  - cbn [Py.contains Py.startswith]. rewrite andb_true_r, (Ascii.eqb_sym sep c).
    destruct (Ascii.eqb c sep) eqn:E; [done|]. intros Hc.
    rewrite append_cons. simpl. by rewrite E, IH.
Qed.

Lemma parse_line_skipped config line :
  skipped line -> parse_line config line = Ok config.
Proof.
  unfold parse_line. rewrite nonempty_strip.
  intros [-> | [-> | Hc]]; simpl; [done|by rewrite orb_true_r|].
  destruct (negb (negb (blank line)) || _); [done|]. by rewrite Hc.
Qed.

Lemma parse_lines_skipped config lines :
  Forall skipped lines -> parse_lines config lines = Ok config.
Proof.
  induction 1 as [|line lines Hs _ IH]; [done|].
  simpl. by rewrite (parse_line_skipped config line Hs).
Qed.

(** ** C6: merging the override into the defaults *)

(** [merge_dicts] key by key: a key the override does not hold keeps
    its default; a key it holds takes the value of the override, except
    where both sides hold a dict, which are merged in turn. *)
Lemma merge_dicts_lookup (default custom : gmap string value) (key : string) :
  merge_dicts default (VDict custom) !! key =
    match custom !! key with
    | None => default !! key
    | Some (VDict c) =>
        match default !! key with
        | Some (VDict d) => Some (VDict (merge_dicts d (VDict c)))
        | _ => Some (VDict c)
        end
    | Some v => Some v
    end.
Proof.
  simpl. revert key.
  apply (map_fold_weak_ind (fun (r : gmap string value) (m : gmap string value) =>
    forall key, r !! key =
      match m !! key with
      | None => default !! key
      | Some (VDict c) =>
          match default !! key with
          | Some (VDict d) => Some (VDict (merge_dicts d (VDict c)))
          | _ => Some (VDict c)
          end
      | Some v => Some v
      end)).
  - intros key. by rewrite lookup_empty.
  - intros i x m r Hi IH key.
    destruct (decide (i = key)) as [->|Hne].
    + rewrite lookup_insert_eq. pose proof (IH key) as Hr. rewrite Hi in Hr.
      rewrite Hr.
      destruct (default !! key) as [[]|], x; by rewrite lookup_insert_eq.
    + rewrite (lookup_insert_ne m) by done. rewrite <- IH.
      destruct (r !! i) as [[]|], x; by rewrite lookup_insert_ne.
Qed.

Lemma set_nested_dict keys v d current' :
  set_nested keys v (VDict d) = Ok current' -> exists d', current' = VDict d'.
Proof.
  destruct keys as [|k rest]; [done|].
  destruct (decide (rest = [])) as [->|Hne].
  - simpl. intros [= <-]. eauto.
  - rewrite set_nested_cons by done. simpl.
    destruct (d !! k) as [child|]; simpl.
    + destruct (d !! k); simpl; [|done].
      destruct (set_nested rest v v0); simpl; [|done]. intros [= <-]. eauto.
    + rewrite lookup_insert_eq. simpl.
      destruct (set_nested rest v (VDict ∅)); simpl; [|done].
      intros [= <-]. eauto.
Qed.

Lemma parse_line_dict d line config' :
  parse_line (VDict d) line = Ok config' -> exists d', config' = VDict d'.
Proof.
  unfold parse_line.
  destruct (_ || _); [intros [= <-]; eauto|].
  destruct (Py.contains _ _); [|intros [= <-]; eauto].
  destruct (Py.split_once _ _) as [[key val]|]; [|done].
  destruct (convert _) as [v|]; simpl; [|done].
  apply set_nested_dict.
Qed.

Lemma parse_lines_dict lines d config' :
  parse_lines (VDict d) lines = Ok config' -> exists d', config' = VDict d'.
Proof.
  revert d. induction lines as [|line rest IH]; simpl; intros d.
  - intros [= <-]. eauto.
  - destruct (parse_line (VDict d) line) as [c|] eqn:E; simpl; [|done].
    apply parse_line_dict in E as [d1 ->]. apply IH.
Qed.

(** What [parse_simple_config] returns is a dict. *)
Lemma parse_simple_config_dict text config :
  parse_simple_config text = Ok config -> exists d, config = VDict d.
Proof. apply parse_lines_dict. Qed.

(** C6.  Without an override path, or with a path at which nothing
    exists, [load_config] returns the defaults unchanged.  With an
    override file that parses to [custom], it returns the defaults merged
    with [custom], and the merge is recursive at every level: a key
    [custom] lacks keeps its default; where both sides hold a mapping the
    two are merged in turn; in every other case the value of [custom]
    replaces the default, whatever the two types are, and a key the
    defaults lack is added. *)
Theorem load_config_merges (root : node) :
  load_config root None = Ok default_config
  /\ (forall f, path_exists (mkPath f) root = false ->
        load_config root (Some f) = Ok default_config)
  /\ (forall f text custom,
        f ≠ "" ->
        lookup_path (parts (mkPath f)) root = Some (File text) ->
        parse_simple_config text = Ok (VDict custom) ->
        load_config root (Some f) = Ok (merge_dicts default_config (VDict custom)))
  /\ (forall (default custom : gmap string value) (key : string),
        merge_dicts default (VDict custom) !! key =
          match custom !! key with
          | None => default !! key
          | Some (VDict c) =>
              match default !! key with
              | Some (VDict d) => Some (VDict (merge_dicts d (VDict c)))
              | _ => Some (VDict c)
              end
          | Some v => Some v
          end).
Proof.
  split; [done|]. split; [|split].
  - intros f Hf. unfold load_config. rewrite Hf. by rewrite andb_false_r.
  - intros f text custom Hne Hl Hp. unfold load_config, path_exists, read_text.
    rewrite Hl. destruct f; [done|]. simpl. by rewrite Hp.
  - apply merge_dicts_lookup.
Qed.

Lemma load_config_merges_witness :
  load_config override_root (Some "my_config.txt")
  = Ok (merge_dicts default_config (VDict override_dict))
  /\ load_config override_root (Some "absent.txt") = Ok default_config.
Proof.
  split.
  - apply (proj1 (proj2 (proj2 (load_config_merges override_root)))
             "my_config.txt" override_text override_dict);
      [done | reflexivity | by vm_compute].
  - apply (proj1 (proj2 (load_config_merges override_root)) "absent.txt").
    reflexivity.
Defined.

Example merged_override :
  get_path ["pipeline"; "decode"; "mode"]
    (VDict (merge_dicts default_config (VDict override_dict))) = Some (VStr "fast")
  /\ get_path ["pipeline"; "decode"; "enabled"]
    (VDict (merge_dicts default_config (VDict override_dict))) = Some (VBool true)
  /\ get_path ["logging"]
    (VDict (merge_dicts default_config (VDict override_dict))) = Some (VInt 0)
  /\ get_path ["extra"; "key"]
    (VDict (merge_dicts default_config (VDict override_dict))) = Some (VStr "yes").
Proof. by vm_compute. Qed.

(** ** Paths *)

Lemma lookup_path_app p q n :
  lookup_path (p ++ q) n =
    match lookup_path p n with
    | Some m => lookup_path q m
    | None => None
    end.
Proof.
  revert n. induction p as [|name p IH]; intros n; simpl; [done|].
  destruct n as [|es]; [done|]. destruct (es !! name); [apply IH|done].
Qed.

Lemma parts_metadata_file p :
  parts (joinpath (joinpath p "batch_0") "metadata.json")
  = parts p ++ ["batch_0"; "metadata.json"].
Proof. unfold joinpath. simpl. by rewrite <- app_assoc. Qed.

(** ** Replacing and suffixes *)

Lemma startswith_app p s : Py.startswith p (p +:+ s) = true.
Proof.
  induction p as [|c p IH]; [done|].
  rewrite append_cons. cbn [Py.startswith]. by rewrite Ascii.eqb_refl, IH.
Qed.

Lemma replace_from_skip p old new s :
  Py.replace_from (String.length p) old new (p +:+ s)
  = Py.replace_from 0 old new s.
Proof.
  induction p as [|c p IH]; [done|]. rewrite append_cons. simpl. apply IH.
Qed.

(** An occurrence at the front is replaced, and the search goes on
    after it. *)
Lemma replace_hit old new s :
  old ≠ "" -> Py.replace old new (old +:+ s) = new +:+ Py.replace old new s.
Proof.
  intros Hne. destruct old as [|c old]; [done|].
  unfold Py.replace. rewrite append_cons. cbn [Py.replace_from].
  rewrite <- append_cons, startswith_app. f_equal.
  cbn [String.length]. rewrite Nat.sub_1_r. simpl. apply replace_from_skip.
Qed.

(** Where there is no occurrence at the front, the first character
    stays. *)
Lemma replace_miss old new c s :
  Py.startswith old (String c s) = false ->
  Py.replace old new (String c s) = String c (Py.replace old new s).
Proof. intros Hs. unfold Py.replace. cbn [Py.replace_from]. by rewrite Hs. Qed.

Lemma startswith_app_false old s t0 t :
  Py.startswith old s = false ->
  Py.contains (String t0 "") old = false ->
  Py.startswith old (s +:+ String t0 t) = false.
Proof.
  revert s. induction old as [|a old IH]; intros s; [done|].
  cbn [Py.contains Py.startswith]. rewrite andb_true_r.
  destruct (Ascii.eqb t0 a) eqn:E; [done|]. intros Hs Hc.
  destruct s as [|b s].
  - rewrite append_nil. cbn [Py.startswith].
    rewrite Ascii.eqb_sym in E. by rewrite E.
  - rewrite append_cons. cbn [Py.startswith] in *.
    destruct (Ascii.eqb a b); [|done]. simpl in *. by apply IH.
Qed.

(** A text in which [old] does not occur is copied, whatever follows
    it, when what follows starts with a character foreign to [old]. *)
Lemma replace_app_absent old new s t0 t :
  Py.contains old s = false ->
  Py.contains (String t0 "") old = false ->
  Py.replace old new (s +:+ String t0 t)
  = s +:+ Py.replace old new (String t0 t).
Proof.
  intros Hc Ht. induction s as [|c s IH]; [done|].
  cbn [Py.contains] in Hc.
  destruct (Py.startswith old (String c s)) eqn:E; [done|].
  rewrite !append_cons, replace_miss; [by rewrite IH|].
  rewrite <- append_cons. by apply startswith_app_false.
Qed.

Lemma endswith_refl suf : Py.endswith suf suf = true.
Proof. destruct suf; simpl; by rewrite ?Ascii.eqb_refl, ?String.eqb_refl. Qed.

Lemma endswith_app a suf : Py.endswith suf (a +:+ suf) = true.
Proof.
  induction a as [|c a IH]; [apply endswith_refl|].
  rewrite append_cons. cbn [Py.endswith]. rewrite IH.
  by destruct (String.eqb _ _).
Qed.

(** [endswith] holds exactly of the texts that end with the suffix. *)
Lemma endswith_spec suf s :
  Py.endswith suf s = true <-> exists a, s = a +:+ suf.
Proof.
  split.
  - induction s as [|c s IH]; cbn [Py.endswith].
    + destruct suf; [|done]. by exists "".
    + destruct (String.eqb_spec (String c s) suf) as [<-|_]; [by exists ""|].
      intros [a ->]%IH. by exists (String c a).
  - intros [a ->]. apply endswith_app.
Qed.

(** The cleaning of a title removes every illegal character. *)
Lemma remove_chars_clean bad s :
  Py.remove_chars bad (Py.remove_chars bad s) = Py.remove_chars bad s.
Proof.
  induction s as [|c s IH]; [done|]. simpl.
  destruct (bad c) eqn:E; [done|]. simpl. by rewrite E, IH.
Qed.

(** ** C4: the name of the EPUB *)

Lemma illegal_char_spec c :
  illegal_char c = true <->
  In c ["<"; ">"; ":"; ascii_of_nat 34; "/"; "\"; "|"; "?"; "*"]%char.
Proof.
  unfold illegal_char. rewrite existsb_exists. split.
  - intros (x & Hin & ->%Ascii.eqb_eq). done.
  - intros Hin. exists c. split; [done|apply Ascii.eqb_refl].
Qed.

Lemma clean_title_absent H self root :
  lookup_path (parts (book_dir self) ++ ["batch_0"; "metadata.json"]) root = None ->
  clean_title H self root = Ok (asin self).
Proof.
  intros Hl. unfold clean_title, path_exists.
  by rewrite parts_metadata_file, Hl.
Qed.

Lemma clean_title_present H self root text d :
  lookup_path (parts (book_dir self) ++ ["batch_0"; "metadata.json"]) root
    = Some (File text) ->
  json_loads H text = Some (VDict d) ->
  clean_title H self root =
    match default (VStr (asin self)) (d !! "bookTitle") with
    | VStr t => Ok (Py.strip (Py.remove_chars illegal_char t))
    | _ => Raise TypeError
    end.
Proof.
  intros Hl Hj. unfold clean_title, path_exists, read_text.
  rewrite parts_metadata_file, Hl. simpl. by rewrite Hj.
Qed.

(** What [create_epub] does once the process has returned. *)
Lemma create_epub_run H self w :
  create_epub H self w =
    let '(c, ext', fs') := spawn H (create_epub_cmd self) (ext H w) (fs H w) in
    let w' := {| fs := fs'; ext := ext';
                 events := events H w ++ [EvRun (create_epub_cmd self)] |} in
    if negb (returncode c =? 0)%Z then
      (Raise (CalledProcessError (returncode c) (create_epub_cmd self)
                (stdout c) (stderr c)), w')
    else if negb (path_exists epub_file fs') then
      (Raise (Exception "EPUB creation failed - output file not found"), w')
    else
      match (title <- clean_title H self fs' ;;
             output_name <- get3 (config self) "pipeline" "epub" "output_name" ;;
             name <- custom_name output_name (asin self) title ;;
             os_rename H epub_file (mkPath name) fs') with
      | Ok root' => (Ok tt, {| fs := root'; ext := ext'; events := events H w' |})
      | Raise e => (Raise e, w')
      end.
Proof.
  unfold create_epub, mbind, subprocess_run, get_fs, lift, raise, put_fs.
  destruct (spawn H _ _ _) as [[c ext'] fs'].
  destruct (returncode c =? 0)%Z; simpl; [|done].
  destruct (path_exists epub_file fs'); simpl; [|done].
  destruct (clean_title H self fs'); simpl; [|done].
  destruct (get3 _ _ _ _); simpl; [|done].
  destruct (custom_name _ _ _); simpl; [|done].
  by destruct (os_rename H _ _ _).
Qed.

(** C4, as amended.  The title that names the book is the identifier
    when [batch_0/metadata.json] is absent, and the [bookTitle] of the
    metadata, without the characters that are illegal in a file name and
    without the white space at its two ends, when it is present.  With
    [output_name] the literal [auto] the file name is the title followed
    by [.epub], hence the identifier followed by [.epub] when there is no
    metadata file.  Any other string [output_name] has every [{asin}]
    replaced by the identifier, then every [{title}] of the result by
    the title, and [.epub] appended unless the result ends with it.  The
    template [{title} - {asin}.epub] with the title [My: Book] gives
    [My Book - <identifier>.epub] for an identifier in which [{title}]
    does not occur.  That name is the one the package step renames the
    EPUB to.  An [output_name] that is not a string raises
    [AttributeError]. *)
Theorem custom_name_spec (H : Host) (self : KindleProcessor) (root : node) :
  let metadata := parts (book_dir self) ++ ["batch_0"; "metadata.json"] in
  (lookup_path metadata root = None ->
   clean_title H self root = Ok (asin self))
  /\ (forall text d t,
        lookup_path metadata root = Some (File text) ->
        json_loads H text = Some (VDict d) ->
        d !! "bookTitle" = Some (VStr t) ->
        clean_title H self root = Ok (Py.strip (Py.remove_chars illegal_char t)))
  /\ (forall c, illegal_char c = true <->
        In c ["<"; ">"; ":"; ascii_of_nat 34; "/"; "\"; "|"; "?"; "*"]%char)
  /\ (forall asin title,
        custom_name (VStr "auto") asin title = Ok (title +:+ ".epub"))
  /\ (lookup_path metadata root = None ->
      (title <- clean_title H self root ;;
       custom_name (VStr "auto") (asin self) title)
      = Ok (asin self +:+ ".epub"))
  /\ (forall t asin title,
        t ≠ "auto" ->
        let name := Py.replace "{title}" title (Py.replace "{asin}" asin t) in
        custom_name (VStr t) asin title
        = Ok (if Py.endswith ".epub" name then name else name +:+ ".epub"))
  /\ (forall asin,
        Py.contains "{title}" asin = false ->
        custom_name (VStr "{title} - {asin}.epub") asin
          (Py.strip (Py.remove_chars illegal_char "My: Book"))
        = Ok ("My Book - " +:+ asin +:+ ".epub"))
  /\ (forall w c ext' fs' title output_name name,
        spawn H (create_epub_cmd self) (ext H w) (fs H w) = (c, ext', fs') ->
        returncode c = 0%Z ->
        path_exists epub_file fs' = true ->
        clean_title H self fs' = Ok title ->
        get3 (config self) "pipeline" "epub" "output_name" = Ok output_name ->
        custom_name output_name (asin self) title = Ok name ->
        create_epub H self w =
          let events' := events H w ++ [EvRun (create_epub_cmd self)] in
          match os_rename H epub_file (mkPath name) fs' with
          | Ok root' =>
              (Ok tt, {| fs := root'; ext := ext'; events := events' |})
          | Raise e =>
              (Raise e, {| fs := fs'; ext := ext'; events := events' |})
          end)
  /\ (forall t,
        trimmed_of (Py.remove_chars illegal_char t)
          (Py.strip (Py.remove_chars illegal_char t)))
  /\ (forall output_name asin title,
        (forall t, output_name ≠ VStr t) ->
        custom_name output_name asin title = Raise AttributeError)
  /\ (forall w c ext' fs' title output_name,
        spawn H (create_epub_cmd self) (ext H w) (fs H w) = (c, ext', fs') ->
        returncode c = 0%Z ->
        path_exists epub_file fs' = true ->
        clean_title H self fs' = Ok title ->
        get3 (config self) "pipeline" "epub" "output_name" = Ok output_name ->
        (forall t, output_name ≠ VStr t) ->
        create_epub H self w
        = (Raise AttributeError,
           {| fs := fs'; ext := ext';
              events := events H w ++ [EvRun (create_epub_cmd self)] |})).
Proof.
  intros metadata.
  assert (forall output_name asin title,
            (forall t, output_name ≠ VStr t) ->
            custom_name output_name asin title = Raise AttributeError) as Hattr.
  { intros output_name asin title Hn.
    destruct output_name as [| | |t| |]; try done. by destruct (Hn t). }
  split; [|split; [|split; [|split; [|split; [|split; [|split; [|split;
    [|split; [|split]]]]]]]]].
  - apply clean_title_absent.
  - intros text d t Hl Hj Ht.
    rewrite (clean_title_present H self root text d Hl Hj). by rewrite Ht.
  - apply illegal_char_spec.
  - done.
  - intros Hl. by rewrite (clean_title_absent H self root Hl).
  - intros t asin title Hne. unfold custom_name. simpl.
    by apply String.eqb_neq in Hne as ->.
  - intros asin Hc.
    change (Py.strip (Py.remove_chars illegal_char "My: Book")) with "My Book".
    unfold custom_name. simpl eq_str. cbv iota.
    assert (Py.replace "{asin}" asin "{title} - {asin}.epub"
            = "{title}" +:+ String " " (String "-" (String " " (asin +:+ ".epub"))))
      as -> by reflexivity.
    rewrite (replace_hit "{title}" "My Book") by done.
    rewrite !replace_miss by done.
    rewrite (replace_app_absent "{title}") by done.
    change (Py.replace "{title}" "My Book" ".epub") with ".epub".
    assert ("My Book" +:+ String " " (String "-" (String " " (asin +:+ ".epub")))
            = ("My Book - " +:+ asin) +:+ ".epub") as -> by reflexivity.
    rewrite endswith_app.
    reflexivity.
  - intros w c ext' fs' title output_name name Hs Hr He Ht Ho Hn.
    rewrite create_epub_run, Hs, Hr, He. simpl. rewrite Ht. simpl.
    rewrite Ho. simpl. rewrite Hn. simpl. done.
  - intros t. apply strip_trimmed.
  - exact Hattr.
  - intros w c ext' fs' title output_name Hs Hr He Ht Ho Hn.
    rewrite create_epub_run, Hs, Hr, He. simpl. rewrite Ht. simpl.
    rewrite Ho. simpl. by rewrite (Hattr output_name (asin self) title Hn).
Qed.

Lemma custom_name_spec_witness :
  clean_title idle_host (book "B0FLBTR2FS") (book_root "B0FLBTR2FS" "  My: Book ")
  = Ok "My Book"
  /\ custom_name (VStr "{title} - {asin}.epub") "B0FLBTR2FS" "My Book"
     = Ok "My Book - B0FLBTR2FS.epub"
  /\ custom_name (VStr "{asin}") "B0FLBTR2FS" "My Book" = Ok "B0FLBTR2FS.epub"
  /\ clean_title idle_host (book "B0FLBTR2FS") (Dir ∅) = Ok "B0FLBTR2FS".
Proof.
  pose proof (custom_name_spec idle_host (book "B0FLBTR2FS")
                (book_root "B0FLBTR2FS" "  My: Book ")) as Hpresent.
  pose proof (custom_name_spec idle_host (book "B0FLBTR2FS") (Dir ∅)) as Habsent.
  split; [|split; [|split]].
  - apply (proj1 (proj2 Hpresent) "  My: Book "
             {[ "bookTitle" := VStr "  My: Book " ]} "  My: Book ");
      by vm_compute.
  - apply (proj1 (proj2 (proj2 (proj2 (proj2 (proj2 (proj2 Hpresent))))))
             "B0FLBTR2FS"). reflexivity.
  - apply (proj1 (proj2 (proj2 (proj2 (proj2 (proj2 Hpresent)))))
             "{asin}" "B0FLBTR2FS" "My Book"). done.
  - apply (proj1 Habsent). reflexivity.
Defined.

(** C4, as stated, fails.  The two replacements are made one after the
    other, so a [{title}] that the identifier brings in is replaced as
    well: for the identifier [{title}] the template of the example gives
    [My Book - My Book.epub].  And not every configuration has a name:
    the override line [pipeline.epub.output_name = 2024] makes the
    setting an integer, on which the step raises [AttributeError]. *)
Lemma custom_name_sequential :
  custom_name (VStr "{title} - {asin}.epub") "{title}"
    (Py.strip (Py.remove_chars illegal_char "My: Book"))
  = Ok "My Book - My Book.epub"
  /\ "My Book - My Book.epub" ≠ "My Book - " +:+ "{title}" +:+ ".epub"
  /\ (custom <- parse_simple_config "pipeline.epub.output_name = 2024" ;;
      get3 (merge_dicts default_config custom) "pipeline" "epub" "output_name")
     = Ok (VInt 2024)
  /\ custom_name (VInt 2024) "B0FLBTR2FS" "My Book" = Raise AttributeError.
Proof.
  split; [by vm_compute|]. split; [by vm_compute|]. split; by vm_compute.
Qed.

(** ** C9: where the title comes from *)

Lemma clean_title_reads_only_metadata H self root root' :
  lookup_path (parts (book_dir self) ++ ["batch_0"; "metadata.json"]) root'
  = lookup_path (parts (book_dir self) ++ ["batch_0"; "metadata.json"]) root ->
  clean_title H self root' = clean_title H self root.
Proof.
  intros E. unfold clean_title, path_exists, read_text.
  rewrite parts_metadata_file. by rewrite E.
Qed.

(** C9, as amended.  The package step reads the title from
    [batch_0/metadata.json] under the book directory and from nowhere
    else: two file trees that agree at that path give the same title,
    whatever other [batch_*] directories hold.  When [batch_0] or its
    [metadata.json] is absent the title is the identifier as it is; when
    the metadata has no [bookTitle] entry the title is the identifier
    cleaned as a title is, without the illegal characters and without
    surrounding white space, which is the identifier itself when it has
    neither. *)
Theorem clean_title_fallback (H : Host) (self : KindleProcessor) (root : node) :
  let batch_0 := parts (book_dir self) ++ ["batch_0"] in
  let metadata := parts (book_dir self) ++ ["batch_0"; "metadata.json"] in
  (lookup_path batch_0 root = None -> clean_title H self root = Ok (asin self))
  /\ (lookup_path metadata root = None -> clean_title H self root = Ok (asin self))
  /\ (forall text d,
        lookup_path metadata root = Some (File text) ->
        json_loads H text = Some (VDict d) ->
        d !! "bookTitle" = None ->
        clean_title H self root
        = Ok (Py.strip (Py.remove_chars illegal_char (asin self)))
        /\ (Py.remove_chars illegal_char (asin self) = asin self ->
            Py.strip (asin self) = asin self ->
            clean_title H self root = Ok (asin self)))
  /\ (forall root',
        lookup_path metadata root' = lookup_path metadata root ->
        clean_title H self root' = clean_title H self root).
Proof.
  intros batch_0 metadata. split; [|split; [|split]].
  - intros Hb. apply clean_title_absent.
    change (parts (book_dir self) ++ ["batch_0"; "metadata.json"])
      with (parts (book_dir self) ++ ["batch_0"] ++ ["metadata.json"]).
    rewrite app_assoc, lookup_path_app. fold batch_0. by rewrite Hb.
  - apply clean_title_absent.
  - intros text d Hl Hj Hd.
    rewrite (clean_title_present H self root text d Hl Hj), Hd. simpl.
    split; [done|]. intros -> ->. done.
  - apply clean_title_reads_only_metadata.
Qed.

Lemma clean_title_fallback_witness :
  clean_title idle_host (book "B0FLBTR2FS") (book_root "B0FLBTR2FS" "{}")
  = Ok "B0FLBTR2FS"
  /\ clean_title idle_host (book "B0FLBTR2FS") (book_root "OTHER" "A title")
     = Ok "B0FLBTR2FS".
Proof.
  split.
  - apply (proj1 (proj2 (proj2 (clean_title_fallback idle_host (book "B0FLBTR2FS")
                                  (book_root "B0FLBTR2FS" "{}")))) "{}" ∅);
      by vm_compute.
  - apply (proj1 (clean_title_fallback idle_host (book "B0FLBTR2FS")
                    (book_root "OTHER" "A title"))).
    by vm_compute.
Defined.

(** C9, as stated, fails where the metadata has no [bookTitle] entry and
    the identifier holds a character that is illegal in a file name: the
    title is not the identifier. *)
Lemma clean_title_not_identifier :
  lookup_path (parts (book_dir (book "A:B")) ++ ["batch_0"; "metadata.json"])
    (book_root "A:B" "{}") = Some (File "{}")
  /\ json_loads idle_host "{}" = Some (VDict ∅)
  /\ clean_title idle_host (book "A:B") (book_root "A:B" "{}") = Ok "AB"
  /\ clean_title idle_host (book "A:B") (book_root "A:B" "{}")
     ≠ Ok (asin (book "A:B")).
Proof. by vm_compute. Qed.

(** ** C10: the command line of the decode step *)

Lemma eq_str_false v s : v ≠ VStr s -> eq_str v s = false.
Proof.
  destruct v as [| | |t| |]; try done. intros Hne. simpl.
  apply String.eqb_neq. congruence.
Qed.

Lemma decode_cmd_get3 self :
  decode_cmd self =
    (mode <- get3 (config self) "pipeline" "decode" "mode" ;;
     let cmd := ["python3"; "decode_glyphs_complete.py"; path_str (book_dir self)] in
     Ok (if eq_str mode "fast" then cmd ++ ["--fast"]
         else if eq_str mode "full" then cmd ++ ["--full"]
         else if eq_str mode "progressive" then cmd ++ ["--progressive"]
         else cmd)).
Proof.
  unfold decode_cmd, get3.
  destruct (getitem (VDict (config self)) "pipeline") as [pipeline|]; [|done].
  simpl. by destruct (getitem pipeline "decode").
Qed.

(** The decode step starts one process, with the command line of
    [decode_cmd], and nothing else that shows. *)
Lemma decode_glyphs_events H self cmd w :
  decode_cmd self = Ok cmd ->
  events H (snd (decode_glyphs H self w)) = events H w ++ [EvRun cmd].
Proof.
  intros Hc. unfold decode_glyphs, mbind, lift, subprocess_run, get_fs, raise, ret.
  rewrite Hc. destruct (spawn H cmd (ext H w) (fs H w)) as [[c ext'] fs'].
  destruct (returncode c =? 0)%Z; simpl; [|done].
  by destruct (path_exists mapping_file fs').
Qed.

(** C10.  When the configured decode mode is none of [fast], [full] and
    [progressive], the decode step runs the decode executable with the
    book directory as its only argument: no mode flag, not even
    [--progressive]. *)
Theorem decode_cmd_unknown_mode (H : Host) (self : KindleProcessor) (mode : value) :
  get3 (config self) "pipeline" "decode" "mode" = Ok mode ->
  mode ≠ VStr "fast" -> mode ≠ VStr "full" -> mode ≠ VStr "progressive" ->
  let cmd := ["python3"; "decode_glyphs_complete.py"; path_str (book_dir self)] in
  decode_cmd self = Ok cmd
  /\ forall w, events H (snd (decode_glyphs H self w)) = events H w ++ [EvRun cmd].
Proof.
  intros Hm H1 H2 H3 cmd.
  assert (decode_cmd self = Ok cmd) as Hc.
  { rewrite decode_cmd_get3, Hm. simpl.
    by rewrite (eq_str_false _ _ H1), (eq_str_false _ _ H2), (eq_str_false _ _ H3). }
  split; [done|]. intros w. by apply decode_glyphs_events.
Qed.

Lemma decode_cmd_unknown_mode_witness :
  decode_cmd turbo_book
  = Ok ["python3"; "decode_glyphs_complete.py"; "downloads/B0FLBTR2FS"]
  /\ events idle_host (snd (decode_glyphs idle_host turbo_book
                              (start idle_host (Dir ∅) tt)))
     = [EvRun ["python3"; "decode_glyphs_complete.py"; "downloads/B0FLBTR2FS"]].
Proof.
  destruct (decode_cmd_unknown_mode idle_host turbo_book (VStr "turbo"))
    as [Hc He]; [by vm_compute | done | done | done |].
  split; [exact Hc | exact (He (start idle_host (Dir ∅) tt))].
Defined.

Example decode_cmd_default :
  decode_cmd (book "B0FLBTR2FS")
  = Ok ["python3"; "decode_glyphs_complete.py"; "downloads/B0FLBTR2FS";
        "--progressive"].
Proof. by vm_compute. Qed.

(** ** The file tree *)

Lemma glob_spec pattern p root name :
  In name (glob pattern p root) <->
  exists es, lookup_path (parts p) root = Some (Dir es)
             /\ is_Some (es !! name) /\ Py.fnmatch pattern name = true.
Proof.
  unfold glob. destruct (lookup_path (parts p) root) as [[c|es]|].
  - split; [done|]. by intros (? & ? & _).
  - rewrite filter_In, in_map_iff. split.
    + intros [([k n] & <- & Hin%list_elem_of_In%elem_of_map_to_list) Hm].
      exists es. eauto.
    + intros (es' & [= <-] & [n Hn] & Hm). split; [|done].
      exists (name, n). split; [done|].
      by apply list_elem_of_In, elem_of_map_to_list.
  - split; [done|]. by intros (? & ? & _).
Qed.

Lemma remove_path_step name rest es :
  rest ≠ [] ->
  remove_path (name :: rest) (Dir es) =
    match es !! name with
    | Some child => Dir (<[name := remove_path rest child]> es)
    | None => Dir es
    end.
Proof. by destruct rest. Qed.

Lemma lookup_remove_path_parent p name root es :
  lookup_path p root = Some (Dir es) ->
  lookup_path p (remove_path (p ++ [name]) root) = Some (Dir (delete name es)).
Proof.
  revert root. induction p as [|b p IH]; intros root.
  - simpl. by intros [= ->].
  - destruct root as [|es0]; [done|]. cbn [lookup_path].
    destruct (es0 !! b) as [child|] eqn:E; [|done]. intros Hl.
    rewrite <- app_comm_cons, remove_path_step by (by destruct p).
    rewrite E. cbn [lookup_path]. rewrite lookup_insert_eq. by apply IH.
Qed.

(** Removing at [p] leaves a file that is not under [p] as it is. *)
Lemma lookup_remove_path_file p q root c :
  lookup_path q root = Some (File c) ->
  (forall r, q ≠ p ++ r) ->
  lookup_path q (remove_path p root) = Some (File c).
Proof.
  revert q root. induction p as [|a p IH]; intros q root Hl Hn.
  - by destruct (Hn q).
  - destruct root as [c0|es]; [done|]. destruct q as [|b q]; [done|].
    simpl in Hl. destruct (es !! b) as [child|] eqn:E; [|done].
    cbn [remove_path]. destruct p as [|a' p'].
    + simpl. rewrite lookup_delete_ne, E; [done|].
      intros ->. by destruct (Hn q).
    + destruct (es !! a) as [child'|] eqn:Ea; [|by simpl; rewrite E].
      cbn [lookup_path]. destruct (decide (a = b)) as [->|Hab].
      * rewrite lookup_insert_eq. rewrite E in Ea. injection Ea as <-.
        apply IH; [done|]. intros r ->. by destruct (Hn r).
      * by rewrite lookup_insert_ne, E.
Qed.

(** Removing creates nothing. *)
Lemma lookup_remove_path_none p q root :
  lookup_path q root = None -> lookup_path q (remove_path p root) = None.
Proof.
  revert q root. induction p as [|a p IH]; intros q root Hl; [done|].
  destruct root as [c0|es]; [done|]. destruct q as [|b q]; [done|].
  simpl in Hl. cbn [remove_path]. destruct p as [|a' p'].
  - simpl. destruct (decide (a = b)) as [->|Hab].
    + by rewrite lookup_delete_eq.
    + by rewrite lookup_delete_ne.
  - destruct (es !! a) as [child'|] eqn:Ea; [|done].
    cbn [lookup_path]. destruct (decide (a = b)) as [->|Hab].
    + rewrite lookup_insert_eq. rewrite Ea in Hl. by apply IH.
    + by rewrite lookup_insert_ne.
Qed.

(** ** Cleaning up after a failure *)

Lemma incomplete_spec sub :
  incomplete (Some (Dir sub)) = false <->
  exists n, is_Some (sub !! n) /\ Py.fnmatch "page_data_*.json" n = true.
Proof.
  unfold incomplete.
  destruct (List.filter _ _) as [|n l] eqn:E; simpl.
  - split; [done|]. intros (n & [x Hn] & Hm).
    assert (In n (List.filter (Py.fnmatch "page_data_*.json")
                    (map fst (map_to_list sub)))) as Hin.
    { apply filter_In. split; [|done]. apply in_map_iff. exists (n, x).
      split; [done|]. by apply list_elem_of_In, elem_of_map_to_list. }
    by rewrite E in Hin.
  - split; [|done]. intros _.
    assert (In n (List.filter (Py.fnmatch "page_data_*.json")
                    (map fst (map_to_list sub)))) as Hin
      by (rewrite E; by left).
    apply filter_In in Hin as [Hin Hm].
    apply in_map_iff in Hin as ([k x] & <- & Hin%list_elem_of_In%elem_of_map_to_list).
    exists k. eauto.
Qed.

Lemma lookup_entry name es :
  lookup_path [name] (Dir es) = es !! name.
Proof. simpl. by destruct (es !! name). Qed.

(** One round of the first loop. *)
Lemma remove_incomplete_step book name root :
  (let batch_dir := entry book name in
   if is_complete_batch batch_dir root then root
   else rmtree_ignore_errors (parts batch_dir) root)
  = if incomplete (lookup_path (parts book ++ [name]) root)
    then remove_path (parts book ++ [name]) root else root.
Proof.
  unfold is_complete_batch, glob, rmtree_ignore_errors, incomplete. simpl.
  destruct (lookup_path (parts book ++ [name]) root) as [[c|sub]|]; simpl; try done.
  rewrite andb_true_r. by destruct (List.filter _ _).
Qed.

Lemma remove_incomplete_lookup book names root es :
  lookup_path (parts book) root = Some (Dir es) ->
  lookup_path (parts book) (remove_incomplete book names root)
  = Some (Dir (prune names es)).
Proof.
  unfold remove_incomplete, prune.
  revert root es. induction names as [|name names IH]; intros root es Hl; [done|].
  cbn [foldl]. rewrite remove_incomplete_step.
  rewrite lookup_path_app, Hl, lookup_entry.
  destruct (incomplete (es !! name)); apply IH; [|done].
  by apply lookup_remove_path_parent.
Qed.

Lemma prune_complete names es n :
  incomplete (es !! n) = false -> prune names es !! n = es !! n.
Proof.
  unfold prune. revert es. induction names as [|x names IH]; intros es Hc; [done|].
  cbn [foldl]. destruct (decide (x = n)) as [->|Hne].
  - rewrite Hc. by apply IH.
  - destruct (incomplete (es !! x)).
    + rewrite IH; rewrite lookup_delete_ne; done.
    + by apply IH.
Qed.

Lemma prune_incomplete names es n :
  In n names -> incomplete (es !! n) = true -> prune names es !! n = None.
Proof.
  unfold prune. revert es. induction names as [|x names IH]; intros es Hin Hc; [done|].
  cbn [foldl]. destruct (decide (x = n)) as [->|Hne].
  - rewrite Hc. fold (prune names (delete n es)).
    rewrite prune_complete; rewrite lookup_delete_eq; done.
  - destruct Hin as [->|Hin]; [done|].
    destruct (incomplete (es !! x)); apply IH; try done.
    by rewrite lookup_delete_ne.
Qed.

(** The first loop leaves the files of the current directory alone. *)
Lemma remove_incomplete_keeps_file book names root a c :
  lookup_path [a] root = Some (File c) ->
  lookup_path [a] (remove_incomplete book names root) = Some (File c).
Proof.
  unfold remove_incomplete.
  revert root. induction names as [|name names IH]; intros root Hl; [done|].
  cbn [foldl]. rewrite remove_incomplete_step.
  destruct (incomplete _) eqn:E; apply IH; [|done].
  apply lookup_remove_path_file; [done|]. intros r Hr.
  destruct (parts book) as [|b B]; simpl in Hr.
  - injection Hr as -> <-. change ([] ++ [name]) with [name] in E.
    by rewrite Hl in E.
  - injection Hr as -> Hr. by destruct B.
Qed.

Lemma remove_incomplete_keeps_none book names root q :
  lookup_path q root = None ->
  lookup_path q (remove_incomplete book names root) = None.
Proof.
  unfold remove_incomplete.
  revert root. induction names as [|name names IH]; intros root Hl; [done|].
  cbn [foldl]. rewrite remove_incomplete_step.
  destruct (incomplete _); apply IH; [|done].
  by apply lookup_remove_path_none.
Qed.

Lemma remove_partial_pure H files w :
  remove_partial H files w =
    (fst (unlink_all files (fs H w)),
     {| fs := snd (unlink_all files (fs H w));
        ext := ext H w; events := events H w |}).
Proof.
  revert w. induction files as [|f files IH]; intros [root e evs]; [done|].
  cbn [remove_partial unlink_all].
  unfold mbind, get_fs, lift, put_fs, ret. simpl.
  destruct (path_exists (mkPath f) root); [|apply IH].
  destruct (unlink_missing_ok _ root); [apply IH|done].
Qed.

Lemma cleanup_on_failure_pure H self w :
  cleanup_on_failure H self w =
    let root := fs H w in
    let root1 := if path_exists (book_dir self) root
                 then remove_incomplete (book_dir self)
                        (glob "batch_*" (book_dir self) root) root
                 else root in
    let out := unlink_all ["ttf_character_mapping.json"; "decoded_book.epub"] root1 in
    (fst out, {| fs := snd out; ext := ext H w;
                 events := events H w ++ [EvCleanup] |}).
Proof.
  destruct w as [root e evs].
  unfold cleanup_on_failure, mbind, emit, log, get_fs, put_fs, ret.
  cbn [fs ext events].
  destruct (path_exists (book_dir self) root); by rewrite remove_partial_pure.
Qed.

Lemma lookup_remove_single f g root :
  lookup_path [g] (remove_path [f] root)
  = if decide (f = g) then None else lookup_path [g] root.
Proof.
  destruct root as [c|es]; simpl.
  - by case_decide.
  - case_decide as E.
    + subst. by rewrite lookup_delete_eq.
    + by rewrite lookup_delete_ne.
Qed.

(** Unlinking a file of the current directory keeps every directory. *)
Lemma remove_single_keeps_dir a c q d root :
  lookup_path [a] root = Some (File c) ->
  q ≠ [] ->
  lookup_path q root = Some (Dir d) ->
  lookup_path q (remove_path [a] root) = Some (Dir d).
Proof.
  intros Ha Hq Hl. destruct root as [c0|es]; [done|].
  destruct q as [|b q]; [done|]. rewrite lookup_entry in Ha. simpl in *.
  destruct (decide (a = b)) as [->|Hne].
  - rewrite Ha in Hl. by destruct q.
  - by rewrite lookup_delete_ne.
Qed.

Lemma unlink_all_keeps_dir files q d root :
  Forall single_name files ->
  q ≠ [] ->
  lookup_path q root = Some (Dir d) ->
  lookup_path q (snd (unlink_all files root)) = Some (Dir d).
Proof.
  intros Hs Hq. revert root.
  induction Hs as [|f files Hf Hs IH]; intros root Hl; [done|].
  cbn [unlink_all]. unfold path_exists, unlink_missing_ok. rewrite Hf.
  destruct (lookup_path [f] root) as [[c|es]|] eqn:E; [|done|by apply IH].
  apply IH. by apply (remove_single_keeps_dir f c).
Qed.

Lemma unlink_all_keeps_none files q root :
  lookup_path q root = None ->
  lookup_path q (snd (unlink_all files root)) = None.
Proof.
  revert root. induction files as [|f files IH]; intros root Hl; [done|].
  cbn [unlink_all]. unfold path_exists, unlink_missing_ok.
  destruct (lookup_path (parts (mkPath f)) root) as [[c|es]|]; [|done|by apply IH].
  apply IH. by apply lookup_remove_path_none.
Qed.

(** Where none of the names is a directory, the second loop unlinks
    them all and raises nothing. *)
Lemma unlink_all_ok files root :
  Forall single_name files ->
  Forall (fun f => no_dir_at f root) files ->
  fst (unlink_all files root) = Ok tt
  /\ Forall (fun f => lookup_path [f] (snd (unlink_all files root)) = None) files.
Proof.
  intros Hs. revert root.
  induction Hs as [|f files Hf Hs IH]; intros root Hn; [done|].
  apply Forall_cons in Hn as [Hnf Hn].
  cbn [unlink_all]. unfold path_exists, unlink_missing_ok. rewrite Hf.
  destruct (lookup_path [f] root) as [[c|es]|] eqn:E.
  - assert (Forall (fun g => no_dir_at g (remove_path [f] root)) files) as Hn'.
    { eapply Forall_impl; [exact Hn|]. intros g Hg es.
      rewrite lookup_remove_single. case_decide; [done|apply Hg]. }
    destruct (IH _ Hn') as [Hok Hall]. split; [done|].
    apply Forall_cons. split; [|done].
    apply unlink_all_keeps_none. rewrite lookup_remove_single. by case_decide.
  - by destruct (Hnf es).
  - destruct (IH _ Hn) as [Hok Hall]. split; [done|].
    apply Forall_cons. split; [|done]. by apply unlink_all_keeps_none.
Qed.

(** *** The two patterns *)

Lemma fnmatch_nil name : Py.fnmatch "" name = true <-> name = "".
Proof. by destruct name. Qed.

Lemma fnmatch_star pat name :
  Py.fnmatch (String "*" pat) name = true <->
  exists mid rest, name = mid +:+ rest /\ Py.fnmatch pat rest = true.
Proof.
  cbn [Py.fnmatch]. rewrite Ascii.eqb_refl.
  induction name as [|c name IH].
  - destruct (Py.fnmatch pat "") eqn:E.
    + split; [|done]. intros _. by exists "", "".
    + split; [done|]. intros (mid & rest & Hn & Hm).
      destruct mid, rest; try done. congruence.
  - destruct (Py.fnmatch pat (String c name)) eqn:E.
    + split; [|done]. intros _. by exists "", (String c name).
    + rewrite IH. split.
      * intros (mid & rest & -> & Hm). by exists (String c mid), rest.
      * intros (mid & rest & Hn & Hm). destruct mid as [|c' mid].
        -- rewrite append_nil in Hn. congruence.
        -- rewrite append_cons in Hn. injection Hn as -> ->. eauto.
Qed.

Lemma fnmatch_char p pat name :
  p ≠ "*"%char ->
  Py.fnmatch (String p pat) name = true <->
  exists rest, name = String p rest /\ Py.fnmatch pat rest = true.
Proof.
  intros Hp. cbn [Py.fnmatch].
  assert (Ascii.eqb p "*" = false) as -> by by apply Ascii.eqb_neq.
  destruct name as [|c name].
  - split; [done|]. by intros (? & ? & _).
  - rewrite andb_true_iff, Ascii.eqb_eq. split.
    + intros [-> Hm]. eauto.
    + intros (rest & [= -> ->] & Hm). done.
Qed.

Lemma fnmatch_prefix lit pat name :
  Py.contains "*" lit = false ->
  Py.fnmatch (lit +:+ pat) name = true <->
  exists rest, name = lit +:+ rest /\ Py.fnmatch pat rest = true.
Proof.
  revert name. induction lit as [|a lit IH]; intros name Hc.
  - rewrite append_nil. split; [eauto|]. by intros (rest & -> & Hm).
  - cbn [Py.contains Py.startswith] in Hc. rewrite andb_true_r in Hc.
    destruct (Ascii.eqb_spec "*" a) as [|Hne]; [done|].
    rewrite append_cons, fnmatch_char by done. split.
    + intros (rest & -> & (rest' & -> & Hm)%IH); [|done]. eauto.
    + intros (rest & -> & Hm). eexists. split; [done|].
      apply IH; [done|]. eauto.
Qed.

Lemma fnmatch_batch name :
  Py.fnmatch "batch_*" name = true <-> exists rest, name = "batch_" +:+ rest.
Proof.
  change "batch_*" with ("batch_" +:+ "*").
  rewrite fnmatch_prefix by done. split.
  - intros (rest & -> & _). eauto.
  - intros (rest & ->). exists rest. split; [done|].
    apply fnmatch_star. exists rest, "". split; [|done].
    clear. induction rest; [done|]. rewrite append_cons. congruence.
Qed.

Lemma fnmatch_page_data name :
  Py.fnmatch "page_data_*.json" name = true <->
  exists mid, name = "page_data_" +:+ mid +:+ ".json".
Proof.
  change "page_data_*.json" with ("page_data_" +:+ String "*" (".json" +:+ "")).
  rewrite fnmatch_prefix by done. split.
  - intros (rest & -> & (mid & r & -> & Hm)%fnmatch_star).
    apply fnmatch_prefix in Hm as (e & -> & ->%fnmatch_nil); [|done].
    by exists mid.
  - intros (mid & ->). eexists. split; [done|].
    apply fnmatch_star. exists mid, ".json". split; [done|].
    apply fnmatch_prefix; [done|]. by exists "".
Qed.

(** ** The steps of the pipeline *)

Lemma download_book_run H self w :
  download_book H self w =
    match download_cmd self with
    | Raise e => (Raise e, w)
    | Ok cmd =>
        let '(c, ext', fs') := spawn H cmd (ext H w) (fs H w) in
        let w' := ran H cmd w ext' fs' in
        if negb (returncode c =? 0)%Z then
          (Raise (CalledProcessError (returncode c) cmd (stdout c) (stderr c)), w')
        else if negb (path_exists (book_dir self) fs') then
          (Raise (Exception ("Download failed - book directory not created: "
                             +:+ path_str (book_dir self))), w')
        else if is_nil (glob "batch_*" (book_dir self) fs') then
          (Raise (Exception "Download failed - no batch directories found"), w')
        else (Ok tt, w')
    end.
Proof.
  unfold download_book, mbind, lift, subprocess_run, get_fs, raise, ret, ran.
  destruct (download_cmd self) as [cmd|]; [|done].
  destruct (spawn H cmd _ _) as [[c ext'] fs'].
  destruct (returncode c =? 0)%Z; simpl; [|done].
  destruct (path_exists (book_dir self) fs'); simpl; [|done].
  by destruct (glob _ _ _).
Qed.

Lemma decode_glyphs_run H self w :
  decode_glyphs H self w =
    match decode_cmd self with
    | Raise e => (Raise e, w)
    | Ok cmd =>
        let '(c, ext', fs') := spawn H cmd (ext H w) (fs H w) in
        let w' := ran H cmd w ext' fs' in
        if negb (returncode c =? 0)%Z then
          (Raise (CalledProcessError (returncode c) cmd (stdout c) (stderr c)), w')
        else if negb (path_exists mapping_file fs') then
          (Raise (Exception "Decode failed - character mapping file not created"), w')
        else (Ok tt, w')
    end.
Proof.
  unfold decode_glyphs, mbind, lift, subprocess_run, get_fs, raise, ret, ran.
  destruct (decode_cmd self) as [cmd|]; [|done].
  destruct (spawn H cmd _ _) as [[c ext'] fs'].
  destruct (returncode c =? 0)%Z; simpl; [|done].
  by destruct (path_exists mapping_file fs').
Qed.

(** A step whose command line cannot be built fails before any process
    is started. *)
Lemma step_func_no_cmd H self s e w :
  step_cmd self s = Raise e -> step_func H self s w = (Raise e, w).
Proof.
  destruct s; simpl; [| |done].
  - intros Hc. by rewrite download_book_run, Hc.
  - intros Hc. by rewrite decode_glyphs_run, Hc.
Qed.

(** A step whose process exits with a code other than zero fails. *)
Lemma step_func_exit_code H self s cmd w c ext' fs' :
  step_cmd self s = Ok cmd ->
  spawn H cmd (ext H w) (fs H w) = (c, ext', fs') ->
  returncode c ≠ 0%Z ->
  step_func H self s w
  = (Raise (CalledProcessError (returncode c) cmd (stdout c) (stderr c)),
     ran H cmd w ext' fs').
Proof.
  intros Hc Hs Hr. apply Z.eqb_neq in Hr.
  destruct s; simpl in *.
  - by rewrite download_book_run, Hc, Hs, Hr.
  - by rewrite decode_glyphs_run, Hc, Hs, Hr.
  - injection Hc as <-. by rewrite create_epub_run, Hs, Hr.
Qed.

(** A step whose artifact is absent once the process has returned fails,
    whatever the exit code. *)
Lemma step_func_no_artifact H self s cmd w c ext' fs' :
  step_cmd self s = Ok cmd ->
  spawn H cmd (ext H w) (fs H w) = (c, ext', fs') ->
  artifact_present self s fs' = false ->
  exists e, step_func H self s w = (Raise e, ran H cmd w ext' fs')
            /\ (returncode c = 0%Z -> exists msg, e = Exception msg).
Proof.
  intros Hc Hs Ha.
  destruct (returncode c =? 0)%Z eqn:Hr.
  - apply Z.eqb_eq in Hr as Hr0. destruct s; simpl in *.
    + rewrite download_book_run, Hc, Hs, Hr. simpl.
      destruct (path_exists (book_dir self) fs'); simpl in *.
      * apply negb_false_iff in Ha as ->. eauto.
      * eauto.
    + rewrite decode_glyphs_run, Hc, Hs, Hr, Ha. simpl. eauto.
    + injection Hc as <-. rewrite create_epub_run, Hs, Hr, Ha. simpl. eauto.
  - apply Z.eqb_neq in Hr.
    rewrite (step_func_exit_code H self s cmd w c ext' fs' Hc Hs Hr).
    eexists. split; [done|]. done.
Qed.

(** What a step shows: the one process it starts, if it gets that far. *)
Lemma step_func_events H self s w :
  (exists e, step_cmd self s = Raise e /\ step_func H self s w = (Raise e, w))
  \/ (exists cmd, step_cmd self s = Ok cmd
                  /\ events H (snd (step_func H self s w)) = events H w ++ [EvRun cmd]).
Proof.
  destruct (step_cmd self s) as [cmd|e] eqn:Hc.
  - right. exists cmd. split; [done|].
    destruct (spawn H cmd (ext H w) (fs H w)) as [[c ext'] fs'] eqn:Hs.
    destruct s; simpl in *.
    + rewrite download_book_run, Hc, Hs.
      destruct (negb _); [done|]. destruct (negb _); [done|].
      by destruct (is_nil _).
    + rewrite decode_glyphs_run, Hc, Hs.
      destruct (negb _); [done|]. by destruct (negb _).
    + injection Hc as <-. rewrite create_epub_run, Hs.
      destruct (negb _); [done|]. destruct (negb _); [done|].
      by destruct (bind _ _).
  - left. exists e. split; [done|]. by apply step_func_no_cmd.
Qed.

(** ** The pipeline *)

Lemma run_steps_cons H self n i s rest w :
  run_steps H self n i (s :: rest) w =
    match step_func H self s (log H (EvStep i n (step_name s)) w) with
    | (Ok _, w2) =>
        run_steps H self n (S i) rest (log H (EvStepOk (step_name s)) w2)
    | (Raise e, w2) =>
        reraise_after_cleanup H self e (log H (EvStepFailed (step_name s)) w2)
    end.
Proof.
  cbn [run_steps]. unfold mbind, try_except, emit, raise, reraise_after_cleanup.
  destruct (step_func H self s _) as [[[]|e] w2]; [done|].
  by destruct (cleanup_on_failure H self _) as [[[]|e'] w3].
Qed.

Lemma reraise_after_cleanup_raises H self e w :
  exists e', fst (reraise_after_cleanup H self e w) = Raise e'.
Proof.
  unfold reraise_after_cleanup.
  destruct (cleanup_on_failure H self w) as [[[]|e'] w']; simpl; eauto.
Qed.

Lemma reraise_after_cleanup_events H self e w :
  events H (snd (reraise_after_cleanup H self e w)) = events H w ++ [EvCleanup].
Proof.
  unfold reraise_after_cleanup. rewrite cleanup_on_failure_pure. simpl.
  by destruct (fst _).
Qed.

(** Where neither artifact name is a directory, the cleanup returns
    and the exception of the step is the one raised again. *)
Lemma cleanup_on_failure_returns H self w :
  no_dir_at "ttf_character_mapping.json" (fs H w) ->
  no_dir_at "decoded_book.epub" (fs H w) ->
  fst (cleanup_on_failure H self w) = Ok tt.
Proof.
  intros Hn1 Hn2. rewrite cleanup_on_failure_pure. cbn [fst].
  set (root := fs H w) in *. set (book := book_dir self).
  set (root1 := if path_exists book root then _ else root).
  assert (forall a, no_dir_at a root -> no_dir_at a root1) as Hkeep.
  { intros a Ha es. subst root1. destruct (path_exists book root); [|apply Ha].
    destruct (lookup_path [a] root) as [[c|es']|] eqn:E.
    - by rewrite (remove_incomplete_keeps_file _ _ _ _ c E).
    - by destruct (Ha es').
    - by rewrite (remove_incomplete_keeps_none _ _ _ _ E). }
  apply unlink_all_ok; repeat constructor; by apply Hkeep.
Qed.

Lemma reraise_after_cleanup_same H self e w :
  no_dir_at "ttf_character_mapping.json" (fs H w) ->
  no_dir_at "decoded_book.epub" (fs H w) ->
  fst (reraise_after_cleanup H self e w) = Raise e.
Proof.
  intros Hn1 Hn2. unfold reraise_after_cleanup.
  pose proof (cleanup_on_failure_returns H self w Hn1 Hn2) as Hok.
  destruct (cleanup_on_failure H self w) as [[[]|e'] w']; simpl in *; done.
Qed.

(** The first step that fails ends the loop: the steps after it play no
    part in the outcome. *)
Lemma run_steps_fail H self n i pre s post w w1 e w2 :
  run_steps H self n i pre w = (Ok tt, w1) ->
  step_func H self s (log H (EvStep (i + length pre) n (step_name s)) w1)
  = (Raise e, w2) ->
  run_steps H self n i (pre ++ s :: post) w
  = reraise_after_cleanup H self e (log H (EvStepFailed (step_name s)) w2).
Proof.
  revert i w. induction pre as [|p pre IH]; intros i w Hpre Hs.
  - injection Hpre as <-. rewrite Nat.add_0_r in Hs.
    simpl app. by rewrite run_steps_cons, Hs.
  - rewrite <- app_comm_cons, run_steps_cons. rewrite run_steps_cons in Hpre.
    destruct (step_func H self p _) as [[[]|e0] w0].
    + apply IH; [done|]. by rewrite Nat.add_succ_comm.
    + destruct (reraise_after_cleanup_raises H self e0
                  (log H (EvStepFailed (step_name p)) w0)) as [e' He'].
      rewrite Hpre in He'. done.
Qed.

Lemma run_pipeline_run H self steps w :
  build_steps self = Ok steps ->
  run_pipeline H self w =
    match run_steps H self (length steps) 1 steps w with
    | (Ok _, w') => (Ok tt, log H (EvPipelineOk (asin self)) w')
    | (Raise e, w') => (Raise e, w')
    end.
Proof.
  intros Hb. unfold run_pipeline, mbind, lift, emit. rewrite Hb.
  by destruct (run_steps H self _ _ _ _) as [[[]|e] w'].
Qed.

Lemma build_steps_raises H self e w :
  build_steps self = Raise e -> run_pipeline H self w = (Raise e, w).
Proof. intros Hb. unfold run_pipeline, mbind, lift. by rewrite Hb. Qed.

(** *** The artifacts *)

Lemma download_artifact_spec self root :
  artifact_present self DownloadBook root = true <->
  exists es rest,
    lookup_path (parts (book_dir self)) root = Some (Dir es)
    /\ is_Some (es !! ("batch_" +:+ rest)).
Proof.
  simpl. rewrite andb_true_iff, negb_true_iff. split.
  - intros [_ Hg]. destruct (glob "batch_*" (book_dir self) root) as [|name l] eqn:E;
      [done|].
    assert (In name (glob "batch_*" (book_dir self) root)) as Hin
      by (rewrite E; by left).
    apply glob_spec in Hin as (es & Hl & Hn & Hm).
    apply fnmatch_batch in Hm as [rest ->]. eauto.
  - intros (es & rest & Hl & Hn). unfold path_exists. rewrite Hl. split; [done|].
    assert (In ("batch_" +:+ rest) (glob "batch_*" (book_dir self) root)) as Hin.
    { apply glob_spec. exists es. split; [done|]. split; [done|].
      apply fnmatch_batch. eauto. }
    by destruct (glob _ _ _).
Qed.

Lemma path_exists_spec p root :
  path_exists p root = true <-> is_Some (lookup_path (parts p) root).
Proof.
  unfold path_exists. destruct (lookup_path _ _).
  - split; eauto.
  - split; [done|]. by intros [? ?].
Qed.

(** ** C8: the step list *)

(** An assignment at a three-key path is read back at that path and
    leaves every other such path as it was. *)
Lemma get3_set3 config a b c v config' a' b' c' :
  set3 config a b c v = Ok config' ->
  get3 config' a' b' c' =
    if String.eqb a a' && String.eqb b b' && String.eqb c c' then Ok v
    else get3 config a' b' c'.
Proof.
  unfold set3, get3. simpl.
  destruct (config !! a) as [sec|] eqn:Ea; [|done]. simpl.
  destruct sec as [| | | | |sd]; try done. simpl.
  destruct (sd !! b) as [sub|] eqn:Eb; [|done]. simpl.
  destruct sub as [| | | | |d]; try done. simpl. intros [= <-].
  destruct (String.eqb_spec a a') as [<-|Ha]; simpl.
  - rewrite lookup_insert_eq. simpl.
    destruct (String.eqb_spec b b') as [<-|Hb]; simpl.
    + rewrite lookup_insert_eq. simpl.
      destruct (String.eqb_spec c c') as [<-|Hc]; simpl.
      * by rewrite lookup_insert_eq.
      * rewrite lookup_insert_ne by done. rewrite Ea. simpl. by rewrite Eb.
    + rewrite lookup_insert_ne by done. by rewrite Ea.
  - by rewrite lookup_insert_ne.
Qed.

Lemma get3_set3_if cond config a b c v config' a' b' c' :
  set3_if cond a b c v config = Ok config' ->
  get3 config' a' b' c' =
    if cond && (String.eqb a a' && String.eqb b b' && String.eqb c c') then Ok v
    else get3 config a' b' c'.
Proof.
  destruct cond; simpl.
  - apply get3_set3.
  - by intros [= <-].
Qed.

(** After the overrides of the command line, a stage is enabled where
    the loaded configuration enables it and its [--skip-*] flag is
    absent. *)
Lemma apply_cli_overrides_enabled args config config' :
  apply_cli_overrides args config = Ok config' ->
  get3 config' "pipeline" "download" "enabled"
  = (if arg_skip_download args then Ok (VBool false)
     else get3 config "pipeline" "download" "enabled")
  /\ get3 config' "pipeline" "decode" "enabled"
     = (if arg_skip_decode args then Ok (VBool false)
        else get3 config "pipeline" "decode" "enabled")
  /\ get3 config' "pipeline" "epub" "enabled"
     = (if arg_skip_epub args then Ok (VBool false)
        else get3 config "pipeline" "epub" "enabled").
Proof.
  unfold apply_cli_overrides.
  destruct (if arg_fast args then _ else _) as [c1|] eqn:E1; [|done].
  assert (forall b, get3 c1 "pipeline" b "enabled" = get3 config "pipeline" b "enabled")
    as H1.
  { intros b. destruct (arg_fast args), (arg_full args), (arg_progressive args);
      try (injection E1 as <-; done);
      rewrite (get3_set3 _ _ _ _ _ _ _ _ _ E1); simpl;
      by rewrite andb_false_r. }
  simpl.
  destruct (set3_if (arg_yes args) _ _ _ _ c1) as [c2|] eqn:E2; [|done]. simpl.
  destruct (match arg_output_name args with Some _ => _ | None => _ end)
    as [c3|] eqn:E3; [|done]. simpl.
  assert (forall b, get3 c3 "pipeline" b "enabled" = get3 c2 "pipeline" b "enabled")
    as H3.
  { intros b. destruct (arg_output_name args) as [name|].
    - rewrite (get3_set3_if _ _ _ _ _ _ _ _ _ _ E3). simpl.
      by rewrite !andb_false_r.
    - by injection E3 as <-. }
  destruct (set3_if (arg_skip_download args) _ _ _ _ c3) as [c4|] eqn:E4; [|done].
  simpl.
  destruct (set3_if (arg_skip_decode args) _ _ _ _ c4) as [c5|] eqn:E5; [|done].
  simpl. intros E6.
  rewrite !(get3_set3_if _ _ _ _ _ _ _ _ _ _ E6),
          !(get3_set3_if _ _ _ _ _ _ _ _ _ _ E5),
          !(get3_set3_if _ _ _ _ _ _ _ _ _ _ E4), !H3,
          !(get3_set3_if _ _ _ _ _ _ _ _ _ _ E2), !H1.
  simpl. rewrite !andb_false_r, !andb_true_r.
  by destruct (arg_skip_download args), (arg_skip_decode args), (arg_skip_epub args).
Qed.

Lemma step_cmd_script self s cmd :
  step_cmd self s = Ok cmd ->
  exists arg rest, cmd = "python3" :: step_script s :: arg :: rest.
Proof.
  destruct s; simpl.
  - unfold download_cmd. destruct (get3 _ _ _ _) as [v|]; [|done]. simpl.
    intros [= <-]. destruct (truthy v); simpl; eauto.
  - rewrite decode_cmd_get3. destruct (get3 _ _ _ _) as [v|]; [|done]. simpl.
    intros [= <-].
    destruct (eq_str v "fast"), (eq_str v "full"), (eq_str v "progressive");
      simpl; eauto.
  - intros [= <-]. unfold create_epub_cmd. eauto.
Qed.

(** What a run of the loop shows is a trace of the step list. *)
Lemma run_steps_trace H self n steps i w :
  exists evs ok,
    events H (snd (run_steps H self n i steps w)) = events H w ++ evs
    /\ steps_trace self n i steps evs ok
    /\ (if ok then fst (run_steps H self n i steps w) = Ok tt
        else exists e, fst (run_steps H self n i steps w) = Raise e).
Proof.
  revert i w. induction steps as [|s rest IH]; intros i w.
  - exists [], true. simpl. rewrite app_nil_r. repeat split. constructor.
  - rewrite run_steps_cons.
    set (w1 := log H (EvStep i n (step_name s)) w).
    destruct (step_func_events H self s w1) as [(e & Hc & Hs)|(cmd & Hc & Hev)].
    + rewrite Hs. exists [EvStep i n (step_name s); EvStepFailed (step_name s);
                          EvCleanup], false.
      rewrite reraise_after_cleanup_events. simpl. rewrite <- !app_assoc.
      repeat split; [constructor|apply reraise_after_cleanup_raises].
    + destruct (step_func H self s w1) as [[[]|e] w2]; simpl in Hev.
      * destruct (IH (S i) (log H (EvStepOk (step_name s)) w2))
          as (evs & ok & He & Ht & Hr).
        exists (EvStep i n (step_name s) :: EvRun cmd
                :: EvStepOk (step_name s) :: evs), ok.
        rewrite He. simpl. rewrite Hev. simpl. rewrite <- !app_assoc.
        repeat split; [by constructor|done].
      * exists [EvStep i n (step_name s); EvRun cmd; EvStepFailed (step_name s);
                EvCleanup], false.
        rewrite reraise_after_cleanup_events. simpl. rewrite Hev. simpl.
        rewrite <- !app_assoc.
        repeat split; [by constructor|apply reraise_after_cleanup_raises].
Qed.

(** Every process of a trace is the process of a step of the list. *)
Lemma steps_trace_runs self n i steps evs ok cmd :
  steps_trace self n i steps evs ok ->
  In (EvRun cmd) evs ->
  exists s, In s steps /\ step_cmd self s = Ok cmd.
Proof.
  induction 1 as [|i s rest cmd' evs ok Hc Ht IH|i s rest|i s rest cmd' Hc];
    simpl; intros Hin.
  - done.
  - destruct Hin as [|[[= <-]|[|Hin]]]; try done; [eauto|].
    destruct (IH Hin) as (s' & Hs' & Hc'). eauto.
  - by destruct Hin as [|[|[|]]].
  - destruct Hin as [|[[= <-]|[|[|]]]]; try done. eauto.
Qed.

(** The banners of a trace number the steps from [i] on and count [n]
    steps. *)
Lemma steps_trace_banners self n i steps evs ok j m name :
  steps_trace self n i steps evs ok ->
  In (EvStep j m name) evs ->
  m = n /\ i <= j < i + length steps
  /\ (step_name <$> steps) !! (j - i) = Some name.
Proof.
  induction 1 as [|i s rest cmd' evs ok Hc Ht IH|i s rest|i s rest cmd' Hc];
    simpl; intros Hin.
  - done.
  - destruct Hin as [[= <- <- <-]|[|[|Hin]]]; try done.
    + rewrite Nat.sub_diag. split; [done|]. split; [lia|done].
    + destruct (IH Hin) as (-> & Hj & Hn). split; [done|]. split; [lia|].
      replace (j - i) with (S (j - S i)) by lia. done.
  - destruct Hin as [[= <- <- <-]|[|[|]]]; try done.
    rewrite Nat.sub_diag. split; [done|]. split; [lia|done].
  - destruct Hin as [[= <- <- <-]|[|[|[|]]]]; try done.
    rewrite Nat.sub_diag. split; [done|]. split; [lia|done].
Qed.

Lemma build_steps_spec self download decode epub :
  get3 (config self) "pipeline" "download" "enabled" = Ok download ->
  get3 (config self) "pipeline" "decode" "enabled" = Ok decode ->
  get3 (config self) "pipeline" "epub" "enabled" = Ok epub ->
  build_steps self =
    Ok ((if truthy download then [DownloadBook] else [])
        ++ (if truthy decode then [DecodeGlyphs] else [])
        ++ (if truthy epub then [CreateEpub] else [])).
Proof.
  intros Hd Hc He. unfold build_steps. rewrite Hd, Hc, He. simpl.
  by rewrite <- app_assoc.
Qed.

(** Where a flag cannot be read there is no step list. *)
Lemma build_steps_ok self steps :
  build_steps self = Ok steps ->
  exists download decode epub,
    get3 (config self) "pipeline" "download" "enabled" = Ok download
    /\ get3 (config self) "pipeline" "decode" "enabled" = Ok decode
    /\ get3 (config self) "pipeline" "epub" "enabled" = Ok epub.
Proof.
  unfold build_steps.
  destruct (get3 _ _ "download" _) as [d|]; [|done]. simpl.
  destruct (get3 _ _ "decode" _) as [c|]; [|done]. simpl.
  destruct (get3 _ _ "epub" _) as [e|]; [|done]. eauto 10.
Qed.

Lemma step_script_inj s s' : step_script s = step_script s' -> s = s'.
Proof. by destruct s, s'. Qed.

(** C8.  The step list holds the download, the decoding and the
    packaging, in that order, each exactly when its [enabled] flag is
    true (as Python's [if] reads the value) in the configuration the
    processor gets; and after the overrides of the command line that
    flag is [False] under the stage's [--skip-*] flag and the one of the
    loaded configuration otherwise.
    Where a flag cannot be read there is no step list and nothing runs.
    A run shows a trace of the step list: every process it starts is the
    executable of a step of the list, started in the order of the list,
    so the executable of a stage that is off is never started; and every
    banner counts the steps of the list only. *)
Theorem build_steps_enabled (H : Host) (self : KindleProcessor) :
  (forall download decode epub,
     get3 (config self) "pipeline" "download" "enabled" = Ok download ->
     get3 (config self) "pipeline" "decode" "enabled" = Ok decode ->
     get3 (config self) "pipeline" "epub" "enabled" = Ok epub ->
     build_steps self =
       Ok ((if truthy download then [DownloadBook] else [])
           ++ (if truthy decode then [DecodeGlyphs] else [])
           ++ (if truthy epub then [CreateEpub] else [])))
  /\ (forall steps,
        build_steps self = Ok steps ->
        exists download decode epub,
          get3 (config self) "pipeline" "download" "enabled" = Ok download
          /\ get3 (config self) "pipeline" "decode" "enabled" = Ok decode
          /\ get3 (config self) "pipeline" "epub" "enabled" = Ok epub)
  /\ (forall e w, build_steps self = Raise e -> run_pipeline H self w = (Raise e, w))
  /\ (forall args loaded,
        apply_cli_overrides args loaded = Ok (config self) ->
        get3 (config self) "pipeline" "download" "enabled"
        = (if arg_skip_download args then Ok (VBool false)
           else get3 loaded "pipeline" "download" "enabled")
        /\ get3 (config self) "pipeline" "decode" "enabled"
           = (if arg_skip_decode args then Ok (VBool false)
              else get3 loaded "pipeline" "decode" "enabled")
        /\ get3 (config self) "pipeline" "epub" "enabled"
           = (if arg_skip_epub args then Ok (VBool false)
              else get3 loaded "pipeline" "epub" "enabled"))
  /\ (forall steps w,
        build_steps self = Ok steps ->
        exists evs ok,
          events H (snd (run_pipeline H self w))
          = events H w ++ evs
            ++ (if ok : bool then [EvPipelineOk (asin self)] else [])
          /\ steps_trace self (length steps) 1 steps evs ok
          /\ (forall cmd,
                In (EvRun cmd) evs ->
                exists s arg rest,
                  In s steps /\ cmd = "python3" :: step_script s :: arg :: rest)
          /\ (forall off cmd,
                ~ In off steps -> In (EvRun cmd) evs ->
                cmd !! 1 ≠ Some (step_script off))
          /\ (forall j m name,
                In (EvStep j m name) evs ->
                m = length steps /\ 1 <= j <= length steps
                /\ (step_name <$> steps) !! (j - 1) = Some name)).
Proof.
  split; [|split; [|split; [|split]]].
  - apply build_steps_spec.
  - apply build_steps_ok.
  - intros e w. apply build_steps_raises.
  - intros args loaded. apply apply_cli_overrides_enabled.
  - intros steps w Hb.
    destruct (run_steps_trace H self (length steps) steps 1 w)
      as (evs & ok & Hev & Ht & Hr).
    assert (forall cmd, In (EvRun cmd) evs ->
              exists s arg rest,
                In s steps /\ cmd = "python3" :: step_script s :: arg :: rest)
      as Hruns.
    { intros cmd Hin.
      destruct (steps_trace_runs _ _ _ _ _ _ _ Ht Hin) as (s & Hs & Hc).
      destruct (step_cmd_script _ _ _ Hc) as (arg & rest & ->). eauto. }
    exists evs, ok. split; [|split; [done|split; [done|split]]].
    + rewrite (run_pipeline_run H self steps w Hb).
      destruct (run_steps H self _ _ _ _) as [[[]|e] w'] eqn:E; simpl in *.
      * destruct ok; [|by destruct Hr]. unfold log. simpl.
        by rewrite Hev, <- app_assoc.
      * destruct ok; [done|]. by rewrite app_nil_r.
    + intros off cmd Hoff Hin.
      destruct (Hruns cmd Hin) as (s & arg & rest & Hs & ->). simpl.
      intros [= Heq]. apply step_script_inj in Heq as ->. done.
    + intros j m name Hin.
      destruct (steps_trace_banners _ _ _ _ _ _ _ _ _ Ht Hin) as (-> & Hj & Hn).
      split; [done|]. split; [lia|done].
Qed.

Lemma build_steps_enabled_witness :
  build_steps skip_decode_book = Ok [DownloadBook; CreateEpub]
  /\ get3 (config skip_decode_book) "pipeline" "decode" "enabled" = Ok (VBool false).
Proof.
  pose proof (build_steps_enabled idle_host skip_decode_book)
    as (Hsteps & _ & _ & Hcli & _).
  split.
  - apply (Hsteps (VBool true) (VBool false) (VBool true)); by vm_compute.
  - apply (Hcli skip_decode_args default_config). by vm_compute.
Defined.

(** ** C2: the batch loop *)

Lemma books_app evs evs' : books (evs ++ evs') = books evs ++ books evs'.
Proof. apply omap_app. Qed.

Lemma steps_trace_books self n i steps evs ok :
  steps_trace self n i steps evs ok -> books evs = [].
Proof. induction 1; done. Qed.

(** Processing one book prints no [BOOK] banner. *)
Lemma process_one_books H config asin w :
  books (events H (snd (process_one H config asin w))) = books (events H w).
Proof.
  unfold process_one, mbind, lift.
  destruct (new_processor asin config) as [self|]; [|done].
  destruct (build_steps self) as [steps|e] eqn:Hb.
  - rewrite (run_pipeline_run H self steps w Hb).
    destruct (run_steps_trace H self (length steps) steps 1 w)
      as (evs & ok & Hev & Ht & _).
    apply steps_trace_books in Ht.
    destruct (run_steps H self _ _ _ _) as [[[]|e] w']; simpl in *;
      rewrite Hev, ?books_app, Ht, ?app_nil_r; done.
  - by rewrite (build_steps_raises H self e w Hb).
Qed.

Lemma batch_loop_cons H config n i asin rest results w :
  batch_loop H config n i (asin :: rest) results w =
    match process_one H config asin (log H (EvBook i n asin) w) with
    | (Ok _, w') =>
        batch_loop H config n (S i) rest (results ++ [RSuccess asin]) w'
    | (Raise e, w') =>
        match continue_on_error config with
        | Ok flag =>
            if truthy flag
            then batch_loop H config n (S i) rest
                   (results ++ [RFailed asin (str_exn H e)]) w'
            else (Ok (results ++ [RFailed asin (str_exn H e)]), w')
        | Raise e' => (Raise e', w')
        end
    end.
Proof. reflexivity. Qed.

(** The loop does what the specification says, and returns the list it
    was given with the records of this run appended. *)
Lemma batch_loop_run H config flag n asins i results w :
  continue_on_error config = Ok flag ->
  exists rs w',
    batch_loop H config n i asins results w = (Ok (results ++ rs), w')
    /\ batch_run H config n i asins w rs w'.
Proof.
  intros Hf. revert i results w.
  induction asins as [|asin rest IH]; intros i results w.
  - exists [], w. rewrite app_nil_r. split; [done|constructor].
  - rewrite batch_loop_cons, Hf.
    destruct (process_one H config asin _) as [[[]|e] w1] eqn:E.
    + destruct (IH (S i) (results ++ [RSuccess asin]) w1) as (rs & w' & -> & Hr).
      exists (RSuccess asin :: rs), w'. rewrite <- app_assoc.
      split; [done|]. by eapply batch_success.
    + destruct (truthy flag) eqn:Et.
      * destruct (IH (S i) (results ++ [RFailed asin (str_exn H e)]) w1)
          as (rs & w' & -> & Hr).
        exists (RFailed asin (str_exn H e) :: rs), w'. rewrite <- app_assoc.
        split; [done|]. by eapply batch_failure_continue.
      * exists [RFailed asin (str_exn H e)], w1. split; [done|].
        by eapply batch_failure_halt.
Qed.

(** One record per identifier attempted, in the order of the file. *)
Lemma batch_run_asins H config n i asins w rs w' :
  batch_run H config n i asins w rs w' ->
  record_asin <$> rs = take (length rs) asins.
Proof. induction 1; simpl; by f_equal. Qed.

(** The identifiers attempted are the identifiers recorded. *)
Lemma batch_run_books H config n i asins w rs w' :
  batch_run H config n i asins w rs w' ->
  books (events H w') = books (events H w) ++ (record_asin <$> rs).
Proof.
  induction 1 as [i w|i asin rest w w1 rs w2 Hp Hr IH
                  |i asin rest w e w1 rs w2 flag Hp Hf Ht Hr IH
                  |i asin rest w e w1 flag Hp Hf Ht].
  - by rewrite app_nil_r.
  - rewrite IH. pose proof (process_one_books H config asin
                              (log H (EvBook i n asin) w)) as Hb.
    rewrite Hp in Hb. simpl in Hb. rewrite Hb, books_app. simpl.
    by rewrite <- app_assoc.
  - rewrite IH. pose proof (process_one_books H config asin
                              (log H (EvBook i n asin) w)) as Hb.
    rewrite Hp in Hb. simpl in Hb. rewrite Hb, books_app. simpl.
    by rewrite <- app_assoc.
  - pose proof (process_one_books H config asin
                  (log H (EvBook i n asin) w)) as Hb.
    rewrite Hp in Hb. simpl in Hb. rewrite Hb, books_app. done.
Qed.

(** With [continue_on_error] true every identifier is attempted. *)
Lemma batch_run_continue H config n i asins w rs w' flag :
  batch_run H config n i asins w rs w' ->
  continue_on_error config = Ok flag -> truthy flag = true ->
  record_asin <$> rs = asins.
Proof.
  intros Hr Hf Ht.
  induction Hr as [i w|i asin rest w w1 rs w2 Hp Hr IH
                   |i asin rest w e w1 rs w2 flag' Hp Hf' Ht' Hr IH
                   |i asin rest w e w1 flag' Hp Hf' Ht'].
  - done.
  - rewrite fmap_cons. by f_equal.
  - rewrite fmap_cons. by f_equal.
  - congruence.
Qed.

(** With [continue_on_error] false a failure is the last record, and
    the loop stops short of the end of the list only on a failure. *)
Lemma batch_run_halt H config n i asins w rs w' flag :
  batch_run H config n i asins w rs w' ->
  continue_on_error config = Ok flag -> truthy flag = false ->
  (forall k r, rs !! k = Some r -> is_success r = false -> S k = length rs)
  /\ (length rs = length asins
      \/ exists k asin error, rs !! k = Some (RFailed asin error)).
Proof.
  intros Hr Hf Ht.
  induction Hr as [i w|i asin rest w w1 rs w2 Hp Hr IH
                   |i asin rest w e w1 rs w2 flag' Hp Hf' Ht' Hr IH
                   |i asin rest w e w1 flag' Hp Hf' Ht'].
  - split; [done|]. by left.
  - destruct IH as [IH1 IH2]. split.
    + intros [|k] r; simpl; [by intros [= <-]|].
      intros Hk Hs. f_equal. by eapply IH1.
    + destruct IH2 as [IH2|(k & a & err & Hk)]; [left; simpl; by rewrite IH2|].
      right. by exists (S k), a, err.
  - congruence.
  - split.
    + intros [|k] r; simpl; [done|]. by rewrite lookup_nil.
    + right. by exists 0, asin, (str_exn H e).
Qed.

(** With [continue_on_error] false, the first identifier that fails
    ends the loop: the records are those of the identifiers before it,
    all successes, and its own, and the world is the one its failure
    left. *)
Lemma batch_loop_first_failure H config flag n pre a post e :
  continue_on_error config = Ok flag -> truthy flag = false ->
  forall i results w w1 w2,
    batch_run H config n i pre w (RSuccess <$> pre) w1 ->
    process_one H config a (log H (EvBook (i + length pre) n a) w1) = (Raise e, w2) ->
    batch_loop H config n i (pre ++ a :: post) results w
    = (Ok (results ++ (RSuccess <$> pre) ++ [RFailed a (str_exn H e)]), w2).
Proof.
  intros Hf Ht. induction pre as [|p pre IH]; intros i results w w1 w2 Hr Hp.
  - inversion Hr; subst. rewrite Nat.add_0_r in Hp.
    simpl app. rewrite batch_loop_cons, Hp, Hf, Ht. done.
  - rewrite fmap_cons in Hr. inversion Hr; subst.
    rewrite <- app_comm_cons, batch_loop_cons.
    match goal with Hq : process_one _ _ p _ = _ |- _ => rewrite Hq end.
    erewrite IH; [|eassumption|].
    + by rewrite <- app_assoc.
    + by rewrite Nat.add_succ_comm.
Qed.

Lemma write_text_lookup p content root root' :
  write_text p content root = Ok root' ->
  lookup_path p root' = Some (File content).
Proof.
  revert root root'. induction p as [|name rest IH]; intros root root'; [done|].
  destruct root as [c|es]; [done|]. cbn [write_text].
  destruct rest as [|name' rest'].
  - destruct (es !! name) as [[c|d]|]; try done;
      intros [= <-]; simpl; by rewrite lookup_insert_eq.
  - destruct (es !! name) as [child|]; [|done].
    destruct (write_text (name' :: rest') content child) as [child'|] eqn:E;
      [|done].
    simpl. intros [= <-]. cbn [lookup_path]. rewrite lookup_insert_eq.
    by apply (IH child).
Qed.

Lemma generate_batch_report_run H results w :
  events H (snd (generate_batch_report H results w))
  = events H w ++ [EvSummary results]
  /\ (fst (generate_batch_report H results w) = Ok tt ->
      lookup_path (parts (report_file H w))
        (fs H (snd (generate_batch_report H results w)))
      = Some (File (json_dumps H results))).
Proof.
  unfold generate_batch_report, mbind, emit, put_fs, report_file. simpl.
  destruct (write_text _ _ (fs H w)) as [root'|e] eqn:E; simpl.
  - split; [done|]. intros _. by apply write_text_lookup in E.
  - done.
Qed.

Lemma process_batch_run H book_list_file config asins w :
  read_book_list book_list_file (fs H w) = Ok asins ->
  process_batch H book_list_file config w =
    match batch_loop H config (length asins) 1 asins [] w with
    | (Ok results, w') => generate_batch_report H results w'
    | (Raise e, w') => (Raise e, w')
    end.
Proof.
  intros Hr. unfold process_batch, mbind, get_fs, lift. by rewrite Hr.
Qed.

(** C2.  Where [batch.continue_on_error] can be read, the batch loop
    takes the identifiers in the order of the file and returns one
    record per identifier attempted: a success for a pipeline that
    returned, a failure with the message of the exception for one that
    raised.  The identifiers attempted are exactly those recorded.  With
    the flag true, which it is by default, every identifier is
    attempted and recorded.  With the flag false a failure is the last record: when
    the identifiers before [a] succeed and [a] fails, the records are
    those successes and the failure of [a], the world is the one the
    failure left, and no later identifier is attempted; so a failure of
    identifier 2 of 5 leaves 2 records.  The report written at the end
    holds exactly these records. *)
Theorem batch_loop_spec (H : Host) (config : gmap string value) (flag : value) :
  continue_on_error config = Ok flag ->
  continue_on_error default_config = Ok (VBool true)
  /\ (forall batch,
        config !! "batch" = Some (VDict batch) ->
        batch !! "continue_on_error" = None -> flag = VBool true)
  /\ (forall n i asins w,
     exists rs w',
       batch_loop H config n i asins [] w = (Ok rs, w')
       /\ batch_run H config n i asins w rs w'
       /\ record_asin <$> rs = take (length rs) asins
       /\ books (events H w') = books (events H w) ++ (record_asin <$> rs)
       /\ (truthy flag = true ->
           record_asin <$> rs = asins /\ length rs = length asins)
       /\ (truthy flag = false ->
           (forall k r, rs !! k = Some r -> is_success r = false -> S k = length rs)
           /\ (forall pre a post w1 e w2,
                 asins = pre ++ a :: post ->
                 batch_run H config n i pre w (RSuccess <$> pre) w1 ->
                 process_one H config a (log H (EvBook (i + length pre) n a) w1)
                 = (Raise e, w2) ->
                 rs = (RSuccess <$> pre) ++ [RFailed a (str_exn H e)]
                 /\ length rs = S (length pre)
                 /\ w' = w2)))
  /\ (forall book_list_file asins w,
        read_book_list book_list_file (fs H w) = Ok asins ->
        exists rs w',
          batch_loop H config (length asins) 1 asins [] w = (Ok rs, w')
          /\ process_batch H book_list_file config w = generate_batch_report H rs w'
          /\ events H (snd (process_batch H book_list_file config w))
             = events H w' ++ [EvSummary rs]
          /\ (fst (process_batch H book_list_file config w) = Ok tt ->
              lookup_path (parts (report_file H w'))
                (fs H (snd (process_batch H book_list_file config w)))
              = Some (File (json_dumps H rs)))).
Proof.
  intros Hf. split; [done|]. split; [|split].
  - intros batch Hb Hc. unfold continue_on_error in Hf.
    rewrite Hb in Hf. simpl in Hf. rewrite Hc in Hf. by injection Hf as <-.
  - intros n i asins w.
    destruct (batch_loop_run H config flag n asins i [] w Hf) as (rs & w' & Hl & Hr).
    rewrite app_nil_l in Hl. exists rs, w'.
    split; [done|]. split; [done|].
    split; [by eapply batch_run_asins|].
    split; [by eapply batch_run_books|]. split.
    + intros Ht. pose proof (batch_run_continue _ _ _ _ _ _ _ _ _ Hr Hf Ht) as Ha.
      split; [done|]. by rewrite <- Ha, length_fmap.
    + intros Ht. split; [by eapply batch_run_halt|].
      intros pre a post w1 e w2 -> Hpre Hp.
      rewrite (batch_loop_first_failure H config flag n pre a post e Hf Ht
                 i [] w w1 w2 Hpre Hp) in Hl.
      rewrite app_nil_l in Hl. injection Hl as <- <-.
      split; [done|]. split; [|done].
      rewrite length_app, length_fmap. simpl. lia.
  - intros book_list_file asins w Hread.
    destruct (batch_loop_run H config flag (length asins) asins 1 [] w Hf)
      as (rs & w' & Hl & Hr).
    rewrite app_nil_l in Hl. exists rs, w'. split; [done|].
    rewrite (process_batch_run H book_list_file config asins w Hread), Hl.
    split; [done|]. apply generate_batch_report_run.
Qed.


Lemma batch_loop_spec_witness :
  (fst (batch_loop picky_host (download_only false) 5 1 five_books [] batch_start)
   = Ok [RSuccess "B1"; RFailed "BAD" "error"]
   /\ snd (batch_loop picky_host (download_only false) 5 1 five_books []
             batch_start) = after_second)
  /\ (exists rs,
        fst (batch_loop picky_host (download_only true) 5 1 five_books []
               batch_start) = Ok rs
        /\ record_asin <$> rs = five_books).
Proof.
  split.
  - destruct (proj1 (proj2 (proj2
                (batch_loop_spec picky_host (download_only false) (VBool false)
                   ltac:(reflexivity))))
                5 1 five_books batch_start)
      as (rs & w' & Hl & _ & _ & _ & _ & Hhalt).
    destruct (Hhalt eq_refl) as [_ Hfirst].
    destruct (Hfirst ["B1"] "BAD" ["B3"; "B4"; "B5"] after_first second_failure
                after_second) as (Hrs & _ & Hw).
    + reflexivity.
    + apply (batch_success picky_host (download_only false) 5 1 "B1" []
               batch_start after_first [] after_first);
        [reflexivity|apply batch_end].
    + reflexivity.
    + rewrite Hl. cbn [fst snd]. rewrite Hrs, Hw. split; reflexivity.
  - destruct (proj1 (proj2 (proj2
                (batch_loop_spec picky_host (download_only true) (VBool true)
                   ltac:(reflexivity))))
                5 1 five_books batch_start)
      as (rs & w' & Hl & _ & _ & _ & Hcont & _).
    exists rs. rewrite Hl. split; [reflexivity|]. exact (proj1 (Hcont eq_refl)).
Defined.

Example batch_of_five_halts :
  events picky_host after_second
  = [EvBook 1 5 "B1"; EvStep 1 1 "Download Book";
     EvRun ["python3"; "download_full_book.py"; "B1"];
     EvStepOk "Download Book"; EvPipelineOk "B1";
     EvBook 2 5 "BAD"; EvStep 1 1 "Download Book";
     EvRun ["python3"; "download_full_book.py"; "BAD"];
     EvStepFailed "Download Book"; EvCleanup].
Proof. reflexivity. Qed.

(** * Further properties of the code *)

(** ** The prerequisites *)

Lemma fnmatch_ttf name :
  Py.fnmatch "*.ttf" name = true <-> exists stem, name = stem +:+ ".ttf".
Proof.
  rewrite fnmatch_star. split.
  - intros (mid & rest & -> & Hm). change ".ttf" with (".ttf" +:+ "") in Hm.
    apply fnmatch_prefix in Hm as (e & -> & ->%fnmatch_nil); [|done].
    by exists mid.
  - intros (stem & ->). by exists stem, ".ttf".
Qed.

(** A glob yields something exactly when the directory holds an entry
    that matches. *)
Lemma glob_nonempty pattern p root :
  is_nil (glob pattern p root) = false <->
  exists es name, lookup_path (parts p) root = Some (Dir es)
                  /\ is_Some (es !! name) /\ Py.fnmatch pattern name = true.
Proof.
  split.
  - destruct (glob pattern p root) as [|name l] eqn:E; [done|]. intros _.
    assert (In name (glob pattern p root)) as Hin by (rewrite E; by left).
    apply glob_spec in Hin as (es & Hl & Hn & Hm). eauto.
  - intros (es & name & Hl & Hn & Hm).
    assert (In name (glob pattern p root)) as Hin by (apply glob_spec; eauto).
    by destruct (glob pattern p root).
Qed.

Lemma path_exists_false p root :
  path_exists p root = false <-> lookup_path (parts p) root = None.
Proof. unfold path_exists. by destruct (lookup_path _ _). Qed.

Lemma check_scripts_ok scripts root :
  Forall single_name scripts ->
  check_scripts scripts root = Ok tt <->
  Forall (fun script => is_Some (lookup_path [script] root)) scripts.
Proof.
  induction 1 as [|script rest Hs _ IH]; cbn [check_scripts].
  - split; [constructor|done].
  - unfold single_name in Hs.
    rewrite Forall_cons, <- IH. cbv beta. rewrite <- Hs, <- path_exists_spec.
    destruct (path_exists (mkPath script) root); simpl; [tauto|].
    split; [done|]. by intros [? _].
Qed.

(** The first script that is missing is the one the error names. *)
Lemma check_scripts_first_missing pre script post root :
  Forall single_name (pre ++ script :: post) ->
  Forall (fun s => is_Some (lookup_path [s] root)) pre ->
  lookup_path [script] root = None ->
  check_scripts (pre ++ script :: post) root
  = Raise (FileNotFoundError ("Required script not found: " +:+ script)).
Proof.
  induction pre as [|s pre IH]; cbn [app check_scripts]; intros Hs Hp Hm.
  - apply Forall_cons in Hs as [Hs _]. unfold single_name in Hs.
    unfold path_exists. by rewrite Hs, Hm.
  - apply Forall_cons in Hs as [Hs Hrest]. apply Forall_cons in Hp as [Hp Hpre].
    unfold single_name in Hs. unfold path_exists. rewrite Hs.
    destruct Hp as [n ->]. simpl. by apply IH.
Qed.

(** X1.  [check_prerequisites] returns exactly when the current
    directory holds the three stage scripts and [headers.json], and
    [fonts] is a directory with an entry whose name ends with [.ttf].
    Otherwise it raises [FileNotFoundError], for the first thing that is
    missing: the scripts in the order download, decode, package, then
    [headers.json], then [fonts], then a font in it; a [fonts] that is
    not a directory counts as one without fonts. *)
Theorem check_prerequisites_spec (root : node) :
  let present := fun name : string => is_Some (lookup_path [name] root) in
  (check_prerequisites root = Ok tt <->
   Forall present required_scripts
   /\ present "headers.json"
   /\ exists es stem, lookup_path ["fonts"] root = Some (Dir es)
                      /\ is_Some (es !! (stem +:+ ".ttf")))
  /\ (forall e, check_prerequisites root = Raise e ->
        exists msg, e = FileNotFoundError msg)
  /\ (forall pre script post,
        required_scripts = pre ++ script :: post ->
        Forall present pre ->
        lookup_path [script] root = None ->
        check_prerequisites root
        = Raise (FileNotFoundError ("Required script not found: " +:+ script)))
  /\ (Forall present required_scripts ->
      lookup_path ["headers.json"] root = None ->
      check_prerequisites root
      = Raise (FileNotFoundError
                 "headers.json not found - please create from headers.example.json"))
  /\ (Forall present required_scripts -> present "headers.json" ->
      lookup_path ["fonts"] root = None ->
      check_prerequisites root
      = Raise (FileNotFoundError "fonts/ directory not found"))
  /\ (Forall present required_scripts -> present "headers.json" ->
      present "fonts" ->
      (forall es stem, lookup_path ["fonts"] root = Some (Dir es) ->
                       es !! (stem +:+ ".ttf") = None) ->
      check_prerequisites root
      = Raise (FileNotFoundError "No TTF font files found in fonts/ directory")).
Proof.
  intros present.
  assert (Forall single_name required_scripts) as Hsingle by (repeat constructor).
  assert (forall name, single_name name ->
            path_exists (mkPath name) root = true <-> present name) as Hex.
  { intros name Hn. rewrite path_exists_spec. unfold single_name in Hn.
    by rewrite Hn. }
  assert (is_nil (glob "*.ttf" (mkPath "fonts") root) = false <->
          exists es stem, lookup_path ["fonts"] root = Some (Dir es)
                          /\ is_Some (es !! (stem +:+ ".ttf"))) as Hfonts.
  { rewrite glob_nonempty. split.
    - intros (es & name & Hl & Hn & [stem ->]%fnmatch_ttf). eauto.
    - intros (es & stem & Hl & Hn). exists es, (stem +:+ ".ttf").
      split; [done|]. split; [done|]. apply fnmatch_ttf. eauto. }
  pose proof (check_scripts_ok required_scripts root Hsingle) as Hscripts.
  fold present in Hscripts.
  pose proof (Hex "headers.json" eq_refl) as Hh.
  pose proof (Hex "fonts" eq_refl) as Hf.
  unfold check_prerequisites.
  split; [|split; [|split; [|split; [|split]]]].
  - destruct (check_scripts required_scripts root) as [[]|e] eqn:Es; simpl.
    + destruct (path_exists (mkPath "headers.json") root) eqn:Eh; simpl.
      * destruct (path_exists (mkPath "fonts") root) eqn:Ef; simpl.
        -- destruct (is_nil (glob "*.ttf" (mkPath "fonts") root)) eqn:Eg.
           ++ split; [done|]. intros (_ & _ & Hg). apply Hfonts in Hg. done.
           ++ split; [|done]. intros _. split; [by apply Hscripts|].
              split; [by apply Hh|]. by apply Hfonts.
        -- split; [done|]. intros (_ & _ & es & stem & Hl & _).
           apply path_exists_false in Ef. simpl in Ef, Hl. congruence.
      * split; [done|]. intros (_ & Hp%Hh & _). congruence.
    + split; [done|]. intros [Hp%Hscripts _]. done.
  - intros e.
    destruct (check_scripts required_scripts root) as [[]|e'] eqn:Es; simpl.
    + destruct (path_exists (mkPath "headers.json") root); simpl;
        [|intros [= <-]; eauto].
      destruct (path_exists (mkPath "fonts") root); simpl;
        [|intros [= <-]; eauto].
      destruct (is_nil _); [intros [= <-]; eauto|done].
    + intros [= <-]. revert Es. clear. unfold required_scripts. simpl.
      repeat (destruct (path_exists _ root); simpl; [|intros [= <-]; eauto]).
      done.
  - intros pre script post Hr Hp Hm. rewrite Hr.
    rewrite (check_scripts_first_missing pre script post root); [done| |done..].
    by rewrite <- Hr.
  - intros Hp%Hscripts Hm. rewrite Hp. simpl.
    apply (path_exists_false (mkPath "headers.json")) in Hm. by rewrite Hm.
  - intros Hp%Hscripts Hp'%Hh Hm. rewrite Hp. simpl. rewrite Hp'. simpl.
    apply (path_exists_false (mkPath "fonts")) in Hm. by rewrite Hm.
  - intros Hp%Hscripts Hp'%Hh Hp''%Hf Hnone. rewrite Hp. simpl.
    rewrite Hp'. simpl. rewrite Hp''. simpl.
    destruct (is_nil (glob "*.ttf" (mkPath "fonts") root)) eqn:Eg; [done|].
    destruct (proj1 Hfonts eq_refl) as (es & stem & Hl & [n Hn]).
    by rewrite (Hnone es stem Hl) in Hn.
Qed.

Lemma check_prerequisites_spec_witness :
  check_prerequisites ready_root = Ok tt
  /\ check_prerequisites (Dir (delete "decode_glyphs_complete.py" ready_entries))
     = Raise (FileNotFoundError
                "Required script not found: decode_glyphs_complete.py")
  /\ check_prerequisites (Dir (<["fonts" := File ""]> ready_entries))
     = Raise (FileNotFoundError "No TTF font files found in fonts/ directory").
Proof.
  split; [|split].
  - apply (proj1 (check_prerequisites_spec ready_root)).
    split; [|split].
    + repeat (apply List.Forall_cons; [vm_compute; eauto|]); apply List.Forall_nil.
    + vm_compute; eauto.
    + exists {[ "Bookerly.ttf" := File "" ]}, "Bookerly". vm_compute; eauto.
  - apply (proj1 (proj2 (proj2 (check_prerequisites_spec
                                  (Dir (delete "decode_glyphs_complete.py"
                                          ready_entries)))))
             ["download_full_book.py"] "decode_glyphs_complete.py"
             ["create_epub.py"]);
      [reflexivity | repeat (apply List.Forall_cons; [vm_compute; eauto|]); apply List.Forall_nil | by vm_compute].
  - apply (proj2 (proj2 (proj2 (proj2 (proj2 (check_prerequisites_spec
                                               (Dir (<["fonts" := File ""]>
                                                       ready_entries)))))))).
    + repeat (apply List.Forall_cons; [vm_compute; eauto|]); apply List.Forall_nil.
    + vm_compute; eauto.
    + vm_compute; eauto.
    + intros es stem Hl. by vm_compute in Hl.
Defined.

(** ** The outcome of a pipeline *)

Lemma runs_app evs evs' : runs (evs ++ evs') = runs evs ++ runs evs'.
Proof. apply omap_app. Qed.

(** A trace in which every step succeeded shows one process per step,
    the one of the step, and no failure. *)
Lemma steps_trace_success self n i steps evs :
  steps_trace self n i steps evs true ->
  Forall2 (fun s cmd => step_cmd self s = Ok cmd) steps (runs evs)
  /\ ~ In EvCleanup evs.
Proof.
  remember true as ok eqn:Hok. induction 1 as [|i s rest cmd evs ok Hc Ht IH| |];
    try done.
  - split; [constructor|]. by intros [].
  - destruct (IH Hok) as [Hf Hn]. split.
    + by constructor.
    + simpl. intros [|[|[|Hin]]]; done.
Qed.

(** A trace in which a step failed ends with the failure and the
    cleanup. *)
Lemma steps_trace_failure self n i steps evs :
  steps_trace self n i steps evs false ->
  exists evs' name, evs = evs' ++ [EvStepFailed name; EvCleanup].
Proof.
  remember false as ok eqn:Hok. induction 1 as [|i s rest cmd evs ok Hc Ht IH|i s rest|i s rest cmd Hc];
    try done.
  - destruct (IH Hok) as (evs' & name & ->).
    by exists (EvStep i n (step_name s) :: EvRun cmd :: EvStepOk (step_name s) :: evs'),
           name.
  - by exists [EvStep i n (step_name s)], (step_name s).
  - by exists [EvStep i n (step_name s); EvRun cmd], (step_name s).
Qed.

(** At most one process per step. *)
Lemma steps_trace_runs_length self n i steps evs ok :
  steps_trace self n i steps evs ok -> length (runs evs) <= length steps.
Proof. induction 1; simpl; lia. Qed.

Lemma build_steps_length self steps :
  build_steps self = Ok steps -> length steps <= 3.
Proof.
  intros Hb. destruct (build_steps_ok self steps Hb) as (d & c & e & Hd & Hc & He).
  rewrite (build_steps_spec self d c e Hd Hc He) in Hb. injection Hb as <-.
  destruct (truthy d), (truthy c), (truthy e); simpl; lia.
Qed.

(** What a run of the pipeline shows, by its outcome. *)
Lemma run_pipeline_events H self steps w :
  build_steps self = Ok steps ->
  exists evs,
    length (runs evs) <= length steps
    /\ ((fst (run_pipeline H self w) = Ok tt
         /\ events H (snd (run_pipeline H self w))
            = events H w ++ evs ++ [EvPipelineOk (asin self)]
         /\ Forall2 (fun s cmd => step_cmd self s = Ok cmd) steps (runs evs)
         /\ ~ In EvCleanup evs)
        \/ (exists e evs' name,
              fst (run_pipeline H self w) = Raise e
              /\ events H (snd (run_pipeline H self w)) = events H w ++ evs
              /\ evs = evs' ++ [EvStepFailed name; EvCleanup])).
Proof.
  intros Hb. rewrite (run_pipeline_run H self steps w Hb).
  destruct (run_steps_trace H self (length steps) steps 1 w)
    as (evs & ok & Hev & Ht & Hr).
  exists evs. split; [by eapply steps_trace_runs_length|].
  destruct (run_steps H self _ _ _ _) as [[[]|e] w'] eqn:E; simpl in *.
  - destruct ok; [|by destruct Hr]. left.
    destruct (steps_trace_success _ _ _ _ _ Ht) as [Hf Hn].
    split; [done|]. split; [by rewrite Hev, <- app_assoc|done].
  - destruct ok; [done|]. right.
    destruct (steps_trace_failure _ _ _ _ _ Ht) as (evs' & name & ->).
    by exists e, evs', name.
Qed.

(** X2.  A pipeline whose step list can be built starts at most one
    process per enabled stage, so at most three.  It returns exactly
    when its last message is the success banner; then every enabled
    stage was run once, in the order download, decode, package, each with
    its own command line, and the cleanup was not run.  When it does not
    return it raises, and its last two messages are the failure of a step
    and the cleanup. *)
Theorem run_pipeline_outcome (H : Host) (self : KindleProcessor)
    (steps : list step) (w : world H) :
  build_steps self = Ok steps ->
  let r := fst (run_pipeline H self w) in
  let w' := snd (run_pipeline H self w) in
  exists evs,
    events H w' = events H w ++ evs
    /\ length (runs evs) <= length steps <= 3
    /\ (r = Ok tt <-> exists evs', evs = evs' ++ [EvPipelineOk (asin self)])
    /\ (r = Ok tt ->
        Forall2 (fun s cmd => step_cmd self s = Ok cmd) steps (runs evs)
        /\ ~ In EvCleanup evs)
    /\ (r ≠ Ok tt ->
        exists e evs' name,
          r = Raise e /\ evs = evs' ++ [EvStepFailed name; EvCleanup]).
Proof.
  intros Hb r w'. subst r w'.
  pose proof (build_steps_length self steps Hb) as Hlen.
  destruct (run_pipeline_events H self steps w Hb)
    as (evs & Hruns & [(Hr & Hev & Hf & Hn)|(e & evs' & name & Hr & Hev & ->)]).
  - exists (evs ++ [EvPipelineOk (asin self)]). rewrite Hr.
    split; [done|]. rewrite runs_app. simpl. rewrite app_nil_r.
    split; [lia|]. split; [split; eauto|]. split; [|done].
    intros _. split; [done|]. rewrite in_app_iff. intros [|[|]]; done.
  - exists (evs' ++ [EvStepFailed name; EvCleanup]). rewrite Hr.
    split; [done|]. split; [lia|]. split; [|split; [done|]].
    + split; [done|]. intros [evs'' Heq].
      change [EvStepFailed name; EvCleanup]
        with ([EvStepFailed name] ++ [EvCleanup]) in Heq.
      rewrite app_assoc in Heq. by apply app_inj_tail in Heq as [_ ?].
    + intros _. eauto.
Qed.

Lemma run_pipeline_outcome_witness :
  exists evs,
    events idle_host (snd (run_pipeline idle_host skip_decode_book
                             (start idle_host (Dir ∅) tt))) = evs
    /\ length (runs evs) <= 2.
Proof.
  destruct (run_pipeline_outcome idle_host skip_decode_book
              [DownloadBook; CreateEpub] (start idle_host (Dir ∅) tt))
    as (evs & Hev & Hlen & _); [reflexivity|].
  exists evs. split; [exact Hev|]. exact (proj1 Hlen).
Defined.

(** ** The entry point *)

Lemma main_body_run H args w :
  main_body H args w =
    match check_prerequisites (fs H w) with
    | Raise e => (Raise e, w)
    | Ok _ =>
        match configure (fs H w) args with
        | Raise e => (Raise e, w)
        | Ok config =>
            if given (arg_batch args) then
              match arg_batch args with
              | Some book_list_file => process_batch H book_list_file config w
              | None => (Raise TypeError, w)
              end
            else
              match arg_asin args with
              | Some asin => process_one H config asin w
              | None => (Raise TypeError, w)
              end
        end
    end.
Proof.
  unfold main_body, mbind, get_fs, lift, raise.
  destruct (check_prerequisites (fs H w)); [|done].
  destruct (configure (fs H w) args); [|done].
  by destruct (given (arg_batch args)), (arg_batch args), (arg_asin args).
Qed.

(** Once the arguments are valid, the exit status is that of the [try]
    block. *)
Lemma main_run H parse_args argv args w :
  parse_args argv = Parsed args ->
  given (arg_asin args) ≠ given (arg_batch args) ->
  main H parse_args argv w =
    match main_body H args w with
    | (Ok _, w') => (Returned, w')
    | (Raise _, w') => (Exited 1, w')
    end.
Proof.
  unfold main. intros ->.
  by destruct (given (arg_asin args)), (given (arg_batch args)).
Qed.

Lemma main_invalid H parse_args argv args w :
  parse_args argv = Parsed args ->
  given (arg_asin args) = given (arg_batch args) ->
  main H parse_args argv w = (Exited 2, w).
Proof.
  unfold main. intros ->.
  by destruct (given (arg_asin args)), (given (arg_batch args)).
Qed.

Lemma process_batch_no_list H book_list_file config e w :
  read_book_list book_list_file (fs H w) = Raise e ->
  process_batch H book_list_file config w = (Raise e, w).
Proof. intros Hr. unfold process_batch, mbind, get_fs, lift. by rewrite Hr. Qed.

(** X3.  When [parse_args] ends the run itself, after [--help] or on a
    command line it rejects, [main] exits with the status of
    [parse_args] and has done nothing.  So [main] exits with status 2
    exactly when [parse_args] exits with 2, or the arguments it returns
    name neither an identifier nor a list of books, or both, an empty
    text counting as none.  With valid arguments it exits with status 1
    when a prerequisite is missing, whatever stages are skipped, when
    the configuration cannot be loaded, and when the list of books
    cannot be read or holds no identifier.  In all these cases the run
    has started no process, printed no banner and changed no file. *)
Theorem main_checks_first (H : Host) (parse_args : list string -> parsed)
    (argv : list string) (w : world H) :
  (forall status,
     parse_args argv = ParserExit status ->
     main H parse_args argv w = (Exited status, w))
  /\ (fst (main H parse_args argv w) = Exited 2 <->
      parse_args argv = ParserExit 2
      \/ exists args, parse_args argv = Parsed args
                      /\ given (arg_asin args) = given (arg_batch args))
  /\ (forall args,
        parse_args argv = Parsed args ->
        given (arg_asin args) = given (arg_batch args) ->
        main H parse_args argv w = (Exited 2, w))
  /\ (forall args e,
        parse_args argv = Parsed args ->
        given (arg_asin args) ≠ given (arg_batch args) ->
        check_prerequisites (fs H w) = Raise e ->
        main H parse_args argv w = (Exited 1, w))
  /\ (forall args e,
        parse_args argv = Parsed args ->
        given (arg_asin args) ≠ given (arg_batch args) ->
        check_prerequisites (fs H w) = Ok tt ->
        configure (fs H w) args = Raise e ->
        main H parse_args argv w = (Exited 1, w))
  /\ (forall args e book_list_file config,
        parse_args argv = Parsed args ->
        arg_batch args = Some book_list_file ->
        Py.nonempty book_list_file = true ->
        given (arg_asin args) = false ->
        check_prerequisites (fs H w) = Ok tt ->
        configure (fs H w) args = Ok config ->
        read_book_list book_list_file (fs H w) = Raise e ->
        main H parse_args argv w = (Exited 1, w)).
Proof.
  split; [|split; [|split; [|split; [|split]]]].
  - intros status Hp. unfold main. by rewrite Hp.
  - destruct (parse_args argv) as [args|status] eqn:Hp.
    + destruct (decide (given (arg_asin args) = given (arg_batch args)))
        as [Heq|Hne].
      * rewrite (main_invalid H parse_args argv args w Hp Heq).
        split; [|done]. intros _. right. by exists args.
      * rewrite (main_run H parse_args argv args w Hp Hne).
        split.
        -- by destruct (main_body H args w) as [[[]|e] w'].
        -- intros [|(args' & [= <-] & Heq)]; done.
    + unfold main. rewrite Hp. simpl. split.
      * intros [= ->]. by left.
      * intros [[= ->]|(args & ? & _)]; done.
  - intros args. apply main_invalid.
  - intros args e Hp Hv Hc.
    by rewrite (main_run H parse_args argv args w Hp Hv), main_body_run, Hc.
  - intros args e Hp Hv Hc He.
    by rewrite (main_run H parse_args argv args w Hp Hv), main_body_run, Hc, He.
  - intros args e book_list_file config Hp Hb Hn Ha Hc Hcfg Hr.
    assert (given (arg_batch args) = true) as Hg by (unfold given; by rewrite Hb).
    rewrite (main_run H parse_args argv args w Hp) by (rewrite Ha, Hg; done).
    rewrite main_body_run, Hc, Hcfg, Hg, Hb.
    by rewrite (process_batch_no_list H book_list_file config e w Hr).
Qed.

Lemma main_checks_first_witness :
  main idle_host parse_rejecting ["--fast"; "--full"] (start idle_host ready_root tt)
  = (Exited 2, start idle_host ready_root tt)
  /\ main idle_host (parse_as blank_args) [""] (start idle_host ready_root tt)
     = (Exited 2, start idle_host ready_root tt)
  /\ main idle_host (parse_as skip_decode_args) ["B0FLBTR2FS"; "--skip-decode"]
       (start idle_host (Dir ∅) tt)
     = (Exited 1, start idle_host (Dir ∅) tt)
  /\ main idle_host (parse_as batch_args) ["--batch"; "book_list.txt"]
       (start idle_host ready_root tt)
     = (Exited 1, start idle_host ready_root tt).
Proof.
  split; [|split; [|split]].
  - apply (proj1 (main_checks_first idle_host parse_rejecting ["--fast"; "--full"]
                    (start idle_host ready_root tt))).
    reflexivity.
  - apply (proj1 (proj2 (proj2 (main_checks_first idle_host (parse_as blank_args) [""]
                                  (start idle_host ready_root tt))))
             blank_args); reflexivity.
  - apply (proj1 (proj2 (proj2 (proj2
             (main_checks_first idle_host (parse_as skip_decode_args)
                ["B0FLBTR2FS"; "--skip-decode"] (start idle_host (Dir ∅) tt)))))
             skip_decode_args
             (FileNotFoundError "Required script not found: download_full_book.py"));
      [reflexivity|done|reflexivity].
  - apply (proj2 (proj2 (proj2 (proj2 (proj2
             (main_checks_first idle_host (parse_as batch_args)
                ["--batch"; "book_list.txt"] (start idle_host ready_root tt))))))
             batch_args
             (FileNotFoundError "Book list file not found: book_list.txt")
             "book_list.txt" default_config);
      reflexivity.
Defined.

Lemma new_processor_fields a c self :
  new_processor a c = Ok self -> asin self = a /\ config self = c.
Proof.
  unfold new_processor. destruct (getitem (VDict c) "paths") as [p|]; [|done].
  simpl. destruct (getitem p "downloads") as [[]|]; try done. simpl.
  by intros [= <-].
Qed.

(** What one book makes of the world: nothing when no pipeline can be
    started, and otherwise the messages of the pipeline, which end with
    the success banner or with a failure and the cleanup. *)
Lemma process_one_outcome H cfg a w :
  (no_pipeline a cfg
   /\ (exists e, process_one H cfg a w = (Raise e, w)))
  \/ (exists self steps evs,
        new_processor a cfg = Ok self /\ build_steps self = Ok steps
        /\ process_one H cfg a w = run_pipeline H self w
        /\ ((fst (process_one H cfg a w) = Ok tt
             /\ events H (snd (process_one H cfg a w))
                = events H w ++ evs ++ [EvPipelineOk a])
            \/ (exists e name,
                  fst (process_one H cfg a w) = Raise e
                  /\ events H (snd (process_one H cfg a w))
                     = events H w ++ evs ++ [EvStepFailed name; EvCleanup]))).
Proof.
  unfold process_one, mbind, lift.
  destruct (new_processor a cfg) as [self|e] eqn:Hnew.
  - destruct (build_steps self) as [steps|e] eqn:Hsteps.
    + right.
      destruct (new_processor_fields a cfg self Hnew) as [Hasin _].
      destruct (run_pipeline_events H self steps w Hsteps)
        as (evs & _ & [(Hr & Hev & _)|(e & evs' & name & Hr & Hev & ->)]).
      * exists self, steps, evs. rewrite Hasin in Hev.
        repeat split; try done. by left.
      * exists self, steps, evs'. repeat split; try done. right. by exists e, name.
    + left. split; [right; by exists self, e|].
      exists e. apply build_steps_raises. done.
  - left. split; [left; by exists e|]. by exists e.
Qed.

Lemma events_grow H (w w' : world H) evs :
  events H w' = events H w ++ evs -> evs ≠ [] -> w' ≠ w.
Proof.
  intros He Hn ->. apply Hn.
  apply (app_inv_head (events H w)). by rewrite app_nil_r.
Qed.

(** X4.  For a single book, once the prerequisites hold and the
    configuration is loaded, [main] runs the pipeline of that book under
    the loaded configuration and nothing else.  It returns, so that the
    exit status is 0, exactly when the pipeline returns, which is when
    the last message is the success banner of the book.  Otherwise it
    exits with status 1: either the configuration gives no processor or
    no list of steps, and then the run has started no step and changed
    nothing, or a step failed, and then the last messages are the
    failure of that step and the cleanup.  The status is never 2. *)
Theorem main_single_book (H : Host) (parse_args : list string -> parsed)
    (argv : list string) (args : Args) (w : world H)
    (a : string) (cfg : gmap string value) :
  parse_args argv = Parsed args ->
  arg_asin args = Some a -> Py.nonempty a = true ->
  given (arg_batch args) = false ->
  check_prerequisites (fs H w) = Ok tt ->
  configure (fs H w) args = Ok cfg ->
  let out := main H parse_args argv w in
  snd out = snd (process_one H cfg a w)
  /\ (forall self,
        new_processor a cfg = Ok self ->
        snd out = snd (run_pipeline H self w)
        /\ (fst out = Returned <-> fst (run_pipeline H self w) = Ok tt))
  /\ (fst out = Returned <->
      exists evs, events H (snd out) = events H w ++ evs ++ [EvPipelineOk a])
  /\ (fst out = Exited 1 <->
      (no_pipeline a cfg /\ snd out = w)
      \/ exists evs name, events H (snd out)
                          = events H w ++ evs ++ [EvStepFailed name; EvCleanup])
  /\ (no_pipeline a cfg -> out = (Exited 1, w))
  /\ fst out ≠ Exited 2.
Proof.
  intros Hp Ha Hn Hb Hc Hcfg out. subst out.
  assert (given (arg_asin args) = true) as Hg by (unfold given; by rewrite Ha).
  rewrite (main_run H parse_args argv args w Hp) by (rewrite Hg, Hb; done).
  rewrite main_body_run, Hc, Hcfg, Hb, Ha.
  assert (forall evs name evs',
            events H w ++ evs ++ [EvPipelineOk a]
            ≠ events H w ++ evs' ++ [EvStepFailed name; EvCleanup]) as Hdiff.
  { intros evs name evs' Heq. apply app_inv_head in Heq.
    change [EvStepFailed name; EvCleanup]
      with ([EvStepFailed name] ++ [EvCleanup]) in Heq.
    rewrite !app_assoc in Heq. by apply app_inj_tail in Heq as [_ ?]. }
  destruct (process_one_outcome H cfg a w)
    as [[Hno [e He]]|(self & steps & evs & Hnew & Hsteps & Hrun & Hout)].
  - rewrite He. cbn [fst snd].
    split; [done|]. split; [|split; [|split; [|split]]]; try done.
    + intros self Hnew. destruct Hno as [[e' He']|(self' & e' & Hnew' & Hs')].
      * congruence.
      * rewrite Hnew in Hnew'. injection Hnew' as <-.
        rewrite (build_steps_raises H self e' w Hs'). done.
    + split; [done|]. intros [evs Hev].
      apply (f_equal length) in Hev. rewrite !length_app in Hev. simpl in Hev. lia.
    + split; [|done]. intros _. by left.
  - destruct Hout as [[Hr Hev]|(e & name & Hr & Hev)].
    + destruct (process_one H cfg a w) as [[[]|e] w'] eqn:E; [|done].
      cbn [fst snd] in *.
      split; [done|]. split; [|split; [|split; [|split]]]; try done.
      * intros self' Hnew'. rewrite Hnew in Hnew'. injection Hnew' as <-.
        by rewrite <- Hrun.
      * split; eauto.
      * split; [done|]. intros [[_ ->]|(evs2 & name & Heq)].
        -- apply (f_equal length) in Hev. rewrite !length_app in Hev.
           simpl in Hev. lia.
        -- rewrite Hev in Heq. by apply Hdiff in Heq.
      * intros [[e He]|(self' & e & Hnew' & Hs')]; [congruence|].
        rewrite Hnew in Hnew'. injection Hnew' as <-. congruence.
    + destruct (process_one H cfg a w) as [[[]|e0] w'] eqn:E; [done|].
      cbn [fst snd] in *.
      split; [done|]. split; [|split; [|split; [|split]]]; try done.
      * intros self' Hnew'. rewrite Hnew in Hnew'. injection Hnew' as <-.
        by rewrite <- Hrun.
      * split; [done|]. intros [evs2 Heq]. rewrite Hev in Heq.
        symmetry in Heq. by apply Hdiff in Heq.
      * split; [|done]. intros _. right. by exists evs, name.
      * intros [[e' He']|(self' & e' & Hnew' & Hs')]; [congruence|].
        rewrite Hnew in Hnew'. injection Hnew' as <-. congruence.
Qed.

Lemma main_single_book_witness :
  fst (main picky_host (parse_as download_args) ["B1"; "--skip-decode"; "--skip-epub"]
         (start picky_host ready_root tt)) = Returned
  /\ fst (main idle_host (parse_as download_args) ["B1"; "--skip-decode"; "--skip-epub"]
            (start idle_host ready_root tt)) = Exited 1
  /\ main idle_host (parse_as numeric_args) ["B1"; "--config"; "my_config.txt"]
       (start idle_host numeric_root tt)
     = (Exited 1, start idle_host numeric_root tt).
Proof.
  split; [|split].
  - apply (proj1 (proj2 (proj2 (main_single_book picky_host (parse_as download_args)
                           ["B1"; "--skip-decode"; "--skip-epub"] download_args
                           (start picky_host ready_root tt) "B1" download_config
                           eq_refl eq_refl eq_refl eq_refl eq_refl eq_refl)))).
    exists [EvStep 1 1 "Download Book";
            EvRun ["python3"; "download_full_book.py"; "B1"];
            EvStepOk "Download Book"].
    reflexivity.
  - apply (proj1 (proj2 (proj2 (proj2
             (main_single_book idle_host (parse_as download_args)
                ["B1"; "--skip-decode"; "--skip-epub"] download_args
                (start idle_host ready_root tt) "B1" download_config
                eq_refl eq_refl eq_refl eq_refl eq_refl eq_refl))))).
    right.
    exists [EvStep 1 1 "Download Book";
            EvRun ["python3"; "download_full_book.py"; "B1"]], "Download Book".
    reflexivity.
  - apply (proj1 (proj2 (proj2 (proj2 (proj2
             (main_single_book idle_host (parse_as numeric_args)
                ["B1"; "--config"; "my_config.txt"] numeric_args
                (start idle_host numeric_root tt) "B1" numeric_config
                eq_refl eq_refl eq_refl eq_refl eq_refl eq_refl)))))).
    left. exists TypeError. reflexivity.
Defined.

(** The batch loop raises only where [batch.continue_on_error] cannot
    be read, and then after a book that failed. *)
Lemma batch_loop_raises H config n asins i results w e w' :
  batch_loop H config n i asins results w = (Raise e, w') ->
  continue_on_error config = Raise e.
Proof.
  revert i results w. induction asins as [|asin rest IH]; intros i results w.
  - done.
  - rewrite batch_loop_cons.
    destruct (process_one H config asin _) as [[[]|e0] w1].
    + apply IH.
    + destruct (continue_on_error config) as [flag|e1]; [|by intros [= <- _]].
      destruct (truthy flag); [apply IH|done].
Qed.

Lemma continue_on_error_raises config e :
  continue_on_error config = Raise e -> e = AttributeError.
Proof.
  unfold continue_on_error. destruct (default _ _); intros Heq; congruence.
Qed.

(** X5.  For a list of books, once the prerequisites hold, the
    configuration is loaded and the list is read, the exit status of
    [main] does not tell whether the books succeeded.  Where the batch
    loop returns its records, failures included, [main] returns, so that
    the exit status is 0, exactly when the report of these records could
    be written, and exits with status 1 otherwise.  The loop returns
    whenever [batch.continue_on_error] can be read.  Where it cannot,
    the loop raises [AttributeError] at the first book that fails; then
    [main] exits with status 1 and no report is attempted.  The status
    is never 2. *)
Theorem main_batch_status (H : Host) (parse_args : list string -> parsed)
    (argv : list string) (args : Args) (w : world H)
    (book_list_file : string) (cfg : gmap string value)
    (asins : list string) :
  parse_args argv = Parsed args ->
  arg_batch args = Some book_list_file -> Py.nonempty book_list_file = true ->
  given (arg_asin args) = false ->
  check_prerequisites (fs H w) = Ok tt ->
  configure (fs H w) args = Ok cfg ->
  read_book_list book_list_file (fs H w) = Ok asins ->
  let out := main H parse_args argv w in
  let loop := batch_loop H cfg (length asins) 1 asins [] w in
  (forall rs w',
     loop = (Ok rs, w') ->
     snd out = snd (generate_batch_report H rs w')
     /\ (fst out = Returned <-> fst (generate_batch_report H rs w') = Ok tt)
     /\ (fst out = Exited 1 <->
         exists e, fst (generate_batch_report H rs w') = Raise e)
     /\ events H (snd out) = events H w' ++ [EvSummary rs])
  /\ (forall flag, continue_on_error cfg = Ok flag -> exists rs w', loop = (Ok rs, w'))
  /\ (forall e w',
        loop = (Raise e, w') ->
        out = (Exited 1, w')
        /\ e = AttributeError
        /\ continue_on_error cfg = Raise AttributeError)
  /\ (fst out = Returned <->
      exists rs w', loop = (Ok rs, w')
                    /\ fst (generate_batch_report H rs w') = Ok tt)
  /\ fst out ≠ Exited 2.
Proof.
  intros Hp Hb Hn Ha Hc Hcfg Hread out loop. subst out.
  assert (given (arg_batch args) = true) as Hg by (unfold given; by rewrite Hb).
  rewrite (main_run H parse_args argv args w Hp) by (rewrite Ha, Hg; done).
  rewrite main_body_run, Hc, Hcfg, Hg, Hb.
  rewrite (process_batch_run H book_list_file cfg asins w Hread). fold loop.
  split; [|split; [|split; [|split]]].
  - intros rs w' ->.
    pose proof (proj1 (generate_batch_report_run H rs w')) as Hev.
    destruct (generate_batch_report H rs w') as [[[]|e] w2]; simpl in *.
    + repeat split; try done. by intros [e ?].
    + repeat split; try done. eauto.
  - intros flag Hflag.
    destruct (batch_loop_run H cfg flag (length asins) asins 1 [] w Hflag)
      as (rs & w' & Hl & _).
    exists rs, w'. exact Hl.
  - intros e w' Hl. rewrite Hl. split; [done|].
    pose proof (batch_loop_raises H cfg _ _ _ _ _ _ _ Hl) as Hr.
    pose proof (continue_on_error_raises cfg e Hr) as ->. done.
  - destruct loop as [[rs|e] w'] eqn:Hl.
    + destruct (generate_batch_report H rs w') as [[[]|e] w2] eqn:Hg'; simpl.
      * split; [|done]. intros _. exists rs, w'. by rewrite Hg'.
      * split; [done|]. intros (rs' & w'' & [= <- <-] & Hok).
        rewrite Hg' in Hok. done.
    + simpl. split; [done|]. by intros (rs' & w'' & ? & _).
  - destruct loop as [[rs|e] w'] eqn:Hl; [|done].
    by destruct (generate_batch_report H rs w') as [[[]|e] w2].
Qed.

Lemma main_batch_status_witness :
  fst (main picky_host (parse_as batch_download_args)
         ["--batch"; "book_list.txt"; "--skip-decode"; "--skip-epub"]
         (start picky_host batch_root tt))
  = Returned
  /\ main picky_host (parse_as unreadable_args)
       ["--batch"; "book_list.txt"; "--config"; "my_config.txt";
        "--skip-decode"; "--skip-epub"]
       (start picky_host unreadable_root tt)
     = (Exited 1, unreadable_done)
  /\ existsb is_summary (events picky_host unreadable_done) = false.
Proof.
  split; [|split; [|reflexivity]];
    [|apply (proj1 (proj2 (proj2
               (main_batch_status picky_host (parse_as unreadable_args)
                  ["--batch"; "book_list.txt"; "--config"; "my_config.txt";
                   "--skip-decode"; "--skip-epub"]
                  unreadable_args (start picky_host unreadable_root tt)
                  "book_list.txt" unreadable_config ["BAD"]
                  eq_refl eq_refl eq_refl eq_refl eq_refl eq_refl eq_refl)))
               AttributeError unreadable_done);
     reflexivity].
  destruct (main_batch_status picky_host (parse_as batch_download_args)
              ["--batch"; "book_list.txt"; "--skip-decode"; "--skip-epub"]
              batch_download_args
              (start picky_host batch_root tt)
              "book_list.txt" download_config ["B1"; "BAD"]
              eq_refl eq_refl eq_refl eq_refl eq_refl eq_refl eq_refl)
    as (Hloop & _).
  destruct (Hloop [RSuccess "B1"; RFailed "BAD" "error"] batch_done eq_refl)
    as (_ & Hret & _).
  apply Hret. reflexivity.
Defined.

(** ** The summary of a batch *)

Lemma successful_failed_length results :
  length (successful results) + length (failed results) = length results.
Proof.
  unfold successful, failed.
  induction results as [|[a|a err] rest IH]; simpl; lia.
Qed.

Lemma failed_last rs :
  (forall k r, rs !! k = Some r -> is_success r = false -> S k = length rs) ->
  failed rs = [] \/ exists pre a error,
                      rs = pre ++ [RFailed a error]
                      /\ failed rs = [RFailed a error]
                      /\ successful rs = pre.
Proof.
  unfold successful, failed.
  induction rs as [|r rs IH]; intros Hlast; [by left|].
  destruct r as [a|a err].
  - destruct IH as [IH|(pre & b & error & -> & Hf & Hs)].
    + intros k r Hk Hr. by injection (Hlast (S k) r Hk Hr).
    + left. done.
    + right. exists (RSuccess a :: pre), b, error. simpl.
      split; [done|]. split; [done|]. by f_equal.
  - right. pose proof (Hlast 0 (RFailed a err) eq_refl eq_refl) as Hlen.
    destruct rs; [|done]. by exists [], a, err.
Qed.

(** X6.  The counts of the batch summary add up: every record is
    either successful or failed.  The total counts the books that were
    attempted, which are at most those of the list, and all of them when
    [continue_on_error] is true.  When it is false the summary shows at
    most one failed book, the last one attempted, and every book before
    it as successful. *)
Theorem batch_summary_counts (H : Host) (config : gmap string value)
    (flag : value) (n i : nat) (asins : list string) (w : world H) :
  continue_on_error config = Ok flag ->
  exists rs w',
    batch_loop H config n i asins [] w = (Ok rs, w')
    /\ length (successful rs) + length (failed rs) = length rs
    /\ length rs <= length asins
    /\ (truthy flag = true -> length rs = length asins)
    /\ (truthy flag = false ->
        length (failed rs) <= 1
        /\ (length rs < length asins -> length (failed rs) = 1)
        /\ forall r, In r (failed rs) ->
             exists pre, rs = pre ++ [r] /\ successful rs = pre).
Proof.
  intros Hf.
  destruct (batch_loop_run H config flag n asins i [] w Hf) as (rs & w' & Hl & Hr).
  rewrite app_nil_l in Hl. exists rs, w'. split; [done|].
  split; [apply successful_failed_length|].
  pose proof (batch_run_asins _ _ _ _ _ _ _ _ Hr) as Ha.
  assert (length rs <= length asins) as Hle.
  { apply (f_equal length) in Ha. rewrite length_fmap, length_take in Ha. lia. }
  split; [done|]. split.
  - intros Ht. pose proof (batch_run_continue _ _ _ _ _ _ _ _ _ Hr Hf Ht) as Hc.
    by rewrite <- Hc, length_fmap.
  - intros Ht. destruct (batch_run_halt _ _ _ _ _ _ _ _ _ Hr Hf Ht) as [Hlast Hshort].
    destruct (failed_last rs Hlast) as [Hnone|(pre & a & error & Hrs & Hfl & Hs)].
    + rewrite Hnone. split; [simpl; lia|]. split; [|done].
      intros Hlt. destruct Hshort as [|(k & a & error & Hk)]; [lia|].
      assert (In (RFailed a error) (failed rs)) as Hin.
      { apply filter_In. split; [|done].
        apply list_elem_of_In, list_elem_of_lookup. eauto. }
      by rewrite Hnone in Hin.
    + rewrite Hfl. split; [done|]. split; [done|].
      intros r [<-|[]]. eauto.
Qed.

Lemma batch_summary_counts_witness :
  exists rs w',
    batch_loop picky_host (download_only false) 5 1 five_books [] batch_start
    = (Ok rs, w')
    /\ length (failed rs) <= 1.
Proof.
  destruct (batch_summary_counts picky_host (download_only false) (VBool false)
              5 1 five_books batch_start eq_refl)
    as (rs & w' & Hl & _ & _ & _ & Hhalt).
  exists rs, w'. split; [exact Hl|]. exact (proj1 (Hhalt eq_refl)).
Defined.

(** ** The parser: errors, independence of keys, repeated keys *)

(** The only error of the nested assignment is [TypeError]. *)
Lemma set_nested_raises keys v current e :
  keys ≠ [] -> set_nested keys v current = Raise e -> e = TypeError.
Proof.
  revert current. induction keys as [|k rest IH]; intros current; [done|].
  intros _. destruct (decide (rest = [])) as [->|Hne].
  - destruct current; simpl; congruence.
  - rewrite set_nested_cons by done.
    destruct current as [| | |s|l|d]; simpl; try congruence.
    + destruct (Py.contains k s); simpl; congruence.
    + destruct (existsb _ l); simpl; congruence.
    + destruct (d !! k) as [child|] eqn:E; simpl.
      * rewrite E. simpl.
        destruct (set_nested rest v child) as [c|e'] eqn:Es; simpl; [done|].
        intros [= <-]. by apply (IH child).
      * rewrite lookup_insert_eq. simpl.
        destruct (set_nested rest v (VDict ∅)) as [c|e'] eqn:Es; simpl; [done|].
        intros [= <-]. by apply (IH (VDict ∅)).
Qed.

(** What [parse_line] does with a line, by the key the line assigns
    to. *)
Lemma parse_line_assigned config line :
  parse_line config line =
    match assigned_keys line with
    | None => Ok config
    | Some keys =>
        match Py.split_once "="%char (Py.strip line) with
        | Some (_, val) =>
            v <- convert (Py.strip val) ;; set_nested keys v config
        | None => Ok config
        end
    end.
Proof.
  unfold parse_line, assigned_keys.
  destruct (_ || _); [done|].
  destruct (Py.contains "=" (Py.strip line)) eqn:Ec.
  - apply contains_char_split_once in Ec as [[key val] ->]. done.
  - destruct (Py.split_once "=" (Py.strip line)) as [[key val]|] eqn:Es; [|done].
    assert (is_Some (Py.split_once "=" (Py.strip line))) as Hs by (rewrite Es; eauto).
    apply contains_char_split_once in Hs. congruence.
Qed.

Lemma parse_line_assignment config line :
  parse_line config line =
    match assignment line with
    | Some (keys, val) => v <- convert val ;; set_nested keys v config
    | None => Ok config
    end.
Proof.
  rewrite parse_line_assigned. unfold assignment.
  destruct (assigned_keys line); [|done].
  by destruct (Py.split_once _ _) as [[key val]|].
Qed.

Lemma assigned_keys_nonempty line keys : assigned_keys line = Some keys -> keys ≠ [].
Proof.
  unfold assigned_keys. destruct (_ || _); [done|].
  destruct (Py.split_once _ _) as [[key val]|]; [|done].
  intros [= <-]. apply split_nonempty.
Qed.

(** A line assigns to a key exactly when it is an assignment. *)
Lemma assigned_keys_assignment line keys :
  assigned_keys line = Some keys <-> exists val, assignment line = Some (keys, val).
Proof.
  unfold assignment. destruct (assigned_keys line) as [ks|] eqn:E.
  - unfold assigned_keys in E. destruct (_ || _); [done|].
    destruct (Py.split_once _ _) as [[key val]|]; [|done].
    split.
    + intros [= <-]. eauto.
    + by intros (v & [= <- _]).
  - split; [done|]. by intros [? ?].
Qed.

Lemma assignment_keys_nonempty line keys val :
  assignment line = Some (keys, val) -> keys ≠ [].
Proof.
  intros Ha. apply (assigned_keys_nonempty line).
  apply assigned_keys_assignment. eauto.
Qed.

(** A line is an assignment or is passed over. *)
Lemma assignment_none line : assignment line = None <-> skipped line.
Proof.
  unfold assignment, assigned_keys, skipped. rewrite nonempty_strip, negb_involutive.
  destruct (blank line); simpl; [tauto|].
  destruct (Py.startswith "#" (Py.strip line)); simpl; [tauto|].
  destruct (Py.split_once "=" (Py.strip line)) as [[key val]|] eqn:Es.
  - split; [done|]. intros [|[|Hc]]; try done.
    assert (is_Some (Py.split_once "=" (Py.strip line))) as Hs by (rewrite Es; eauto).
    apply contains_char_split_once in Hs. congruence.
  - split; [|done]. intros _. right. right.
    destruct (Py.contains "=" (Py.strip line)) eqn:Ec; [|done].
    apply contains_char_split_once in Ec as [? ?]. congruence.
Qed.

(** A string of digits is its own lower case, so it is neither [true]
    nor [false]. *)
Lemma lower_digits text : Py.all_digits text = true -> Py.lower text = text.
Proof.
  induction text as [|c text IH]; simpl; [done|].
  intros [Hc Ht]%andb_prop. rewrite (IH Ht). f_equal.
  destruct c as [[] [] [] [] [] [] [] []]; vm_compute in Hc; try done.
Qed.

Lemma isdigit_not_boolean text :
  Py.isdigit text = true -> Py.lower text ≠ "true" /\ Py.lower text ≠ "false".
Proof.
  unfold Py.isdigit. intros [_ Hd]%andb_prop.
  rewrite (lower_digits text Hd). split; intros ->; done.
Qed.

(** The conversion raises exactly on the strings that [isdigit] accepts
    and [int] refuses. *)
Lemma convert_raises text e :
  convert text = Raise e <->
  exists msg, e = ValueError msg /\ Py.isdigit text = true /\ Py.int text = inr msg.
Proof.
  split.
  - unfold convert.
    destruct (String.eqb _ _); [done|]. destruct (String.eqb _ _); [done|].
    destruct (Py.isdigit text); [|done].
    destruct (Py.int text) as [n|msg]; [done|]. intros [= <-]. eauto.
  - intros (msg & -> & Hd & Hi).
    destruct (isdigit_not_boolean text Hd) as [Ht Hf].
    destruct (convert_cases text) as (_ & _ & Hc & _).
    by rewrite (Hc Ht Hf Hd), Hi.
Qed.

Lemma convert_raises_iff text :
  (exists e, convert text = Raise e) <->
  Py.isdigit text = true
  /\ (decimals text = false
      \/ (Py.max_str_digits < Z.of_nat (String.length text))%Z).
Proof.
  split.
  - intros (e & (msg & _ & Hd & Hi)%convert_raises). split; [done|].
    destruct (decimals text) eqn:Hdec; [|by left]. right.
    destruct (Z.le_gt_cases (Z.of_nat (String.length text)) Py.max_str_digits)
      as [Hl|Hl]; [|lia].
    rewrite (proj1 (int_cases text) Hdec Hl) in Hi. done.
  - intros (Hd & Hbad).
    assert (exists msg, Py.int text = inr msg) as [msg Hi].
    { destruct (decimals text) eqn:Hdec.
      - destruct Hbad as [|Hl]; [done|].
        rewrite (proj1 (proj2 (int_cases text)) Hdec Hl). eauto.
      - by apply (int_cases text). }
    exists (ValueError msg). apply convert_raises. eauto.
Qed.

(** What the conversion returns is never a mapping. *)
Lemma convert_scalar text v : convert text = Ok v -> scalar v.
Proof.
  unfold scalar, convert. intros Hc d.
  destruct (String.eqb _ _); [by injection Hc as <-|].
  destruct (String.eqb _ _); [by injection Hc as <-|].
  destruct (Py.isdigit _); [|by injection Hc as <-].
  destruct (Py.int text); [by injection Hc as <-|done].
Qed.

(** A line raises when its value does not convert, and when its key
    cannot be stored. *)
Lemma parse_line_raises d line e :
  parse_line (VDict d) line = Raise e ->
  exists keys val,
    assignment line = Some (keys, val)
    /\ ((exists msg, convert val = Raise (ValueError msg) /\ e = ValueError msg)
        \/ (exists v, convert val = Ok v /\ e = TypeError
                      /\ ¬ path_free keys (VDict d))).
Proof.
  rewrite parse_line_assignment.
  destruct (assignment line) as [[keys val]|] eqn:Ea; [|done].
  pose proof (assignment_keys_nonempty line keys val Ea) as Hne.
  exists keys, val. split; [done|].
  destruct (convert val) as [v|e'] eqn:Ec; simpl in *.
  - right. exists v. split; [done|].
    split; [by eapply set_nested_raises|]. intros Hfree.
    destruct (set_nested_ok keys v d Hfree) as (d' & Hok & _). congruence.
  - left. injection H as <-.
    apply convert_raises in Ec as (msg & -> & _). eauto.
Qed.

Lemma parse_lines_raises lines d e :
  parse_lines (VDict d) lines = Raise e ->
  exists pre line post d1 keys val,
    lines = pre ++ line :: post
    /\ parse_lines (VDict d) pre = Ok (VDict d1)
    /\ assignment line = Some (keys, val)
    /\ ((exists msg, convert val = Raise (ValueError msg) /\ e = ValueError msg)
        \/ (exists v, convert val = Ok v /\ e = TypeError
                      /\ ¬ path_free keys (VDict d1))).
Proof.
  revert d. induction lines as [|line rest IH]; simpl; intros d; [done|].
  destruct (parse_line (VDict d) line) as [c|e'] eqn:E; simpl.
  - destruct (parse_line_dict d line c E) as [d1 ->]. intros Hr.
    destruct (IH d1 Hr) as (pre & l & post & d2 & keys & val & -> & Hp & Ha & Hn).
    exists (line :: pre), l, post, d2, keys, val.
    split; [done|]. simpl. by rewrite E.
  - intros [= <-]. destruct (parse_line_raises d line e' E) as (keys & val & Ha & Hn).
    by exists [], line, rest, d, keys, val.
Qed.

Lemma parse_lines_app config pre post :
  parse_lines config (pre ++ post) =
    (config' <- parse_lines config pre ;; parse_lines config' post).
Proof.
  revert config. induction pre as [|l pre IH]; intros config; simpl; [done|].
  destruct (parse_line config l); simpl; [apply IH|done].
Qed.

(** X7.  [parse_simple_config] returns a mapping or raises [TypeError]
    or [ValueError], and nothing else, whatever the file holds.  It
    raises [TypeError] exactly when some line whose value converts
    assigns to a dotted key of which a proper prefix is bound, by the
    lines before it, to a value that is not a mapping.  It raises
    [ValueError], with the message of [int], exactly when the value of
    some line does not convert, which is when [isdigit] accepts it and it
    holds a digit that is no decimal digit or more than 4300 digits.  In
    both cases the lines after that one are not read. *)
Theorem parse_simple_config_errors (text : string) :
  ((exists d, parse_simple_config text = Ok (VDict d))
   \/ parse_simple_config text = Raise TypeError
   \/ exists msg, parse_simple_config text = Raise (ValueError msg))
  /\ (parse_simple_config text = Raise TypeError <->
      exists pre line post d1 keys val v,
        Py.readlines text = pre ++ line :: post
        /\ parse_lines (VDict ∅) pre = Ok (VDict d1)
        /\ assignment line = Some (keys, val)
        /\ convert val = Ok v
        /\ ¬ path_free keys (VDict d1))
  /\ (forall msg,
        parse_simple_config text = Raise (ValueError msg) <->
        exists pre line post d1 keys val,
          Py.readlines text = pre ++ line :: post
          /\ parse_lines (VDict ∅) pre = Ok (VDict d1)
          /\ assignment line = Some (keys, val)
          /\ convert val = Raise (ValueError msg))
  /\ (forall val,
        (exists e, convert val = Raise e) <->
        Py.isdigit val = true
        /\ (decimals val = false
            \/ (Py.max_str_digits < Z.of_nat (String.length val))%Z))
  /\ (forall val msg,
        convert val = Raise (ValueError msg) <->
        Py.isdigit val = true /\ Py.int val = inr msg).
Proof.
  unfold parse_simple_config. split; [|split; [|split; [|split]]].
  - destruct (parse_lines (VDict ∅) (Py.readlines text)) as [c|e] eqn:E.
    + left. destruct (parse_lines_dict _ _ _ E) as [d ->]. eauto.
    + right.
      destruct (parse_lines_raises _ _ _ E)
        as (? & ? & ? & ? & ? & ? & _ & _ & _ & [(msg & _ & ->)|(? & _ & -> & _)]);
        eauto.
  - split.
    + intros Hr.
      destruct (parse_lines_raises _ _ _ Hr)
        as (pre & line & post & d1 & keys & val & Hl & Hp & Ha
            & [(msg & _ & ?)|(v & Hc & _ & Hn)]); [done|].
      by exists pre, line, post, d1, keys, val, v.
    + intros (pre & line & post & d1 & keys & val & v & -> & Hp & Ha & Hc & Hn).
      rewrite parse_lines_app, Hp. simpl.
      rewrite parse_line_assignment, Ha, Hc. simpl.
      pose proof (assignment_keys_nonempty line keys val Ha) as Hne.
      by rewrite (set_nested_blocked keys _ (VDict d1) Hne Hn).
  - intros msg. split.
    + intros Hr.
      destruct (parse_lines_raises _ _ _ Hr)
        as (pre & line & post & d1 & keys & val & Hl & Hp & Ha
            & [(msg' & Hc & [= <-])|(v & _ & ? & _)]); [|done].
      by exists pre, line, post, d1, keys, val.
    + intros (pre & line & post & d1 & keys & val & -> & Hp & Ha & Hc).
      rewrite parse_lines_app, Hp. simpl.
      by rewrite parse_line_assignment, Ha, Hc.
  - apply convert_raises_iff.
  - intros val msg. rewrite convert_raises. split.
    + by intros (msg' & [= <-] & ? & ?).
    + intros [? ?]. eauto.
Qed.

Example parse_key_under_scalar :
  assigned_keys "paths.downloads.dir = /tmp" = Some ["paths"; "downloads"; "dir"]
  /\ parse_simple_config
       ("paths.downloads = books" +:+ String Py.LF ""
        +:+ "paths.downloads.dir = /tmp" +:+ String Py.LF ""
        +:+ "this line is not read")
     = Raise TypeError.
Proof. by vm_compute. Qed.

(** A run of 4301 digits is more than [int] converts; 4300 are
    converted. *)
Example parse_long_number :
  parse_simple_config ("pipeline.download.pages_per_batch = " +:+ ones 4301)
  = Raise (ValueError (Py.exceeds_limit 4301))
  /\ Py.exceeds_limit 4301
     = "Exceeds the limit (4300 digits) for integer string conversion: value has 4301 digits; use sys.set_int_max_str_digits() to increase the limit"
  /\ convert (ones 4300) = Ok (VInt (Py.decimal (ones 4300))).
Proof. split; [|split]; by vm_compute. Qed.

(** Assigning under [k] leaves what is under another key of the same
    mapping as it was. *)
Lemma set_nested_other k rest v d d' k' :
  set_nested (k :: rest) v (VDict d) = Ok (VDict d') ->
  k ≠ k' -> d' !! k' = d !! k'.
Proof.
  intros Hs Hne. destruct (decide (rest = [])) as [->|Hr].
  - simpl in Hs. injection Hs as <-. by rewrite lookup_insert_ne.
  - rewrite set_nested_cons in Hs by done. simpl in Hs.
    destruct (d !! k) as [child|] eqn:E; simpl in Hs.
    + rewrite E in Hs. simpl in Hs.
      destruct (set_nested rest v child); simpl in Hs; [|done].
      injection Hs as <-. by rewrite lookup_insert_ne.
    + rewrite lookup_insert_eq in Hs. simpl in Hs.
      destruct (set_nested rest v (VDict ∅)); simpl in Hs; [|done].
      injection Hs as <-. by rewrite !lookup_insert_ne.
Qed.

(** Assigning under [k] with more components to come assigns in the
    child of [k], or in a new mapping when [k] is not bound. *)
Lemma set_nested_child k rest v d d' :
  rest ≠ [] ->
  set_nested (k :: rest) v (VDict d) = Ok (VDict d') ->
  exists child',
    d' !! k = Some child'
    /\ set_nested rest v (default (VDict ∅) (d !! k)) = Ok child'.
Proof.
  intros Hr Hs. rewrite set_nested_cons in Hs by done. simpl in Hs.
  destruct (d !! k) as [child|] eqn:E; simpl in *.
  - rewrite E in Hs. simpl in Hs.
    destruct (set_nested rest v child) as [c|]; simpl in Hs; [|done].
    injection Hs as <-. exists c. by rewrite lookup_insert_eq.
  - rewrite lookup_insert_eq in Hs. simpl in Hs.
    destruct (set_nested rest v (VDict ∅)) as [c|]; simpl in Hs; [|done].
    injection Hs as <-. exists c. by rewrite lookup_insert_eq.
Qed.

Lemma get_path_empty keys : keys ≠ [] -> get_path keys (VDict ∅) = None.
Proof. destruct keys; [done|]. intros _. simpl. by rewrite lookup_empty. Qed.

(** Only in a mapping can a key be assigned. *)
Lemma set_nested_in_dict keys v current current' :
  set_nested keys v current = Ok current' -> exists d, current = VDict d.
Proof.
  destruct keys as [|k rest]; [done|].
  destruct (decide (rest = [])) as [->|Hr].
  - destruct current; simpl; try done. eauto.
  - rewrite set_nested_cons by done.
    destruct current as [| | |s|l|d]; simpl; try done; [| |eauto].
    + by destruct (Py.contains k s).
    + by destruct (existsb _ l).
Qed.

Lemma set_nested_frame keys v current current' keys' :
  set_nested keys v current = Ok current' ->
  diverge keys keys' ->
  get_path keys' current' = get_path keys' current.
Proof.
  intros Hs (prefix & k & rest & k' & rest' & -> & -> & Hne).
  revert current current' Hs.
  induction prefix as [|a prefix IH]; intros current current' Hs;
    destruct (set_nested_in_dict _ _ _ _ Hs) as [d ->];
    destruct (set_nested_dict _ _ _ _ Hs) as [d' ->].
  - simpl. by rewrite (set_nested_other k rest v d d' k' Hs Hne).
  - rewrite <- !app_comm_cons in *.
    destruct (set_nested_child a (prefix ++ k :: rest) v d d')
      as (child' & Hc & Hs'); [by destruct prefix|done|].
    cbn [get_path]. rewrite Hc.
    destruct (d !! a) as [child|] eqn:E; simpl in Hs'.
    + by apply IH.
    + rewrite (IH _ _ Hs'). apply get_path_empty. by destruct prefix.
Qed.

(** Assigning twice to a key leaves what assigning the second value
    alone leaves. *)
Lemma set_nested_overwrite keys v1 v2 current current1 :
  set_nested keys v1 current = Ok current1 ->
  set_nested keys v2 current1 = set_nested keys v2 current.
Proof.
  revert current current1. induction keys as [|k rest IH]; intros current current1;
    [done|].
  intros Hs. destruct (set_nested_in_dict _ _ _ _ Hs) as [d ->].
  destruct (decide (rest = [])) as [->|Hr].
  - simpl in Hs. injection Hs as <-. simpl. by rewrite insert_insert_eq.
  - destruct (set_nested_dict _ _ _ _ Hs) as [d1 ->].
    destruct (set_nested_child k rest v1 d d1 Hr Hs) as (c1 & Hc1 & Hs1).
    assert (d1 = <[k := c1]> d) as ->.
    { rewrite set_nested_cons in Hs by done. cbn [py_in bind] in Hs.
      destruct (d !! k) as [child|] eqn:E; simpl in Hs1.
      - cbn [getitem bind] in Hs. rewrite E in Hs. cbn [bind] in Hs.
        rewrite Hs1 in Hs. cbn [bind setitem] in Hs. congruence.
      - cbn [setitem bind getitem] in Hs. rewrite lookup_insert_eq in Hs.
        cbn [bind] in Hs. rewrite Hs1 in Hs. cbn [bind setitem] in Hs.
        rewrite insert_insert_eq in Hs. congruence. }
    rewrite !set_nested_cons by done. cbn [py_in bind].
    rewrite lookup_insert_eq. cbn [getitem bind]. rewrite lookup_insert_eq.
    cbn [bind]. rewrite (IH _ _ Hs1).
    destruct (d !! k) as [child|] eqn:E;
      cbn [default from_option id getitem setitem bind].
    + rewrite E. cbn [bind].
      destruct (set_nested rest v2 child); cbn [bind setitem]; [|done].
      by rewrite insert_insert_eq.
    + rewrite lookup_insert_eq. cbn [bind].
      destruct (set_nested rest v2 (VDict ∅)); cbn [bind setitem]; [|done].
      by rewrite !insert_insert_eq.
Qed.

Lemma diverge_sym keys keys' : diverge keys keys' -> diverge keys' keys.
Proof.
  intros (p & k & r & k' & r' & -> & -> & Hne). exists p, k', r', k, r. done.
Qed.

(** What an assignment stores is read back at its key. *)
Lemma set_nested_get keys v current current' :
  set_nested keys v current = Ok current' -> get_path keys current' = Some v.
Proof.
  revert current current'. induction keys as [|k rest IH]; intros current current';
    [done|].
  intros Hs. destruct (set_nested_in_dict _ _ _ _ Hs) as [d ->].
  destruct (set_nested_dict _ _ _ _ Hs) as [d' ->].
  destruct (decide (rest = [])) as [->|Hr].
  - simpl in Hs. injection Hs as <-. simpl. by rewrite lookup_insert_eq.
  - destruct (set_nested_child k rest v d d' Hr Hs) as (child' & Hc & Hs').
    cbn [get_path]. rewrite Hc. by eapply IH.
Qed.

(** Lines whose keys part ways with [keys] leave what is at [keys]. *)
Lemma parse_lines_frame lines d d' keys :
  parse_lines (VDict d) lines = Ok (VDict d') ->
  Forall (fun l => forall keys' val,
            assignment l = Some (keys', val) -> diverge keys keys') lines ->
  get_path keys (VDict d') = get_path keys (VDict d).
Proof.
  intros Hp Hf. revert d Hp.
  induction Hf as [|line lines Hl _ IH]; intros d Hp.
  - by injection Hp as <-.
  - cbn [parse_lines] in Hp.
    destruct (parse_line (VDict d) line) as [c|] eqn:E; simpl in Hp; [|done].
    destruct (parse_line_dict d line c E) as [d1 ->].
    rewrite (IH d1 Hp). rewrite parse_line_assignment in E.
    destruct (assignment line) as [[keys' val]|]; [|by injection E as <-].
    destruct (convert val) as [v|]; simpl in E; [|done].
    apply (set_nested_frame keys' v _ _ keys E).
    apply diverge_sym. by eapply Hl.
Qed.

(** ** C5: the override file *)

(** C5, as amended.  [parse_simple_config] takes the lines of the file
    in order, each on the mapping the lines before it gave.  A line that
    is blank or, once trimmed, starts with [#], and a line without [=],
    leave the mapping as it is and raise nothing; a file of such lines
    parses to the empty mapping.  Any other line is cut at its first
    [=]; key and value are trimmed of the white space at their two ends;
    the value is converted: [true] and [false] in any letter case to
    booleans, a string of decimal digits, at most 4300 of them, to the
    integer it writes, and anything else that [isdigit] rejects stays a
    string, while a string that [isdigit] accepts and that holds more
    than 4300 digits or a digit that is no decimal digit raises
    [ValueError].  Where no prefix of the dotted key is bound to a value
    that is not a mapping, the converted value is stored at the nested
    path.  In the mapping a file parses to, the converted value of an
    assignment line is at the key of the line whenever that key parts
    ways with the keys of the assignments after it.  The one-line file
    [a.b.c = 5] yields the integer 5 at the path a.b.c. *)
Theorem parse_simple_config_spec (text : string) :
  (forall d line,
     blank line = true \/ Py.startswith "#" (Py.strip line) = true
     \/ Py.contains "=" (Py.strip line) = false ->
     parse_line (VDict d) line = Ok (VDict d))
  /\ (Forall skipped (Py.readlines text) ->
      parse_simple_config text = Ok (VDict ∅))
  /\ (forall pre line post,
        Py.readlines text = pre ++ line :: post ->
        parse_simple_config text =
          (config <- parse_lines (VDict ∅) pre ;;
           config' <- parse_line config line ;;
           parse_lines config' post))
  /\ (forall d line key val,
        blank line = false ->
        Py.startswith "#" (Py.strip line) = false ->
        Py.strip line = key +:+ "=" +:+ val ->
        Py.contains "=" key = false ->
        let keys := Py.split "."%char (Py.strip key) in
        assignment line = Some (keys, Py.strip val)
        /\ trimmed_of key (Py.strip key)
        /\ trimmed_of val (Py.strip val)
        /\ parse_line (VDict d) line
           = (v <- convert (Py.strip val) ;; set_nested keys v (VDict d))
        /\ (forall v,
              convert (Py.strip val) = Ok v ->
              path_free keys (VDict d) ->
              exists d', parse_line (VDict d) line = Ok (VDict d')
                         /\ get_path keys (VDict d') = Some v)
        /\ (forall v,
              convert (Py.strip val) = Ok v ->
              ¬ path_free keys (VDict d) ->
              parse_line (VDict d) line = Raise TypeError)
        /\ (forall msg,
              convert (Py.strip val) = Raise (ValueError msg) ->
              parse_line (VDict d) line = Raise (ValueError msg)))
  /\ (forall val,
        (Py.lower val = "true" -> convert val = Ok (VBool true))
        /\ (Py.lower val = "false" -> convert val = Ok (VBool false))
        /\ (Py.isdigit val = true -> decimals val = true ->
            (Z.of_nat (String.length val) <= Py.max_str_digits)%Z ->
            convert val = Ok (VInt (Py.decimal val)))
        /\ (Py.isdigit val = true ->
            decimals val = false
            \/ (Py.max_str_digits < Z.of_nat (String.length val))%Z ->
            exists msg, convert val = Raise (ValueError msg))
        /\ (Py.lower val ≠ "true" -> Py.lower val ≠ "false" ->
            Py.isdigit val = false -> convert val = Ok (VStr val)))
  /\ (forall d pre line post keys val,
        parse_simple_config text = Ok (VDict d) ->
        Py.readlines text = pre ++ line :: post ->
        assignment line = Some (keys, val) ->
        Forall (fun l => forall keys' val',
                  assignment l = Some (keys', val') -> diverge keys keys') post ->
        exists v, convert val = Ok v /\ get_path keys (VDict d) = Some v)
  /\ parse_simple_config "a.b.c = 5"
     = Ok (dict [("a", dict [("b", dict [("c", VInt 5)])])]).
Proof.
  split; [|split; [|split; [|split; [|split; [|split]]]]].
  - intros d line Hs. by apply parse_line_skipped.
  - intros Hs. by apply parse_lines_skipped.
  - intros pre line post Hl. unfold parse_simple_config. rewrite Hl.
    rewrite parse_lines_app. by destruct (parse_lines (VDict ∅) pre).
  - intros d line key val Hb Hc Hl Hk keys.
    change ("=" +:+ val) with (String "=" val) in Hl.
    pose proof (split_once_complete "=" key val Hk) as Hs.
    assert (assignment line = Some (keys, Py.strip val)) as Ha.
    { unfold assignment, assigned_keys.
      by rewrite nonempty_strip, Hb, Hc, Hl, Hs. }
    split; [done|]. split; [apply strip_trimmed|]. split; [apply strip_trimmed|].
    rewrite parse_line_assignment, Ha. split; [done|].
    split; [|split].
    + intros v Hv Hfree. rewrite Hv. simpl. by apply set_nested_ok.
    + intros v Hv Hfree. rewrite Hv. simpl.
      apply set_nested_blocked; [|done].
      by apply (assignment_keys_nonempty line keys (Py.strip val)).
    + intros msg Hv. by rewrite Hv.
  - intros val. destruct (convert_cases val) as (Ht & Hf & Hd & Hs).
    split; [done|]. split; [done|]. split; [|split; [|done]].
    + intros Hdig Hdec Hlen.
      destruct (isdigit_not_boolean val Hdig) as [H1 H2].
      by rewrite (Hd H1 H2 Hdig), (proj1 (int_cases val) Hdec Hlen).
    + intros Hdig Hbad.
      destruct (proj2 (convert_raises_iff val) (conj Hdig Hbad)) as [e He].
      pose proof He as (msg & -> & _)%convert_raises. eauto.
  - intros d pre line post keys val Hp Hl Ha Hpost.
    unfold parse_simple_config in Hp. rewrite Hl, parse_lines_app in Hp.
    destruct (parse_lines (VDict ∅) pre) as [c1|] eqn:E1; simpl in Hp; [|done].
    destruct (parse_lines_dict _ _ _ E1) as [d1 ->].
    destruct (parse_line (VDict d1) line) as [c2|] eqn:E2; simpl in Hp; [|done].
    destruct (parse_line_dict _ _ _ E2) as [d2 ->].
    rewrite parse_line_assignment, Ha in E2.
    destruct (convert val) as [v|]; simpl in E2; [|done].
    exists v. split; [done|].
    rewrite (parse_lines_frame post d2 d keys Hp Hpost).
    by eapply set_nested_get.
  - by vm_compute.
Qed.

Lemma parse_simple_config_spec_witness :
  (exists d', parse_line (VDict ∅) "  a.b.c = 5 " = Ok (VDict d')
              /\ get_path ["a"; "b"; "c"] (VDict d') = Some (VInt 5))
  /\ (exists v, convert "fast" = Ok v
                /\ get_path ["pipeline"; "decode"; "mode"]
                     (dict [("pipeline",
                             dict [("decode", dict [("mode", VStr "fast")]);
                                   ("epub", dict [("output_name", VStr "book")])]);
                            ("paths", dict [("downloads", VStr "/tmp/books")])])
                   = Some v)
  /\ parse_line (VDict ∅) "  # a.b = 1" = Ok (VDict ∅)
  /\ parse_line (VDict ∅) "no assignment here" = Ok (VDict ∅)
  /\ parse_line (dict [("a", VInt 1)]) "a.b = 2" = Raise TypeError.
Proof.
  split; [|split; [|split; [|split]]];
    [| |apply (proj1 (parse_simple_config_spec "") ∅ "  # a.b = 1");
        right; left; reflexivity
     |apply (proj1 (parse_simple_config_spec "") ∅ "no assignment here");
        right; right; reflexivity
     |apply (proj1 (proj2 (proj2 (proj2 (proj2 (proj2
               (proj1 (proj2 (proj2 (proj2 (parse_simple_config_spec ""))))
                  (<["a" := VInt 1]> ∅) "a.b = 2" "a.b " " 2"
                  eq_refl eq_refl eq_refl eq_refl)))))) (VInt 2));
        [reflexivity|by vm_compute]].
  - apply (proj1 (proj2 (proj2 (proj2 (proj2
             (proj1 (proj2 (proj2 (proj2 (parse_simple_config_spec "")))) ∅
                "  a.b.c = 5 " "a.b.c " " 5"
                eq_refl eq_refl eq_refl eq_refl))))) (VInt 5));
      [reflexivity | by vm_compute].
  - apply (proj1 (proj2 (proj2 (proj2 (proj2 (proj2
             (parse_simple_config_spec settings_text))))))
             _ [] ("pipeline.decode.mode = fast" +:+ String Py.LF "")
             ["# the output" +:+ String Py.LF "";
              "pipeline.epub.output_name=book" +:+ String Py.LF "";
              "paths.downloads = /tmp/books"]
             ["pipeline"; "decode"; "mode"] "fast").
    + by vm_compute.
    + reflexivity.
    + reflexivity.
    + apply List.Forall_cons; [intros ? ? [=]|].
      apply List.Forall_cons.
      { intros ? ? [= <- <-].
        by exists ["pipeline"], "decode", ["mode"], "epub", ["output_name"]. }
      apply List.Forall_cons; [|apply List.Forall_nil].
      intros ? ? [= <- <-].
      by exists [], "pipeline", ["decode"; "mode"], "paths", ["downloads"].
Defined.

(** C5, as stated, fails: the value [False] is neither of the strings
    [true] and [false] nor a string of digits, yet it does not stay a
    string; a key under a bound scalar makes the parser raise; and so
    does a string of 4301 digits, which is no integer to [int]. *)
Lemma parse_capitalised_boolean :
  (exists cfg, parse_simple_config "batch.continue_on_error = False" = Ok cfg
               /\ get_path ["batch"; "continue_on_error"] cfg = Some (VBool false)
               /\ spec_convert "False" = VStr "False"
               /\ VBool false ≠ spec_convert "False")
  /\ parse_simple_config ("a = 1" +:+ String Py.LF "" +:+ "a.b = 2")
     = Raise TypeError
  /\ Py.isdigit (ones 4301) = true
  /\ convert (ones 4301) = Raise (ValueError (Py.exceeds_limit 4301)).
Proof.
  split; [|split; [|split]].
  - eexists. split; [by vm_compute|]. by vm_compute.
  - by vm_compute.
  - by vm_compute.
  - by vm_compute.
Qed.

(** X8.  A line that [parse_simple_config] stores changes
    the configuration only at its own key: the value at every dotted key
    that parts ways with the key of the line, neither being a prefix of
    the other, is what it was before the line, so the settings of the
    lines before it stand. *)
Theorem parse_line_frame (d d' : gmap string value) (line : string)
    (keys keys' : list string) :
  parse_line (VDict d) line = Ok (VDict d') ->
  assigned_keys line = Some keys ->
  diverge keys keys' ->
  get_path keys' (VDict d') = get_path keys' (VDict d).
Proof.
  rewrite parse_line_assigned. intros Hp Ha Hd. rewrite Ha in Hp.
  destruct (Py.split_once _ _) as [[key val]|].
  - destruct (convert _) as [v|]; simpl in Hp; [|done].
    by eapply set_nested_frame.
  - by injection Hp as <-.
Qed.

Lemma parse_line_frame_witness :
  exists d',
    parse_line (dict [("paths", dict [("fonts", VStr "fonts")])])
      "paths.downloads = books" = Ok (VDict d')
    /\ get_path ["paths"; "fonts"] (VDict d') = Some (VStr "fonts").
Proof.
  destruct (parse_line (dict [("paths", dict [("fonts", VStr "fonts")])])
              "paths.downloads = books") as [[| | | | |d']|e] eqn:E;
    try (by vm_compute in E).
  exists d'. split; [done|].
  rewrite (parse_line_frame _ d' "paths.downloads = books"
             ["paths"; "downloads"] ["paths"; "fonts"] E eq_refl);
    [reflexivity|].
  by exists ["paths"], "downloads", [], "fonts", [].
Defined.

(** X9.  Where two lines assign to the same key, the
    earlier assignment leaves no trace: the configuration after both is
    the one the later line alone gives. *)
Theorem parse_line_overwrite (d : gmap string value) (first second : string)
    (keys : list string) (config1 : value) :
  assigned_keys first = Some keys ->
  assigned_keys second = Some keys ->
  parse_line (VDict d) first = Ok config1 ->
  parse_line config1 second = parse_line (VDict d) second.
Proof.
  intros H1 H2. rewrite !parse_line_assigned, H1, H2.
  destruct (Py.split_once "=" (Py.strip first)) as [[k1 v1]|] eqn:E1;
    [|by intros [= <-]].
  destruct (Py.split_once "=" (Py.strip second)) as [[k2 v2]|] eqn:E2.
  - destruct (convert (Py.strip v1)) as [x1|]; simpl; [|done]. intros Hs.
    destruct (convert (Py.strip v2)) as [x2|]; simpl; [|done].
    by eapply set_nested_overwrite.
  - unfold assigned_keys in H2. rewrite E2 in H2. by destruct (_ || _).
Qed.

Lemma parse_line_overwrite_witness :
  parse_lines (VDict ∅) ["pipeline.decode.mode = fast"; "pipeline.decode.mode=full"]
  = parse_line (VDict ∅) "pipeline.decode.mode=full".
Proof.
  destruct (parse_line (VDict ∅) "pipeline.decode.mode = fast") as [config1|e] eqn:E;
    [|by vm_compute in E].
  cbn [parse_lines]. rewrite E. cbn [bind].
  rewrite (parse_line_overwrite ∅ "pipeline.decode.mode = fast"
             "pipeline.decode.mode=full" ["pipeline"; "decode"; "mode"] config1
             eq_refl eq_refl E).
  by destruct (parse_line (VDict ∅) "pipeline.decode.mode=full").
Defined.

(** ** The merge at any depth *)

Lemma get_path_scalar keys v x :
  (forall d, v ≠ VDict d) -> get_path keys v = Some x -> keys = [] /\ x = v.
Proof.
  intros Hv. destruct keys as [|k rest]; simpl.
  - by intros [= <-].
  - destruct v; try done. by destruct (Hv d).
Qed.

Lemma merge_dicts_get_path_custom keys default custom v :
  keys ≠ [] ->
  get_path keys (VDict custom) = Some v ->
  (forall c, v ≠ VDict c) ->
  get_path keys (VDict (merge_dicts default (VDict custom))) = Some v.
Proof.
  revert default custom. induction keys as [|k rest IH]; intros default custom;
    [done|].
  intros _ Hg Hv. cbn [get_path] in *. rewrite merge_dicts_lookup.
  destruct (custom !! k) as [x|]; [|done].
  destruct (decide (rest = [])) as [->|Hr].
  - simpl in *. injection Hg as ->. destruct v; try done. by destruct (Hv d).
  - destruct x as [| | | | |c];
      try (by apply get_path_scalar in Hg as [? _]).
    destruct (default !! k) as [[| | | | |d]|]; try done. by apply IH.
Qed.

Lemma unset_get_path keys v : unset keys v = true -> get_path keys v = None.
Proof.
  revert v. induction keys as [|k rest IH]; intros v; [done|].
  simpl. destruct v; try done. destruct (d !! k); [apply IH|done].
Qed.

Lemma merge_dicts_get_path_unset keys default custom :
  unset keys (VDict custom) = true ->
  get_path keys (VDict (merge_dicts default (VDict custom)))
  = get_path keys (VDict default).
Proof.
  revert default custom. induction keys as [|k rest IH]; intros default custom;
    [done|].
  cbn [unset get_path]. rewrite merge_dicts_lookup.
  destruct (custom !! k) as [x|]; [|done].
  destruct x as [| | | | |c]; try (by destruct rest).
  intros Hu.
  destruct (default !! k) as [[| | | | |d]|] eqn:E; try (by apply IH);
    rewrite (unset_get_path _ _ Hu); by destruct rest.
Qed.

Lemma merge_dicts_get_path_both keys default custom d c :
  get_path keys (VDict custom) = Some (VDict c) ->
  get_path keys (VDict default) = Some (VDict d) ->
  get_path keys (VDict (merge_dicts default (VDict custom)))
  = Some (VDict (merge_dicts d (VDict c))).
Proof.
  revert default custom. induction keys as [|k rest IH]; intros default custom.
  - simpl. by intros [= <-] [= <-].
  - cbn [get_path]. rewrite merge_dicts_lookup.
    destruct (custom !! k) as [x|]; [|done].
    destruct (default !! k) as [y|]; [|done].
    intros Hc Hd.
    destruct x as [| | | | |c']; try (by destruct rest).
    destruct y as [| | | | |d']; try (by destruct rest).
    by apply IH.
Qed.

Lemma merge_dicts_empty default : merge_dicts default (VDict ∅) = default.
Proof. simpl. apply map_fold_empty. Qed.

(** X10.  The merge of [load_config] works at every depth.
    A dotted key that the override binds to a value other than a mapping
    has that value in the result, whatever the defaults hold there.  A
    dotted key that the override does not mention keeps what the
    defaults hold there.  Where both bind a dotted key to a mapping, the
    result binds it to the merge of the two.  Merging the empty mapping
    changes nothing. *)
Theorem merge_dicts_deep (default custom : gmap string value) (keys : list string) :
  (forall v, keys ≠ [] ->
     get_path keys (VDict custom) = Some v -> (forall c, v ≠ VDict c) ->
     get_path keys (VDict (merge_dicts default (VDict custom))) = Some v)
  /\ (unset keys (VDict custom) = true ->
      get_path keys (VDict (merge_dicts default (VDict custom)))
      = get_path keys (VDict default))
  /\ (forall d c,
        get_path keys (VDict custom) = Some (VDict c) ->
        get_path keys (VDict default) = Some (VDict d) ->
        get_path keys (VDict (merge_dicts default (VDict custom)))
        = Some (VDict (merge_dicts d (VDict c))))
  /\ merge_dicts default (VDict ∅) = default.
Proof.
  split; [|split; [|split]].
  - intros v. apply merge_dicts_get_path_custom.
  - apply merge_dicts_get_path_unset.
  - apply merge_dicts_get_path_both.
  - apply merge_dicts_empty.
Qed.

Lemma merge_dicts_deep_witness :
  get_path ["pipeline"; "decode"; "mode"]
    (VDict (merge_dicts default_config (VDict override_dict))) = Some (VStr "fast")
  /\ get_path ["pipeline"; "decode"; "enabled"]
       (VDict (merge_dicts default_config (VDict override_dict)))
     = Some (VBool true)
  /\ get_path ["paths"; "downloads"]
       (VDict (merge_dicts default_config (VDict override_dict)))
     = Some (VStr "downloads").
Proof.
  split; [|split].
  - apply (proj1 (merge_dicts_deep default_config override_dict
                    ["pipeline"; "decode"; "mode"]));
      [done | by vm_compute | done].
  - rewrite (proj1 (proj2 (merge_dicts_deep default_config override_dict
                             ["pipeline"; "decode"; "enabled"])));
      by vm_compute.
  - rewrite (proj1 (proj2 (merge_dicts_deep default_config override_dict
                             ["paths"; "downloads"])));
      by vm_compute.
Defined.

(** X11.  [load_config] on the edges.  An override file that
    holds no assignment, only blank lines, comments and lines without
    [=], or nothing at all, gives the defaults.  An override path that
    names a directory raises the error of [open].  An override file on
    which the parser raises, [TypeError] for an assignment under a key
    bound to a value that is not a mapping and [ValueError] for a number
    that [int] refuses, makes [load_config] raise the same exception, and
    no configuration is returned.  These are the only errors. *)
Theorem load_config_edges (root : node) (f : string) :
  (forall text,
     lookup_path (parts (mkPath f)) root = Some (File text) ->
     Forall skipped (Py.readlines text) ->
     load_config root (Some f) = Ok default_config)
  /\ (forall es,
        f ≠ "" ->
        lookup_path (parts (mkPath f)) root = Some (Dir es) ->
        load_config root (Some f) = Raise OSError)
  /\ (forall text e,
        f ≠ "" ->
        lookup_path (parts (mkPath f)) root = Some (File text) ->
        parse_simple_config text = Raise e ->
        load_config root (Some f) = Raise e)
  /\ (forall e,
        load_config root (Some f) = Raise e ->
        e = OSError \/ e = TypeError \/ exists msg, e = ValueError msg)
  /\ (forall text,
        f ≠ "" ->
        lookup_path (parts (mkPath f)) root = Some (File text) ->
        (load_config root (Some f) = Raise TypeError <->
         parse_simple_config text = Raise TypeError)
        /\ (forall msg,
              load_config root (Some f) = Raise (ValueError msg) <->
              parse_simple_config text = Raise (ValueError msg))).
Proof.
  unfold load_config, path_exists, read_text. split; [|split; [|split; [|split]]].
  - intros text -> Hs. destruct (Py.nonempty f); [|done]. simpl.
    unfold parse_simple_config. rewrite (parse_lines_skipped _ _ Hs). simpl.
    by rewrite map_fold_empty.
  - intros es Hne ->. by destruct f.
  - intros text e Hne -> Hp. destruct f; [done|]. simpl. by rewrite Hp.
  - intros e. destruct (Py.nonempty f); [|done].
    destruct (lookup_path _ _) as [[text|es]|]; simpl; [| |done].
    + destruct (parse_simple_config text) as [c|e'] eqn:E; simpl; [done|].
      intros [= <-]. right.
      destruct (parse_lines_raises _ _ _ E)
        as (? & ? & ? & ? & ? & ? & _ & _ & _ & [(msg & _ & ->)|(? & _ & -> & _)]);
        eauto.
    + intros [= <-]. by left.
  - intros text Hne ->. destruct f; [done|]. simpl.
    destruct (parse_simple_config text) as [c|e'] eqn:E; simpl.
    + split; [done|]. intros msg. done.
    + split; [split; congruence|]. intros msg. split; congruence.
Qed.

Lemma load_config_edges_witness :
  load_config (Dir {[ "notes.txt" := File ("# nothing set" +:+ String Py.LF ""
                                           +:+ String Py.LF "" +:+ "no setting here") ]})
    (Some "notes.txt") = Ok default_config
  /\ load_config (Dir {[ "conf" := Dir ∅ ]}) (Some "conf") = Raise OSError.
Proof.
  split.
  - apply (proj1 (load_config_edges
                    (Dir {[ "notes.txt" := File ("# nothing set" +:+ String Py.LF ""
                                                 +:+ String Py.LF ""
                                                 +:+ "no setting here") ]})
                    "notes.txt")
             ("# nothing set" +:+ String Py.LF "" +:+ String Py.LF ""
              +:+ "no setting here")); [reflexivity|].
    change (Forall skipped ["# nothing set" +:+ String Py.LF "";
                            String Py.LF ""; "no setting here"]).
    apply List.Forall_cons; [right; left; reflexivity|].
    apply List.Forall_cons; [left; reflexivity|].
    apply List.Forall_cons; [right; right; reflexivity|].
    apply List.Forall_nil.
  - apply (proj1 (proj2 (load_config_edges (Dir {[ "conf" := Dir ∅ ]}) "conf")) ∅);
      [done|reflexivity].
Defined.

(** ** The overrides of the command line *)

Lemma set3_ok config a b c v sec sub :
  config !! a = Some (VDict sec) -> sec !! b = Some (VDict sub) ->
  set3 config a b c v = Ok (<[a := VDict (<[b := VDict (<[c := v]> sub)]> sec)]> config).
Proof. intros Ha Hb. unfold set3. simpl. rewrite Ha. simpl. by rewrite Hb. Qed.

Lemma set3_sections config b c v :
  has_sections config -> In b ["download"; "decode"; "epub"] ->
  exists config', set3 config "pipeline" b c v = Ok config' /\ has_sections config'.
Proof.
  intros (p & d1 & d2 & d3 & Hp & H1 & H2 & H3) Hb.
  assert (exists sub, p !! b = Some (VDict sub)) as [sub Hsub].
  { destruct Hb as [<-|[<-|[<-|[]]]]; eauto. }
  rewrite (set3_ok config "pipeline" b c v p sub Hp Hsub).
  eexists. split; [done|].
  exists (<[b := VDict (<[c := v]> sub)]> p).
  destruct Hb as [<-|[<-|[<-|[]]]]; rewrite Hsub in *;
    simplify_eq; do 3 eexists; rewrite lookup_insert_eq;
    (split; [done|]);
    rewrite ?lookup_insert_eq, ?lookup_insert_ne by done; eauto.
Qed.

Lemma set3_if_sections cond config b c v :
  has_sections config -> In b ["download"; "decode"; "epub"] ->
  exists config', set3_if cond "pipeline" b c v config = Ok config'
                  /\ has_sections config'.
Proof.
  intros Hs Hb. destruct cond; simpl; [by apply set3_sections|eauto].
Qed.

Lemma bind_ext {A B : Type} (r r' : result A) (k k' : A -> result B) :
  r = r' -> (forall a, k a = k' a) -> bind r k = bind r' k'.
Proof. intros <- Hk. destruct r; simpl; [apply Hk|done]. Qed.

(** The overrides of [main], one after the other. *)
Lemma apply_cli_overrides_run args config :
  apply_cli_overrides args config =
    (config <- override_step (VStr <$> cli_mode args)
                 "pipeline" "decode" "mode" config ;;
     config <- override_step (when (arg_yes args) (VBool true))
                 "pipeline" "download" "auto_confirm" config ;;
     config <- override_step (VStr <$> cli_output_name args)
                 "pipeline" "epub" "output_name" config ;;
     config <- override_step (when (arg_skip_download args) (VBool false))
                 "pipeline" "download" "enabled" config ;;
     config <- override_step (when (arg_skip_decode args) (VBool false))
                 "pipeline" "decode" "enabled" config ;;
     override_step (when (arg_skip_epub args) (VBool false))
       "pipeline" "epub" "enabled" config).
Proof.
  unfold apply_cli_overrides, cli_mode, cli_output_name, set3_if.
  apply bind_ext.
  { by destruct (arg_fast args), (arg_full args), (arg_progressive args). }
  intros c1. apply bind_ext; [by destruct (arg_yes args)|].
  intros c2. apply bind_ext.
  { destruct (arg_output_name args) as [name|]; [|done].
    by destruct (Py.nonempty name). }
  intros c3. apply bind_ext; [by destruct (arg_skip_download args)|].
  intros c4. apply bind_ext; [by destruct (arg_skip_decode args)|].
  intros c5. by destruct (arg_skip_epub args).
Qed.

Lemma get3_override_step asked a b c config config' a' b' c' :
  override_step asked a b c config = Ok config' ->
  get3 config' a' b' c' =
    match asked with
    | Some v =>
        if String.eqb a a' && String.eqb b b' && String.eqb c c' then Ok v
        else get3 config a' b' c'
    | None => get3 config a' b' c'
    end.
Proof.
  destruct asked as [v|]; simpl; [apply get3_set3|by intros [= <-]].
Qed.

Lemma override_step_sections asked b c config :
  has_sections config -> In b ["download"; "decode"; "epub"] ->
  exists config', override_step asked "pipeline" b c config = Ok config'
                  /\ has_sections config'.
Proof.
  intros Hs Hb. destruct asked; simpl; [by apply set3_sections|eauto].
Qed.

(** An override at a path leaves every other path as it was. *)
Lemma get3_override_other asked b c config config' a' b' c' :
  override_step asked "pipeline" b c config = Ok config' ->
  In (b, c) cli_targets ->
  (a' = "pipeline" -> In (b', c') cli_targets -> False) ->
  get3 config' a' b' c' = get3 config a' b' c'.
Proof.
  intros Ho Hin Hn. rewrite (get3_override_step _ _ _ _ _ _ _ _ _ Ho).
  destruct asked; [|done].
  destruct (String.eqb_spec "pipeline" a') as [<-|]; [|done].
  destruct (String.eqb_spec b b') as [<-|]; [|done].
  destruct (String.eqb_spec c c') as [<-|]; [|done].
  by destruct Hn.
Qed.

(** On a configuration whose pipeline sections are mappings the
    overrides succeed. *)
Lemma apply_cli_overrides_total args config :
  has_sections config ->
  exists config', apply_cli_overrides args config = Ok config'
                  /\ has_sections config'.
Proof.
  rewrite apply_cli_overrides_run. intros Hs.
  destruct (override_step_sections (VStr <$> cli_mode args) "decode" "mode"
              config Hs) as (c1 & -> & H1); [simpl; tauto|]. simpl.
  destruct (override_step_sections (when (arg_yes args) (VBool true))
              "download" "auto_confirm" c1 H1) as (c2 & -> & H2);
    [simpl; tauto|]. simpl.
  destruct (override_step_sections (VStr <$> cli_output_name args)
              "epub" "output_name" c2 H2) as (c3 & -> & H3);
    [simpl; tauto|]. simpl.
  destruct (override_step_sections (when (arg_skip_download args) (VBool false))
              "download" "enabled" c3 H3) as (c4 & -> & H4);
    [simpl; tauto|]. simpl.
  destruct (override_step_sections (when (arg_skip_decode args) (VBool false))
              "decode" "enabled" c4 H4) as (c5 & -> & H5);
    [simpl; tauto|]. simpl.
  apply override_step_sections; [done|simpl; tauto].
Qed.

(** What the configuration holds after the overrides. *)
Lemma apply_cli_overrides_reads args config config' :
  apply_cli_overrides args config = Ok config' ->
  get3 config' "pipeline" "decode" "mode"
  = match cli_mode args with
    | Some mode => Ok (VStr mode)
    | None => get3 config "pipeline" "decode" "mode"
    end
  /\ get3 config' "pipeline" "download" "auto_confirm"
     = (if arg_yes args then Ok (VBool true)
        else get3 config "pipeline" "download" "auto_confirm")
  /\ get3 config' "pipeline" "epub" "output_name"
     = match cli_output_name args with
       | Some name => Ok (VStr name)
       | None => get3 config "pipeline" "epub" "output_name"
       end
  /\ (forall a b c,
        (a = "pipeline" -> In (b, c) cli_targets -> False) ->
        get3 config' a b c = get3 config a b c).
Proof.
  rewrite apply_cli_overrides_run.
  destruct (override_step _ _ _ _ config) as [c1|] eqn:E1; [|done]. simpl.
  destruct (override_step _ _ _ _ c1) as [c2|] eqn:E2; [|done]. simpl.
  destruct (override_step _ _ _ _ c2) as [c3|] eqn:E3; [|done]. simpl.
  destruct (override_step _ _ _ _ c3) as [c4|] eqn:E4; [|done]. simpl.
  destruct (override_step _ _ _ _ c4) as [c5|] eqn:E5; [|done]. simpl.
  intros E6.
  pose proof (fun a b c => get3_override_step _ _ _ _ _ _ a b c E6) as G6.
  pose proof (fun a b c => get3_override_step _ _ _ _ _ _ a b c E5) as G5.
  pose proof (fun a b c => get3_override_step _ _ _ _ _ _ a b c E4) as G4.
  pose proof (fun a b c => get3_override_step _ _ _ _ _ _ a b c E3) as G3.
  pose proof (fun a b c => get3_override_step _ _ _ _ _ _ a b c E2) as G2.
  pose proof (fun a b c => get3_override_step _ _ _ _ _ _ a b c E1) as G1.
  split; [|split; [|split]].
  - rewrite G6, G5, G4, G3, G2, G1. unfold when.
    destruct (arg_skip_epub args), (arg_skip_decode args),
      (arg_skip_download args), (cli_output_name args), (arg_yes args),
      (cli_mode args); reflexivity.
  - rewrite G6, G5, G4, G3, G2, G1. unfold when.
    destruct (arg_skip_epub args), (arg_skip_decode args),
      (arg_skip_download args), (cli_output_name args), (arg_yes args),
      (cli_mode args); reflexivity.
  - rewrite G6, G5, G4, G3, G2, G1. unfold when.
    destruct (arg_skip_epub args), (arg_skip_decode args),
      (arg_skip_download args), (cli_output_name args), (arg_yes args),
      (cli_mode args); reflexivity.
  - intros a b c Hn.
    rewrite (get3_override_other _ _ _ _ _ a b c E6),
            (get3_override_other _ _ _ _ _ a b c E5),
            (get3_override_other _ _ _ _ _ a b c E4),
            (get3_override_other _ _ _ _ _ a b c E3),
            (get3_override_other _ _ _ _ _ a b c E2),
            (get3_override_other _ _ _ _ _ a b c E1);
      try done; simpl; tauto.
Qed.

(** An assignment at a three-key path is the nested assignment of the
    parser at that path. *)
Lemma set3_set_nested config a b c v config' :
  set3 config a b c v = Ok config' ->
  set_nested [a; b; c] v (VDict config) = Ok (VDict config').
Proof.
  unfold set3. cbn [set_nested py_in getitem bind].
  destruct (config !! a) as [sec|] eqn:Ea; [|done]. cbn [bind getitem].
  rewrite ?Ea. cbn [bind].
  destruct sec as [| | | | |sd]; try done. cbn [getitem bind py_in].
  destruct (sd !! b) as [sub|] eqn:Eb; [|done]. cbn [bind getitem].
  rewrite ?Eb. cbn [bind].
  destruct sub as [| | | | |d]; try done. cbn [setitem bind].
  by intros [= <-].
Qed.

Lemma override_step_frame asked a b c config config' keys :
  override_step asked a b c config = Ok config' ->
  diverge [a; b; c] keys ->
  get_path keys (VDict config') = get_path keys (VDict config).
Proof.
  destruct asked as [v|]; simpl; [|by intros [= <-]].
  intros Hs%set3_set_nested Hd. by eapply set_nested_frame.
Qed.

(** The overrides change nothing at a dotted key that parts ways with
    the six settings they can assign to. *)
Lemma apply_cli_overrides_frame args config config' keys :
  apply_cli_overrides args config = Ok config' ->
  Forall (fun t => diverge ["pipeline"; fst t; snd t] keys) cli_targets ->
  get_path keys (VDict config') = get_path keys (VDict config).
Proof.
  rewrite apply_cli_overrides_run. intros Ha Hf.
  apply Forall_cons in Hf as [D1 Hf]. apply Forall_cons in Hf as [D2 Hf].
  apply Forall_cons in Hf as [D3 Hf]. apply Forall_cons in Hf as [D4 Hf].
  apply Forall_cons in Hf as [D5 Hf]. apply Forall_cons in Hf as [D6 _].
  simpl in D1, D2, D3, D4, D5, D6.
  destruct (override_step _ _ _ _ config) as [c1|] eqn:E1; [|done]. simpl in Ha.
  destruct (override_step _ _ _ _ c1) as [c2|] eqn:E2; [|done]. simpl in Ha.
  destruct (override_step _ _ _ _ c2) as [c3|] eqn:E3; [|done]. simpl in Ha.
  destruct (override_step _ _ _ _ c3) as [c4|] eqn:E4; [|done]. simpl in Ha.
  destruct (override_step _ _ _ _ c4) as [c5|] eqn:E5; [|done]. simpl in Ha.
  rewrite (override_step_frame _ _ _ _ _ _ keys Ha D6),
          (override_step_frame _ _ _ _ _ _ keys E5 D5),
          (override_step_frame _ _ _ _ _ _ keys E4 D4),
          (override_step_frame _ _ _ _ _ _ keys E3 D3),
          (override_step_frame _ _ _ _ _ _ keys E2 D2),
          (override_step_frame _ _ _ _ _ _ keys E1 D1).
  done.
Qed.

(** X12.  On a configuration whose three pipeline sections are
    mappings, as they are in the defaults, the overrides of the command
    line succeed and leave such a configuration.  They raise nothing
    either when the command line asks for nothing, whatever the
    configuration.  Afterwards the decode mode is the one the command
    line asks for, [--fast] before [--full] before [--progressive], and
    the loaded one when it asks for none; [auto_confirm] is [True] under
    [--yes] and the loaded value otherwise; the output name is the one
    of [--output-name] unless that is empty, and the loaded one
    otherwise; each [enabled] flag is [False] under its [--skip] option
    and the loaded value otherwise; and every other setting is as
    loaded, at whatever depth: the value at a dotted key that parts ways
    with these six settings, such as [paths.downloads],
    [batch.continue_on_error] or [logging.level], is the loaded one. *)
Theorem apply_cli_overrides_spec (args : Args) (config : gmap string value) :
  (has_sections config ->
   exists config', apply_cli_overrides args config = Ok config'
                   /\ has_sections config')
  /\ (cli_mode args = None -> arg_yes args = false ->
      cli_output_name args = None -> arg_skip_download args = false ->
      arg_skip_decode args = false -> arg_skip_epub args = false ->
      apply_cli_overrides args config = Ok config)
  /\ (forall config',
        apply_cli_overrides args config = Ok config' ->
        get3 config' "pipeline" "decode" "mode"
        = match cli_mode args with
          | Some mode => Ok (VStr mode)
          | None => get3 config "pipeline" "decode" "mode"
          end
        /\ get3 config' "pipeline" "download" "auto_confirm"
           = (if arg_yes args then Ok (VBool true)
              else get3 config "pipeline" "download" "auto_confirm")
        /\ get3 config' "pipeline" "epub" "output_name"
           = match cli_output_name args with
             | Some name => Ok (VStr name)
             | None => get3 config "pipeline" "epub" "output_name"
             end
        /\ (forall a b c,
              (a = "pipeline" -> In (b, c) cli_targets -> False) ->
              get3 config' a b c = get3 config a b c))
  /\ (forall config',
        apply_cli_overrides args config = Ok config' ->
        get3 config' "pipeline" "download" "enabled"
        = (if arg_skip_download args then Ok (VBool false)
           else get3 config "pipeline" "download" "enabled")
        /\ get3 config' "pipeline" "decode" "enabled"
           = (if arg_skip_decode args then Ok (VBool false)
              else get3 config "pipeline" "decode" "enabled")
        /\ get3 config' "pipeline" "epub" "enabled"
           = (if arg_skip_epub args then Ok (VBool false)
              else get3 config "pipeline" "epub" "enabled"))
  /\ (forall config' keys,
        apply_cli_overrides args config = Ok config' ->
        Forall (fun t => diverge ["pipeline"; fst t; snd t] keys) cli_targets ->
        get_path keys (VDict config') = get_path keys (VDict config))
  /\ (forall config' section rest,
        apply_cli_overrides args config = Ok config' ->
        section ≠ "pipeline" ->
        get_path (section :: rest) (VDict config')
        = get_path (section :: rest) (VDict config)).
Proof.
  split; [|split; [|split; [|split; [|split]]]].
  - apply apply_cli_overrides_total.
  - rewrite apply_cli_overrides_run. by intros -> -> -> -> -> ->.
  - apply apply_cli_overrides_reads.
  - apply apply_cli_overrides_enabled.
  - apply apply_cli_overrides_frame.
  - intros config' section rest Ha Hne.
    apply (apply_cli_overrides_frame args config config' _ Ha).
    apply Forall_forall. intros [b c] _. simpl.
    exists [], "pipeline", [b; c], section, rest. done.
Qed.

Lemma has_sections_default : has_sections default_config.
Proof.
  unfold has_sections. do 4 eexists.
  split; [vm_compute; reflexivity|]. split; [vm_compute; reflexivity|].
  split; vm_compute; reflexivity.
Qed.

Lemma apply_cli_overrides_spec_witness :
  exists config',
    apply_cli_overrides busy_args default_config = Ok config'
    /\ get3 config' "pipeline" "decode" "mode" = Ok (VStr "fast")
    /\ get3 config' "pipeline" "epub" "output_name" = Ok (VStr "{asin}")
    /\ get3 config' "pipeline" "decode" "early_exit" = Ok (VBool true)
    /\ get_path ["paths"; "downloads"] (VDict config') = Some (VStr "downloads")
    /\ get_path ["batch"; "continue_on_error"] (VDict config') = Some (VBool true).
Proof.
  pose proof (apply_cli_overrides_spec busy_args default_config)
    as (Htotal & _ & Hread & _ & _ & Hsection).
  destruct (Htotal has_sections_default) as (config' & Ha & _).
  destruct (Hread config' Ha) as (Hmode & _ & Hname & Hother).
  exists config'. split; [exact Ha|]. split; [exact Hmode|].
  split; [exact Hname|]. split; [|split].
  - rewrite (Hother "pipeline" "decode" "early_exit"); [reflexivity|].
    intros _ Hin. simpl in Hin. intuition congruence.
  - rewrite (Hsection config' "paths" ["downloads"] Ha); [reflexivity|done].
  - rewrite (Hsection config' "batch" ["continue_on_error"] Ha); [reflexivity|done].
Defined.

(** X13.  The flags of the wrapper reach the stage
    executables.  For a processor made with the configuration the
    overrides return, whatever the loaded configuration holds: under
    [--yes] the download is run with [--yes] after the identifier; and
    under [--fast], [--full] or [--progressive] the decoding is run with
    that flag after the book directory. *)
Theorem cli_flags_reach_commands (args : Args) (loaded : gmap string value)
    (self : KindleProcessor) :
  apply_cli_overrides args loaded = Ok (config self) ->
  (arg_yes args = true ->
   download_cmd self
   = Ok ["python3"; "download_full_book.py"; asin self; "--yes"])
  /\ (forall mode,
        cli_mode args = Some mode ->
        In mode ["fast"; "full"; "progressive"]
        /\ decode_cmd self
           = Ok ["python3"; "decode_glyphs_complete.py"; path_str (book_dir self);
                 "--" +:+ mode]).
Proof.
  intros Ha. destruct (apply_cli_overrides_reads args loaded (config self) Ha)
    as (Hmode & Hyes & _).
  split.
  - intros Hy. rewrite Hy in Hyes. unfold download_cmd. by rewrite Hyes.
  - intros mode Hm. rewrite Hm in Hmode. rewrite decode_cmd_get3, Hmode.
    unfold cli_mode in Hm.
    destruct (arg_fast args); [injection Hm as <-; simpl; tauto|].
    destruct (arg_full args); [injection Hm as <-; simpl; tauto|].
    destruct (arg_progressive args); [injection Hm as <-; simpl; tauto|done].
Qed.

Lemma cli_flags_reach_commands_witness :
  download_cmd {| asin := "B0FLBTR2FS";
                  config := match apply_cli_overrides busy_args default_config with
                            | Ok config => config
                            | Raise _ => default_config
                            end;
                  book_dir := joinpath (mkPath "downloads") "B0FLBTR2FS" |}
  = Ok ["python3"; "download_full_book.py"; "B0FLBTR2FS"; "--yes"].
Proof.
  apply (proj1 (cli_flags_reach_commands busy_args default_config
                  {| asin := "B0FLBTR2FS";
                     config := match apply_cli_overrides busy_args default_config with
                               | Ok config => config
                               | Raise _ => default_config
                               end;
                     book_dir := joinpath (mkPath "downloads") "B0FLBTR2FS" |}
                  eq_refl)).
  reflexivity.
Defined.

(** ** What a step that returns has done *)

(** X14.  A step returns only if its process exited with
    code zero and its artifact was there once the process had returned.
    It has then started that one process and nothing else.  The download
    and the decoding leave the files as the process left them; the
    packaging has renamed the EPUB to the name computed from the title,
    the configured output name and the identifier. *)
Theorem step_success_spec (H : Host) (self : KindleProcessor) (s : step)
    (w w' : world H) :
  step_func H self s w = (Ok tt, w') ->
  exists cmd c ext' fs',
    step_cmd self s = Ok cmd
    /\ spawn H cmd (ext H w) (fs H w) = (c, ext', fs')
    /\ returncode c = 0%Z
    /\ artifact_present self s fs' = true
    /\ events H w' = events H w ++ [EvRun cmd]
    /\ ext H w' = ext'
    /\ (s ≠ CreateEpub -> fs H w' = fs')
    /\ (s = CreateEpub ->
        exists title output_name name,
          clean_title H self fs' = Ok title
          /\ get3 (config self) "pipeline" "epub" "output_name" = Ok output_name
          /\ custom_name output_name (asin self) title = Ok name
          /\ os_rename H epub_file (mkPath name) fs' = Ok (fs H w')).
Proof.
  destruct s; simpl.
  - rewrite download_book_run.
    destruct (download_cmd self) as [cmd|]; [|done].
    destruct (spawn H cmd _ _) as [[c ext'] fs'] eqn:Hs.
    destruct (returncode c =? 0)%Z eqn:Hr; simpl; [|done].
    destruct (path_exists (book_dir self) fs') eqn:Hp; simpl; [|done].
    destruct (is_nil (glob _ _ _)) eqn:Hg; [done|].
    intros [= <-]. exists cmd, c, ext', fs'.
    apply Z.eqb_eq in Hr. simpl. rewrite Hp, Hg. repeat split; done.
  - rewrite decode_glyphs_run.
    destruct (decode_cmd self) as [cmd|]; [|done].
    destruct (spawn H cmd _ _) as [[c ext'] fs'] eqn:Hs.
    destruct (returncode c =? 0)%Z eqn:Hr; simpl; [|done].
    destruct (path_exists mapping_file fs') eqn:Hp; simpl; [|done].
    intros [= <-]. exists cmd, c, ext', fs'.
    apply Z.eqb_eq in Hr. simpl. repeat split; done.
  - rewrite create_epub_run.
    destruct (spawn H _ _ _) as [[c ext'] fs'] eqn:Hs.
    destruct (returncode c =? 0)%Z eqn:Hr; simpl; [|done].
    destruct (path_exists epub_file fs') eqn:Hp; simpl; [|done].
    destruct (clean_title H self fs') as [title|] eqn:Ht; simpl; [|done].
    destruct (get3 _ _ _ _) as [output_name|] eqn:Ho; simpl; [|done].
    destruct (custom_name _ _ _) as [name|] eqn:Hn; simpl; [|done].
    destruct (os_rename H _ _ _) as [root'|] eqn:Hm; [|done].
    intros [= <-]. exists (create_epub_cmd self), c, ext', fs'.
    apply Z.eqb_eq in Hr. repeat split; try done.
    intros _. by exists title, output_name, name.
Qed.

Lemma step_success_spec_witness :
  exists cmd c ext' fs',
    step_cmd download_book_B1 DownloadBook = Ok cmd
    /\ spawn picky_host cmd tt ready_root = (c, ext', fs')
    /\ returncode c = 0%Z
    /\ artifact_present download_book_B1 DownloadBook fs' = true.
Proof.
  destruct (step_success_spec picky_host download_book_B1 DownloadBook
              (start picky_host ready_root tt)
              (snd (download_book picky_host download_book_B1
                      (start picky_host ready_root tt)))
              eq_refl)
    as (cmd & c & ext' & fs' & Hc & Hs & Hr & Ha & _).
  by exists cmd, c, ext', fs'.
Defined.

(** ** The title and the file name *)

Lemma has_char_app p a b : has_char p (a +:+ b) = has_char p a || has_char p b.
Proof.
  induction a as [|c a IH]; [done|]. rewrite append_cons. simpl.
  by rewrite IH, orb_assoc.
Qed.

Lemma has_char_remove_chars bad s : has_char bad (Py.remove_chars bad s) = false.
Proof.
  induction s as [|c s IH]; [done|]. simpl.
  destruct (bad c) eqn:E; [done|]. simpl. by rewrite E.
Qed.

Lemma has_char_lstrip p s : has_char p s = false -> has_char p (Py.lstrip s) = false.
Proof.
  induction s as [|c s IH]; [done|]. simpl. intros [Hc Hs]%orb_false_elim.
  destruct (Py.isspace c); [by apply IH|]. simpl. by rewrite Hc, Hs.
Qed.

Lemma has_char_rstrip p s : has_char p s = false -> has_char p (Py.rstrip s) = false.
Proof.
  induction s as [|c s IH]; [done|]. simpl. intros [Hc Hs]%orb_false_elim.
  specialize (IH Hs). destruct (Py.rstrip s) as [|c' r].
  - destruct (Py.isspace c); [done|]. simpl. by rewrite Hc.
  - cbn [has_char] in *. by rewrite Hc, IH.
Qed.

Lemma has_char_strip p s : has_char p s = false -> has_char p (Py.strip s) = false.
Proof. intros Hs. by apply has_char_rstrip, has_char_lstrip. Qed.

(** A text without the separator is one piece. *)
Lemma split_no_sep sep s :
  has_char (fun c => Ascii.eqb c sep) s = false -> Py.split sep s = [s].
Proof.
  induction s as [|c s IH]; [done|]. simpl. intros [Hc Hs]%orb_false_elim.
  by rewrite Hc, (IH Hs).
Qed.

(** A name without a slash, other than the empty name and the dot, is
    a path of one component. *)
Lemma single_name_no_slash name :
  has_char is_slash name = false -> name ≠ "" -> name ≠ "." ->
  parts (mkPath name) = [name] /\ anchored (mkPath name) = false.
Proof.
  intros Hs Hne Hdot. unfold mkPath. simpl. split.
  - rewrite (split_no_sep "/" name Hs). by rewrite filter_cons_True, filter_nil.
  - destruct name as [|c name]; [done|]. cbn [Py.startswith]. simpl in Hs.
    apply orb_false_elim in Hs as [Hc _]. unfold is_slash in Hc.
    rewrite Ascii.eqb_sym in Hc. by rewrite Hc.
Qed.

Lemma replace_absent old new s :
  Py.contains old s = false -> Py.replace old new s = s.
Proof.
  induction s as [|c s IH]; [done|]. cbn [Py.contains].
  destruct (Py.startswith old (String c s)) eqn:E; [done|]. intros Hc.
  by rewrite replace_miss, IH.
Qed.

Lemma slash_illegal c : is_slash c = true -> illegal_char c = true.
Proof.
  unfold is_slash. intros ->%Ascii.eqb_eq. reflexivity.
Qed.

Lemma has_char_weaken (p q : ascii -> bool) s :
  (forall c, p c = true -> q c = true) ->
  has_char q s = false -> has_char p s = false.
Proof.
  intros Hpq. induction s as [|c s IH]; [done|]. simpl.
  intros [Hc Hs]%orb_false_elim. rewrite (IH Hs), orb_false_r.
  destruct (p c) eqn:E; [|done]. by rewrite (Hpq c E) in Hc.
Qed.

(** X15.  When the metadata file of the book is there, the
    title [create_epub] names the book with holds none of the characters
    that are illegal in a file name, and has no white space at either
    end.  The file name made of it under the output name [auto] is
    therefore a single path component: the EPUB stays in the current
    directory. *)
Theorem clean_title_sanitized (H : Host) (self : KindleProcessor) (root : node)
    (title : string) :
  is_Some (lookup_path (parts (book_dir self) ++ ["batch_0"; "metadata.json"]) root) ->
  clean_title H self root = Ok title ->
  has_char illegal_char title = false
  /\ Py.strip title = title
  /\ custom_name (VStr "auto") (asin self) title = Ok (title +:+ ".epub")
  /\ parts (mkPath (title +:+ ".epub")) = [title +:+ ".epub"]
  /\ anchored (mkPath (title +:+ ".epub")) = false.
Proof.
  intros [n Hn]. unfold clean_title, path_exists.
  rewrite parts_metadata_file, Hn.
  destruct (read_text _ root) as [text|]; [|done]. simpl.
  destruct (json_loads H text) as [metadata|]; [|done]. simpl.
  destruct metadata as [| | | | |d]; try done. simpl.
  destruct (default (VStr (asin self)) (d !! "bookTitle")) as [| | |t| |];
    try done.
  intros [= <-].
  assert (has_char illegal_char (Py.strip (Py.remove_chars illegal_char t)) = false)
    as Hclean by apply has_char_strip, has_char_remove_chars.
  split; [done|]. split; [apply strip_idem|]. split; [done|].
  apply single_name_no_slash.
  - rewrite has_char_app. simpl. rewrite orb_false_r.
    by apply (has_char_weaken is_slash illegal_char _ slash_illegal).
  - by destruct (Py.strip _).
  - by destruct (Py.strip _) as [|c [|c' s]].
Qed.

Lemma clean_title_sanitized_witness :
  has_char illegal_char "My Book" = false
  /\ parts (mkPath ("My Book" +:+ ".epub")) = ["My Book.epub"].
Proof.
  destruct (clean_title_sanitized idle_host (book "B0FLBTR2FS")
              (book_root "B0FLBTR2FS" " My: Book ") "My Book")
    as (Hc & _ & _ & Hp & _); [by vm_compute; eauto| reflexivity |].
  split; [exact Hc|exact Hp].
Defined.

(** X16.  The file name [create_epub] computes always ends
    with [.epub].  A configured output name that holds neither
    placeholder and ends with [.epub] already is used as it is, and one
    that does not end with it gets it appended.  The computation fails,
    with [AttributeError], exactly when the configured output name is not
    a string, as when the override file sets it to digits or to [true]. *)
Theorem custom_name_suffix (output_name : value) (asin title : string) :
  (forall name,
     custom_name output_name asin title = Ok name ->
     exists stem, name = stem +:+ ".epub")
  /\ (forall t,
        t ≠ "auto" ->
        Py.contains "{asin}" t = false -> Py.contains "{title}" t = false ->
        custom_name (VStr t) asin title
        = Ok (if Py.endswith ".epub" t then t else t +:+ ".epub"))
  /\ ((exists name, custom_name output_name asin title = Ok name) <->
      exists t, output_name = VStr t)
  /\ (custom_name output_name asin title = Raise AttributeError <->
      forall t, output_name ≠ VStr t)
  /\ (forall text v,
        Py.isdigit text = true \/ Py.lower text = "true" \/ Py.lower text = "false" ->
        convert text = Ok v ->
        custom_name v asin title = Raise AttributeError)
  /\ (forall text,
        (Py.isdigit text = true /\ exists n, Py.int text = inl n)
        \/ Py.lower text = "true" \/ Py.lower text = "false" ->
        exists v, convert text = Ok v
                  /\ custom_name v asin title = Raise AttributeError).
Proof.
  split; [|split; [|split; [|split; [|split]]]].
  - intros name. unfold custom_name.
    destruct (eq_str output_name "auto").
    + intros [= <-]. by exists title.
    + destruct output_name as [| | |t| |]; try done. intros [= <-].
      destruct (Py.endswith ".epub" _) eqn:E.
      * by apply endswith_spec in E.
      * eauto.
  - intros t Hne Ha Ht. unfold custom_name. simpl.
    apply String.eqb_neq in Hne. rewrite Hne.
    by rewrite (replace_absent "{asin}" asin t Ha),
               (replace_absent "{title}" title t Ht).
  - unfold custom_name. split.
    + intros [name Hn]. destruct output_name; try done. eauto.
    + intros [t ->]. simpl. destruct (String.eqb t "auto"); eauto.
  - unfold custom_name. split.
    + intros Hr t ->. simpl in Hr. by destruct (String.eqb t "auto").
    + intros Hn. destruct output_name as [| | |t| |]; try done.
      by destruct (Hn t).
  - intros text v Hd. unfold convert.
    destruct (String.eqb_spec (Py.lower text) "true"); [by intros [= <-]|].
    destruct (String.eqb_spec (Py.lower text) "false"); [by intros [= <-]|].
    destruct Hd as [->|[Hd|Hd]]; [|done..].
    destruct (Py.int text); [by intros [= <-]|done].
  - intros text Hd. unfold convert.
    destruct (String.eqb_spec (Py.lower text) "true"); [by exists (VBool true)|].
    destruct (String.eqb_spec (Py.lower text) "false"); [by exists (VBool false)|].
    destruct Hd as [[-> [k ->]]|[Hd|Hd]]; [|done..].
    by exists (VInt k).
Qed.

Lemma custom_name_suffix_witness :
  custom_name (VStr "book.epub") "B0FLBTR2FS" "My Book" = Ok "book.epub"
  /\ custom_name (VStr "book") "B0FLBTR2FS" "My Book" = Ok "book.epub"
  /\ convert "2024" = Ok (VInt 2024)
  /\ custom_name (VInt 2024) "B0FLBTR2FS" "My Book" = Raise AttributeError.
Proof.
  pose proof (custom_name_suffix (VStr "book") "B0FLBTR2FS" "My Book")
    as (_ & Hfixed & _ & _ & Hdigits & _).
  split; [|split; [|split]].
  - apply (Hfixed "book.epub"); done.
  - apply (Hfixed "book"); done.
  - reflexivity.
  - apply (Hdigits "2024" (VInt 2024)); [by left|reflexivity].
Defined.

(** ** What the cleanup leaves alone *)

Lemma remove_incomplete_keeps book names root q c :
  lookup_path q root = Some (File c) ->
  (forall name r, In name names -> q ≠ parts book ++ name :: r) ->
  lookup_path q (remove_incomplete book names root) = Some (File c).
Proof.
  unfold remove_incomplete.
  revert root. induction names as [|name names IH]; intros root Hl Hq; [done|].
  cbn [foldl]. rewrite remove_incomplete_step.
  destruct (incomplete _) eqn:E.
  - apply IH.
    + apply lookup_remove_path_file; [done|]. intros r Hr.
      rewrite <- app_assoc in Hr. by apply (Hq name r); [left|].
    + intros n r Hin. apply Hq. by right.
  - apply IH; [done|]. intros n r Hin. apply Hq. by right.
Qed.

Lemma unlink_all_keeps_file files q c root :
  Forall single_name files ->
  (forall f, In f files -> q ≠ [f]) ->
  lookup_path q root = Some (File c) ->
  lookup_path q (snd (unlink_all files root)) = Some (File c).
Proof.
  intros Hs. revert root.
  induction Hs as [|f files Hf Hs IH]; intros root Hq Hl; [done|].
  cbn [unlink_all]. unfold path_exists, unlink_missing_ok. rewrite Hf.
  assert (forall g, In g files -> q ≠ [g]) as Hq' by (intros g Hg; apply Hq; by right).
  destruct (lookup_path [f] root) as [[c0|es]|] eqn:E; [|done|by apply IH].
  apply IH; [done|].
  apply lookup_remove_path_file; [done|]. intros r Hr. simpl in Hr. subst q.
  destruct r as [|b r]; [by apply (Hq f); [left|]|].
  destruct root as [c1|es]; [done|]. simpl in *.
  destruct (es !! f) as [[c2|es2]|]; done.
Qed.

(** X17.  [cleanup_on_failure] starts no process and
    prints only its banner.  It creates nothing: a path at which nothing
    was holds nothing afterwards.  And it removes nothing but what it is
    for: a file that is neither [ttf_character_mapping.json] nor
    [decoded_book.epub] of the current directory, and is not inside an
    entry named [batch_*] of the book directory, is there afterwards with
    the same content. *)
Theorem cleanup_on_failure_frame (H : Host) (self : KindleProcessor) (w : world H) :
  let w' := snd (cleanup_on_failure H self w) in
  ext H w' = ext H w
  /\ events H w' = events H w ++ [EvCleanup]
  /\ (forall q, lookup_path q (fs H w) = None -> lookup_path q (fs H w') = None)
  /\ (forall q c,
        lookup_path q (fs H w) = Some (File c) ->
        q ≠ ["ttf_character_mapping.json"] -> q ≠ ["decoded_book.epub"] ->
        (forall name r,
           Py.fnmatch "batch_*" name = true ->
           q ≠ parts (book_dir self) ++ name :: r) ->
        lookup_path q (fs H w') = Some (File c)).
Proof.
  intros w'. subst w'. rewrite cleanup_on_failure_pure. cbn [snd fs ext events].
  split; [done|]. split; [done|]. split.
  - intros q Hq. apply unlink_all_keeps_none.
    destruct (path_exists (book_dir self) (fs H w)); [|done].
    by apply remove_incomplete_keeps_none.
  - intros q c Hl Hm He Hb.
    apply unlink_all_keeps_file; [repeat constructor| |].
    + intros f [<-|[<-|[]]]; done.
    + destruct (path_exists (book_dir self) (fs H w)); [|done].
      apply remove_incomplete_keeps; [done|].
      intros name r Hin. apply Hb.
      by apply glob_spec in Hin as (es & _ & _ & Hmatch).
Qed.

Lemma cleanup_on_failure_frame_witness :
  let w' := snd (cleanup_on_failure idle_host (book "B0FLBTR2FS")
                   (start idle_host crowded_root tt)) in
  lookup_path ["downloads"; "B0FLBTR2FS"; "cover.jpg"] (fs idle_host w')
  = Some (File "jpg")
  /\ lookup_path ["downloads"; "B0FLBTR2FS"; "batch_1"] (fs idle_host w') = None
  /\ lookup_path ["decoded_book.epub"] (fs idle_host w') = None.
Proof.
  split; [|split; reflexivity].
  apply (proj2 (proj2 (proj2 (cleanup_on_failure_frame idle_host (book "B0FLBTR2FS")
                                (start idle_host crowded_root tt))))
           ["downloads"; "B0FLBTR2FS"; "cover.jpg"] "jpg");
    [reflexivity | done | done |].
  intros name r Hm Heq. injection Heq as <- <-. by vm_compute in Hm.
Defined.

(** ** The book directory *)

Lemma parts_joinpath_plain p name :
  has_char is_slash name = false -> name ≠ "" -> name ≠ "." ->
  parts (joinpath p name) = parts p ++ [name]
  /\ anchored (joinpath p name) = anchored p.
Proof.
  intros Hs Hne Hdot.
  destruct (single_name_no_slash name Hs Hne Hdot) as [Hp Ha].
  unfold joinpath. cbv zeta. rewrite Ha. cbn [parts anchored]. by rewrite Hp.
Qed.

(** X18.  A processor is made only from a configuration whose
    [paths] section binds [downloads] to a string, and works in the
    directory of that name joined with the identifier.  For an
    identifier without a slash, not empty and not a dot, this is the
    entry of that name in the downloads directory: with the defaults,
    [downloads/<identifier>].  For an identifier that starts with a slash
    it is the absolute path the identifier spells, outside of the
    downloads directory.  A configuration without [paths] or without
    [downloads] raises [KeyError], one in which either is of another type
    [TypeError]. *)
Theorem new_processor_spec (a : string) (cfg : gmap string value) :
  (forall paths d,
     cfg !! "paths" = Some (VDict paths) -> paths !! "downloads" = Some (VStr d) ->
     exists self,
       new_processor a cfg = Ok self
       /\ asin self = a /\ config self = cfg
       /\ (has_char is_slash a = false -> a ≠ "" -> a ≠ "." ->
           parts (book_dir self) = parts (mkPath d) ++ [a]
           /\ anchored (book_dir self) = anchored (mkPath d))
       /\ (Py.startswith "/" a = true -> book_dir self = mkPath a))
  /\ (has_char is_slash a = false -> a ≠ "" -> a ≠ "." ->
      exists self, new_processor a default_config = Ok self
                   /\ path_str (book_dir self) = "downloads/" +:+ a)
  /\ (cfg !! "paths" = None -> new_processor a cfg = Raise (KeyError "paths"))
  /\ (forall paths,
        cfg !! "paths" = Some (VDict paths) -> paths !! "downloads" = None ->
        new_processor a cfg = Raise (KeyError "downloads"))
  /\ (forall v,
        cfg !! "paths" = Some v -> (forall paths, v ≠ VDict paths) ->
        new_processor a cfg = Raise TypeError)
  /\ (forall paths v,
        cfg !! "paths" = Some (VDict paths) -> paths !! "downloads" = Some v ->
        (forall d, v ≠ VStr d) ->
        new_processor a cfg = Raise TypeError).
Proof.
  unfold new_processor. simpl. split; [|split; [|split; [|split; [|split]]]].
  - intros paths d -> Hd. simpl. rewrite Hd. simpl. eexists. split; [done|].
    split; [done|]. split; [done|]. simpl. split.
    + apply parts_joinpath_plain.
    + intros Hs. unfold joinpath. simpl. by rewrite Hs.
  - intros Hs Hne Hdot. eexists. split; [reflexivity|]. cbn [book_dir].
    destruct (parts_joinpath_plain (mkPath "downloads") a Hs Hne Hdot) as [Hp Ha].
    unfold path_str. by rewrite Ha, Hp.
  - by intros ->.
  - intros paths -> Hd. simpl. by rewrite Hd.
  - intros v -> Hv. destruct v; try done. by destruct (Hv d).
  - intros paths v -> Hd Hv. simpl. rewrite Hd. simpl.
    destruct v; try done. by destruct (Hv s).
Qed.

Lemma new_processor_spec_witness :
  (exists self, new_processor "B0FLBTR2FS" default_config = Ok self
                /\ path_str (book_dir self) = "downloads/B0FLBTR2FS")
  /\ new_processor "B0FLBTR2FS" ∅ = Raise (KeyError "paths").
Proof.
  pose proof (new_processor_spec "B0FLBTR2FS" ∅) as (_ & Hdefault & Hnone & _).
  split; [by apply Hdefault|]. by apply Hnone.
Defined.

(** ** Comment lines in the list of books *)

Lemma rstrip_first c s :
  Py.isspace c = false -> exists r, Py.rstrip (String c s) = String c r.
Proof.
  intros Hc. simpl. destruct (Py.rstrip s); [|eauto]. rewrite Hc. eauto.
Qed.

(** X19.  In the list of books only a line whose very
    first character is [#] is a comment.  A comment line that is
    indented is read as an identifier, the line trimmed, [#] included;
    and these are the only identifiers that start with [#]. *)
Theorem load_asins_indented_comment (lines : list string) :
  (forall line c rest,
     In line lines -> line = String c rest -> Py.isspace c = true ->
     Py.startswith "#" (Py.strip line) = true ->
     In (Py.strip line) (load_asins lines))
  /\ (forall id,
        In id (load_asins lines) -> Py.startswith "#" id = true ->
        exists c rest,
          In (String c rest) lines /\ Py.isspace c = true
          /\ Py.strip (String c rest) = id)
  /\ (forall line,
        Py.startswith "#" line = true -> load_asins [line] = []).
Proof.
  rewrite load_asins_spec. unfold spec_identifiers. split; [|split].
  - intros line c rest Hin -> Hc Hs. apply in_map, filter_In. split; [done|].
    unfold spec_keeps. rewrite <- nonempty_strip.
    destruct (Py.strip (String c rest)); [done|].
    cbn [Py.nonempty Py.startswith andb].
    destruct (Ascii.eqb_spec "#" c) as [<-|]; [by vm_compute in Hc|done].
  - intros id (line & <- & [Hin Hk]%filter_In)%in_map_iff Hs.
    unfold spec_keeps in Hk. apply andb_prop in Hk as [Hb Hn].
    destruct line as [|c rest]; [done|].
    exists c, rest. split; [done|]. split; [|done].
    destruct (Py.isspace c) eqn:Hc; [done|].
    unfold Py.strip in Hs. cbn [Py.lstrip] in Hs. rewrite Hc in Hs.
    destruct (rstrip_first c rest Hc) as [r Hr]. rewrite Hr in Hs.
    cbn [Py.startswith] in *. by rewrite Hs in Hn.
  - intros line Hs. simpl. unfold spec_keeps. by rewrite Hs, andb_false_r.
Qed.

Lemma load_asins_indented_comment_witness :
  In "# not a book" (load_asins ["B1"; "  # not a book"; "# a comment"]).
Proof.
  apply (proj1 (load_asins_indented_comment
                  ["B1"; "  # not a book"; "# a comment"])
           "  # not a book" " "%char " # not a book");
    [simpl; tauto | reflexivity | reflexivity | reflexivity].
Defined.

(** ** Flags in the override file *)

(** X20.  A setting of the override file reads as false, where the
    wrapper tests it, in three cases only: the value is [false] in any
    letter case; the value is empty; the value is made of digits and is
    zero.  Every other value that the parser accepts reads as true, so
    that [no] or [off] after [enabled =] leave a stage enabled, and after
    [continue_on_error =] let a batch go on.  A value of digits that
    [int] refuses is no setting: the parser raises on it. *)
Theorem flag_values (text : string) :
  (forall v,
     convert text = Ok v ->
     (truthy v = false <->
      Py.lower text = "false" \/ text = ""
      \/ (Py.isdigit text = true /\ Py.int text = inl 0%Z)))
  /\ (Py.lower text ≠ "false" -> text ≠ "" -> Py.isdigit text = false ->
      exists v, convert text = Ok v /\ truthy v = true)
  /\ ((exists e, convert text = Raise e) <->
      Py.isdigit text = true /\ exists msg, Py.int text = inr msg).
Proof.
  split; [|split].
  - intros v. unfold convert.
    destruct (String.eqb_spec (Py.lower text) "true") as [Ht|Ht].
    + intros [= <-]. simpl. split; [done|]. intros [Hf|[->|[Hd _]]].
      * congruence.
      * done.
      * by destruct (isdigit_not_boolean text Hd).
    + destruct (String.eqb_spec (Py.lower text) "false") as [Hf|Hf].
      * intros [= <-]. simpl. split; [by left|done].
      * destruct (Py.isdigit text) eqn:Hd.
        -- destruct (Py.int text) as [n|msg] eqn:Hi; [|done].
           intros [= <-]. simpl. rewrite negb_false_iff, Z.eqb_eq. split.
           ++ intros ->. right. right. done.
           ++ intros [?|[->|[_ [= ->]]]]; done.
        -- intros [= <-]. simpl. split.
           ++ destruct text; [|done]. intros _. right. by left.
           ++ intros [?|[->|[? _]]]; done.
  - intros Hf Hne Hd. unfold convert.
    destruct (String.eqb_spec (Py.lower text) "true") as [Ht|Ht];
      [by exists (VBool true)|].
    destruct (String.eqb_spec (Py.lower text) "false") as [|_]; [done|].
    rewrite Hd. exists (VStr text). split; [done|]. by destruct text.
  - split.
    + intros (e & (msg & _ & Hd & Hi)%convert_raises). eauto.
    + intros (Hd & msg & Hi). exists (ValueError msg).
      apply convert_raises. eauto.
Qed.

Lemma flag_values_witness :
  (exists v, convert "no" = Ok v /\ truthy v = true)
  /\ (exists v, convert "off" = Ok v /\ truthy v = true)
  /\ truthy (VBool false) = false /\ truthy (VInt 0) = false.
Proof.
  split; [|split; [|split]].
  - apply (proj1 (proj2 (flag_values "no"))); done.
  - apply (proj1 (proj2 (flag_values "off"))); done.
  - apply (proj1 (flag_values "FALSE") (VBool false) eq_refl). by left.
  - apply (proj1 (flag_values "00") (VInt 0) eq_refl). right. right. done.
Defined.

(** ** A batch under a configuration no processor can be made from *)

Lemma batch_loop_no_processor H cfg e flag n asins i results w :
  (forall a, new_processor a cfg = Raise e) ->
  continue_on_error cfg = Ok flag -> truthy flag = true ->
  exists w',
    batch_loop H cfg n i asins results w
    = (Ok (results ++ ((fun a => RFailed a (str_exn H e)) <$> asins)), w')
    /\ fs H w' = fs H w /\ ext H w' = ext H w
    /\ runs (events H w') = runs (events H w)
    /\ books (events H w') = books (events H w) ++ asins.
Proof.
  intros Hnew Hf Ht. revert i results w.
  induction asins as [|a rest IH]; intros i results w.
  - exists w. simpl. by rewrite !app_nil_r.
  - rewrite batch_loop_cons. unfold process_one, mbind, lift.
    rewrite Hnew, Hf, Ht.
    destruct (IH (S i) (results ++ [RFailed a (str_exn H e)])
                (log H (EvBook i n a) w)) as (w' & -> & Hfs & Hext & Hruns & Hbooks).
    exists w'. rewrite <- app_assoc. split; [done|].
    split; [done|]. split; [done|]. split.
    + rewrite Hruns. unfold log. simpl. rewrite runs_app. simpl.
      by rewrite app_nil_r.
    + rewrite Hbooks. unfold log. simpl. rewrite books_app. simpl.
      by rewrite <- app_assoc.
Qed.

(** X21.  Under a configuration from which no
    processor can be made, as when [paths.downloads] is not a string, a
    batch that goes on after errors attempts every book of the list and
    records each as failed with the message of that one error; it starts
    no process and changes no file. *)
Theorem batch_without_processor (H : Host) (cfg : gmap string value) (e : exn)
    (flag : value) (n i : nat) (asins : list string) (w : world H) :
  (forall a, new_processor a cfg = Raise e) ->
  continue_on_error cfg = Ok flag -> truthy flag = true ->
  exists w',
    batch_loop H cfg n i asins [] w
    = (Ok ((fun a => RFailed a (str_exn H e)) <$> asins), w')
    /\ fs H w' = fs H w /\ ext H w' = ext H w
    /\ runs (events H w') = runs (events H w)
    /\ books (events H w') = books (events H w) ++ asins.
Proof.
  intros Hnew Hf Ht.
  destruct (batch_loop_no_processor H cfg e flag n asins i [] w Hnew Hf Ht)
    as (w' & Hl & Hrest).
  exists w'. by rewrite Hl.
Qed.

Lemma batch_without_processor_witness :
  exists w',
    batch_loop idle_host numeric_downloads 2 1 ["B1"; "B2"] []
      (start idle_host ready_root tt)
    = (Ok [RFailed "B1" "error"; RFailed "B2" "error"], w')
    /\ fs idle_host w' = ready_root.
Proof.
  destruct (batch_without_processor idle_host numeric_downloads TypeError
              (VBool true) 2 1 ["B1"; "B2"] (start idle_host ready_root tt))
    as (w' & Hl & Hfs & _).
  - intros a. reflexivity.
  - reflexivity.
  - reflexivity.
  - exists w'. split; [exact Hl|exact Hfs].
Defined.

Example numeric_downloads_parsed :
  (custom <- parse_simple_config "paths.downloads = 2024" ;;
   Ok (merge_dicts default_config custom)) = Ok numeric_downloads.
Proof. by vm_compute. Qed.

(** ** What the cleanup leaves in the book directory *)

Lemma lookup_remove_entry f b r root :
  lookup_path (b :: r) (remove_path [f] root)
  = if decide (f = b) then None else lookup_path (b :: r) root.
Proof.
  destruct root as [c|es]; simpl.
  - by case_decide.
  - case_decide as E.
    + subst. by rewrite lookup_delete_eq.
    + by rewrite lookup_delete_ne.
Qed.

(** What is there after the second loop was there before it. *)
Lemma unlink_all_before files q x root :
  Forall single_name files -> q ≠ [] ->
  lookup_path q (snd (unlink_all files root)) = Some x ->
  lookup_path q root = Some x.
Proof.
  intros Hs Hq. revert root.
  induction Hs as [|f files Hf Hs IH]; intros root; [done|].
  cbn [unlink_all]. unfold path_exists, unlink_missing_ok. rewrite Hf.
  destruct (lookup_path [f] root) as [[c|es]|] eqn:E; [|done|apply IH].
  intros Hl%IH. destruct q as [|b r]; [done|].
  rewrite lookup_remove_entry in Hl. by case_decide.
Qed.

Lemma prune_lookup names es n x :
  prune names es !! n = Some x ->
  es !! n = Some x /\ (In n names -> incomplete (es !! n) = false).
Proof.
  unfold prune. revert es. induction names as [|a names IH]; intros es; [done|].
  cbn [foldl]. intros Hp.
  destruct (incomplete (es !! a)) eqn:E.
  - destruct (IH _ Hp) as [Hl Hc].
    destruct (decide (a = n)) as [->|Hne]; [by rewrite lookup_delete_eq in Hl|].
    rewrite lookup_delete_ne in Hl by done. split; [done|].
    intros [->|Hin]; [done|]. specialize (Hc Hin).
    by rewrite lookup_delete_ne in Hc.
  - destruct (IH _ Hp) as [Hl Hc]. split; [done|].
    intros [->|Hin]; [done|]. by apply Hc.
Qed.

(** The first loop leaves an entry of the book directory that is a
    file where it is. *)
Lemma remove_incomplete_keeps_entry book names root name c :
  lookup_path (parts book ++ [name]) root = Some (File c) ->
  lookup_path (parts book ++ [name]) (remove_incomplete book names root)
  = Some (File c).
Proof.
  unfold remove_incomplete.
  revert root. induction names as [|a names IH]; intros root Hl; [done|].
  cbn [foldl]. rewrite remove_incomplete_step.
  destruct (incomplete _) eqn:E; apply IH; [|done].
  apply lookup_remove_path_file; [done|]. intros r Hr.
  rewrite <- app_assoc in Hr. apply app_inv_head in Hr. injection Hr as -> _.
  by rewrite Hl in E.
Qed.

(** X22.  After [cleanup_on_failure] every directory
    named [batch_*] that is left in the book directory is one that was
    there before, unchanged, and holds an entry named
    [page_data_*.json]: no incomplete batch directory is left.  An entry
    of the book directory that is a file, whatever its name, is left as
    it was, the book directory not being the current directory. *)
Theorem cleanup_on_failure_batches (H : Host) (self : KindleProcessor)
    (w : world H) :
  let w' := snd (cleanup_on_failure H self w) in
  (forall name sub,
     Py.fnmatch "batch_*" name = true ->
     lookup_path (parts (book_dir self) ++ [name]) (fs H w') = Some (Dir sub) ->
     lookup_path (parts (book_dir self) ++ [name]) (fs H w) = Some (Dir sub)
     /\ exists n, is_Some (sub !! n) /\ Py.fnmatch "page_data_*.json" n = true)
  /\ (forall name c,
        parts (book_dir self) ≠ [] ->
        lookup_path (parts (book_dir self) ++ [name]) (fs H w) = Some (File c) ->
        lookup_path (parts (book_dir self) ++ [name]) (fs H w') = Some (File c)).
Proof.
  intros w'. subst w'. rewrite cleanup_on_failure_pure. cbn [snd fs].
  set (root := fs H w). set (book := book_dir self).
  assert (Forall single_name ["ttf_character_mapping.json"; "decoded_book.epub"])
    as Hsingle by (repeat constructor).
  split.
  - intros name sub Hm Hl.
    apply unlink_all_before in Hl; [|done|by destruct (parts book)].
    unfold path_exists in Hl.
    destruct (lookup_path (parts book) root) as [[c|es]|] eqn:Eb.
    + unfold glob, remove_incomplete in Hl. rewrite Eb in Hl.
      cbn [foldl] in Hl. rewrite lookup_path_app, Eb in Hl. done.
    + assert (lookup_path (parts book ++ [name])
                (remove_incomplete book (glob "batch_*" book root) root)
              = prune (glob "batch_*" book root) es !! name) as Hp.
      { rewrite lookup_path_app,
          (remove_incomplete_lookup book _ root es Eb).
        apply lookup_entry. }
      rewrite Hp in Hl. apply prune_lookup in Hl as [Hes Hc].
      rewrite lookup_path_app, Eb, lookup_entry. split; [done|].
      apply incomplete_spec. rewrite <- Hes. apply Hc.
      apply glob_spec. exists es. rewrite Hes. eauto.
    + rewrite lookup_path_app, Eb in Hl. done.
  - intros name c Hne Hl.
    apply unlink_all_keeps_file; [done| |].
    + intros f _ Heq. destruct (parts book) as [|b [|b' B]]; done.
    + destruct (path_exists book root); [|done].
      by apply remove_incomplete_keeps_entry.
Qed.

Lemma cleanup_on_failure_batches_witness :
  let w' := snd (cleanup_on_failure idle_host (book "B0FLBTR2FS")
                   (start idle_host crowded_root tt)) in
  lookup_path ["downloads"; "B0FLBTR2FS"; "cover.jpg"] (fs idle_host w')
  = Some (File "jpg").
Proof.
  apply (proj2 (cleanup_on_failure_batches idle_host (book "B0FLBTR2FS")
                  (start idle_host crowded_root tt)) "cover.jpg" "jpg");
    [done|reflexivity].
Defined.

(** ** When the cleanup itself fails *)

Lemma remove_path_dir p es :
  p ≠ [] -> exists es', remove_path p (Dir es) = Dir es'.
Proof.
  destruct p as [|b p]; [done|]. intros _. cbn [remove_path].
  destruct p; [eauto|]. destruct (es !! b); eauto.
Qed.

(** Removing below or beside a directory of the current directory
    leaves a directory there. *)
Lemma remove_path_keeps_dir_at p a es root :
  lookup_path [a] root = Some (Dir es) -> p ≠ [a] ->
  exists es', lookup_path [a] (remove_path p root) = Some (Dir es').
Proof.
  intros Hl Hp. destruct root as [c|E]; [done|]. rewrite lookup_entry in Hl.
  destruct p as [|b p]; [simpl; rewrite Hl; eauto|].
  cbn [remove_path]. destruct p as [|b' p'].
  - rewrite lookup_entry, lookup_delete_ne by congruence. eauto.
  - destruct (E !! b) as [child|] eqn:Eb; [|rewrite lookup_entry; eauto].
    rewrite lookup_entry. destruct (decide (b = a)) as [->|Hne].
    + rewrite lookup_insert_eq. rewrite Hl in Eb. injection Eb as <-.
      destruct (remove_path_dir (b' :: p') es) as [es' ->]; [done|]. eauto.
    + rewrite lookup_insert_ne by done. eauto.
Qed.

Lemma remove_incomplete_keeps_dir_at book names root a es :
  lookup_path [a] root = Some (Dir es) ->
  Forall (fun name => name ≠ a) names ->
  exists es', lookup_path [a] (remove_incomplete book names root) = Some (Dir es').
Proof.
  unfold remove_incomplete. intros Hl Hn. revert root es Hl.
  induction Hn as [|name names Hne _ IH]; intros root es Hl; [simpl; eauto|].
  cbn [foldl]. rewrite remove_incomplete_step.
  destruct (incomplete _); [|by eapply IH].
  destruct (remove_path_keeps_dir_at (parts book ++ [name]) a es root Hl)
    as [es' Hl'].
  - intros Heq. destruct (parts book) as [|b [|b' B]]; simpl in Heq; congruence.
  - by eapply IH.
Qed.

(** The first loop of the cleanup neither makes nor unmakes a directory
    under an artifact name. *)
Lemma cleanup_first_loop_no_dir_at self root a :
  Py.fnmatch "batch_*" a = false ->
  let root1 := if path_exists (book_dir self) root
               then remove_incomplete (book_dir self)
                      (glob "batch_*" (book_dir self) root) root
               else root in
  no_dir_at a root1 <-> no_dir_at a root.
Proof.
  intros Ha root1. subst root1.
  destruct (path_exists (book_dir self) root); [|done].
  unfold no_dir_at. split.
  - intros Hn es Hl.
    destruct (remove_incomplete_keeps_dir_at (book_dir self)
                (glob "batch_*" (book_dir self) root) root a es Hl) as [es' Hl'].
    + apply Forall_forall. intros name Hin%list_elem_of_In%glob_spec ->.
      destruct Hin as (? & _ & _ & Hm). congruence.
    + by apply (Hn es').
  - intros Hn es.
    destruct (lookup_path [a] root) as [[c|es0]|] eqn:E.
    + by rewrite (remove_incomplete_keeps_file _ _ _ _ c E).
    + by destruct (Hn es0).
    + by rewrite (remove_incomplete_keeps_none _ _ _ _ E).
Qed.

Lemma unlink_all_returns files root :
  Forall single_name files ->
  (fst (unlink_all files root) = Ok tt <->
   Forall (fun f => no_dir_at f root) files)
  /\ (forall e, fst (unlink_all files root) = Raise e -> e = OSError).
Proof.
  intros Hs. revert root.
  induction Hs as [|f files Hf Hs IH]; intros root.
  - simpl. split; [split; [constructor|done]|done].
  - cbn [unlink_all]. unfold path_exists, unlink_missing_ok. rewrite Hf.
    rewrite Forall_cons.
    destruct (lookup_path [f] root) as [[c|es]|] eqn:E.
    + destruct (IH (remove_path [f] root)) as [Hok Herr]. split; [|done].
      rewrite Hok. split.
      * intros Hall. split; [intros es; by rewrite E|].
        eapply Forall_impl; [exact Hall|]. intros g Hg es Hl.
        apply (Hg es). rewrite lookup_remove_entry. case_decide; [|done].
        subst. by rewrite E in Hl.
      * intros [_ Hall]. eapply Forall_impl; [exact Hall|]. intros g Hg es.
        rewrite lookup_remove_entry. case_decide; [done|apply Hg].
    + simpl. split; [|by intros e [= <-]]. split; [done|].
      intros [Hn _]. by destruct (Hn es).
    + destruct (IH root) as [Hok Herr]. split; [|done].
      rewrite Hok. split; [|by intros [_ ?]].
      intros Hall. split; [|done]. intros es. by rewrite E.
Qed.

(** When and how the cleanup returns. *)
Lemma cleanup_on_failure_outcome H self w :
  (fst (cleanup_on_failure H self w) = Ok tt <->
   no_dir_at "ttf_character_mapping.json" (fs H w)
   /\ no_dir_at "decoded_book.epub" (fs H w))
  /\ (forall e, fst (cleanup_on_failure H self w) = Raise e -> e = OSError).
Proof.
  assert (Forall single_name ["ttf_character_mapping.json"; "decoded_book.epub"])
    as Hsingle by (repeat constructor).
  split.
  - rewrite cleanup_on_failure_pure. cbn [fst].
    rewrite (proj1 (unlink_all_returns _ _ Hsingle)), !Forall_cons.
    rewrite !(cleanup_first_loop_no_dir_at self (fs H w)) by done.
    split; [by intros (? & ? & _)|]. intros [? ?]. repeat split; done.
  - intros e. rewrite cleanup_on_failure_pure. cbn [fst].
    apply (unlink_all_returns _ _ Hsingle).
Qed.

Lemma reraise_after_cleanup_blocked H self e w es :
  lookup_path ["ttf_character_mapping.json"] (fs H w) = Some (Dir es)
  \/ lookup_path ["decoded_book.epub"] (fs H w) = Some (Dir es) ->
  fst (reraise_after_cleanup H self e w) = Raise OSError.
Proof.
  intros Hdir. unfold reraise_after_cleanup.
  destruct (cleanup_on_failure_outcome H self w) as [Hiff Herr].
  destruct (cleanup_on_failure H self w) as [[[]|e'] w'] eqn:E; simpl in *.
  - destruct (proj1 Hiff eq_refl) as [Hn1 Hn2].
    destruct Hdir as [Hd|Hd]; [by destruct (Hn1 es)|by destruct (Hn2 es)].
  - by rewrite (Herr e' eq_refl).
Qed.

(** X23.  [cleanup_on_failure] returns exactly when
    neither [ttf_character_mapping.json] nor [decoded_book.epub] names a
    directory of the current directory.  Where one of them does, the
    cleanup raises the error of [unlink], and that error, not the one of
    the failed step, is what the pipeline raises. *)
Theorem cleanup_on_failure_returns_iff (H : Host) (self : KindleProcessor)
    (w : world H) :
  (fst (cleanup_on_failure H self w) = Ok tt <->
   no_dir_at "ttf_character_mapping.json" (fs H w)
   /\ no_dir_at "decoded_book.epub" (fs H w))
  /\ (forall e, fst (cleanup_on_failure H self w) = Raise e -> e = OSError)
  /\ (forall es e,
        lookup_path ["ttf_character_mapping.json"] (fs H w) = Some (Dir es)
        \/ lookup_path ["decoded_book.epub"] (fs H w) = Some (Dir es) ->
        fst (reraise_after_cleanup H self e w) = Raise OSError).
Proof.
  assert (Forall single_name ["ttf_character_mapping.json"; "decoded_book.epub"])
    as Hsingle by (repeat constructor).
  assert (fst (cleanup_on_failure H self w) = Ok tt <->
          no_dir_at "ttf_character_mapping.json" (fs H w)
          /\ no_dir_at "decoded_book.epub" (fs H w)) as Hiff.
  { rewrite cleanup_on_failure_pure. cbn [fst].
    rewrite (proj1 (unlink_all_returns _ _ Hsingle)), !Forall_cons.
    rewrite !(cleanup_first_loop_no_dir_at self (fs H w)) by done.
    split; [by intros (? & ? & _)|]. intros [? ?]. repeat split; done. }
  assert (forall e, fst (cleanup_on_failure H self w) = Raise e -> e = OSError)
    as Herr.
  { intros e. rewrite cleanup_on_failure_pure. cbn [fst].
    apply (unlink_all_returns _ _ Hsingle). }
  split; [done|]. split; [done|].
  intros es e Hdir. unfold reraise_after_cleanup.
  destruct (cleanup_on_failure H self w) as [[[]|e'] w'] eqn:E; simpl in *.
  - destruct (proj1 Hiff eq_refl) as [Hn1 Hn2].
    destruct Hdir as [Hd|Hd]; [by destruct (Hn1 es)|by destruct (Hn2 es)].
  - by rewrite (Herr e' eq_refl).
Qed.

Lemma cleanup_on_failure_returns_iff_witness :
  fst (reraise_after_cleanup idle_host (book "B0FLBTR2FS")
         (Exception "Decode failed - character mapping file not created")
         (start idle_host (Dir {[ "decoded_book.epub" := Dir ∅ ]}) tt))
  = Raise OSError.
Proof.
  apply (proj2 (proj2 (cleanup_on_failure_returns_iff idle_host (book "B0FLBTR2FS")
                         (start idle_host (Dir {[ "decoded_book.epub" := Dir ∅ ]})
                            tt))) ∅).
  right. reflexivity.
Defined.

(** ** C3: what the cleanup removes *)

(** C3, as amended.  Whatever the book directory holds,
    [cleanup_on_failure] leaves every [batch_*] directory that has an
    entry named [page_data_*.json], file or directory, exactly as it was,
    and removes every [batch_*] directory that has none.  It returns
    exactly when neither [ttf_character_mapping.json] nor
    [decoded_book.epub] names a directory of the current directory; then
    neither name exists afterwards, whether the file was there or not.
    Where one of the two names a directory, the cleanup raises [OSError],
    and a file [decoded_book.epub] behind a directory
    [ttf_character_mapping.json] stays.  Here [batch_*] are the names
    that start with [batch_], and [page_data_*.json] those that start
    with [page_data_] and end with [.json]. *)
Theorem cleanup_on_failure_spec (H : Host) (self : KindleProcessor) (w : world H) :
  let r := fst (cleanup_on_failure H self w) in
  let w' := snd (cleanup_on_failure H self w) in
  (forall name sub,
     Py.fnmatch "batch_*" name = true ->
     lookup_path (parts (book_dir self) ++ [name]) (fs H w) = Some (Dir sub) ->
     ((exists n, is_Some (sub !! n) /\ Py.fnmatch "page_data_*.json" n = true) ->
      lookup_path (parts (book_dir self) ++ [name]) (fs H w') = Some (Dir sub))
     /\ ((forall n, is_Some (sub !! n) -> Py.fnmatch "page_data_*.json" n = false) ->
         lookup_path (parts (book_dir self) ++ [name]) (fs H w') = None))
  /\ (no_dir_at "ttf_character_mapping.json" (fs H w) ->
      no_dir_at "decoded_book.epub" (fs H w) ->
      r = Ok tt
      /\ lookup_path ["ttf_character_mapping.json"] (fs H w') = None
      /\ lookup_path ["decoded_book.epub"] (fs H w') = None)
  /\ (forall name,
        Py.fnmatch "batch_*" name = true <-> exists rest, name = "batch_" +:+ rest)
  /\ (forall name,
        Py.fnmatch "page_data_*.json" name = true <->
        exists mid, name = "page_data_" +:+ mid +:+ ".json")
  /\ (r = Ok tt <->
      no_dir_at "ttf_character_mapping.json" (fs H w)
      /\ no_dir_at "decoded_book.epub" (fs H w))
  /\ (forall e, r = Raise e -> e = OSError)
  /\ (forall es,
        lookup_path ["ttf_character_mapping.json"] (fs H w) = Some (Dir es)
        \/ lookup_path ["decoded_book.epub"] (fs H w) = Some (Dir es) ->
        r = Raise OSError)
  /\ (forall es c,
        lookup_path ["ttf_character_mapping.json"] (fs H w) = Some (Dir es) ->
        lookup_path ["decoded_book.epub"] (fs H w) = Some (File c) ->
        lookup_path ["decoded_book.epub"] (fs H w') = Some (File c)).
Proof.
  intros r w'. subst r w'.
  destruct (cleanup_on_failure_outcome H self w) as [Hiff Herr].
  assert (forall es,
            lookup_path ["ttf_character_mapping.json"] (fs H w) = Some (Dir es)
            \/ lookup_path ["decoded_book.epub"] (fs H w) = Some (Dir es) ->
            fst (cleanup_on_failure H self w) = Raise OSError) as Hdir.
  { intros es Hd.
    destruct (fst (cleanup_on_failure H self w)) as [[]|e] eqn:E.
    - destruct (proj1 Hiff eq_refl) as [Hn1 Hn2].
      destruct Hd as [Hd|Hd]; [by destruct (Hn1 es)|by destruct (Hn2 es)].
    - by rewrite (Herr e eq_refl). }
  split; [|split; [|split; [|split; [|split; [|split; [|split]]]]]];
    [| |apply fnmatch_batch|apply fnmatch_page_data|exact Hiff|exact Herr
     |exact Hdir|];
    clear Hdir; rewrite cleanup_on_failure_pure; cbn [fst snd fs];
    set (root := fs H w); set (book := book_dir self);
    assert (Forall single_name ["ttf_character_mapping.json"; "decoded_book.epub"])
      as Hsingle by (repeat constructor).
  - intros name sub Hm Hl.
    rewrite lookup_path_app in Hl.
    destruct (lookup_path (parts book) root) as [m|] eqn:Eb; [|done].
    destruct m as [c|es]; [done|]. rewrite lookup_entry in Hl.
    unfold path_exists. rewrite Eb.
    assert (In name (glob "batch_*" book root)) as Hin.
    { apply glob_spec. exists es. by rewrite Hl. }
    pose proof (remove_incomplete_lookup book (glob "batch_*" book root) root es Eb)
      as Hb.
    split.
    + intros Hc%incomplete_spec. rewrite <- Hl in Hc.
      apply unlink_all_keeps_dir; [done|by destruct (parts book)|].
      rewrite lookup_path_app, Hb, lookup_entry.
      by rewrite prune_complete.
    + intros Hnone. apply unlink_all_keeps_none.
      rewrite lookup_path_app, Hb, lookup_entry.
      apply prune_incomplete; [done|]. rewrite Hl.
      destruct (incomplete (Some (Dir sub))) eqn:E; [done|].
      apply incomplete_spec in E as (n & Hn & Hp).
      rewrite (Hnone n Hn) in Hp. done.
  - intros Hn1 Hn2.
    set (root1 := if path_exists book root then _ else root).
    assert (forall a, no_dir_at a root -> no_dir_at a root1) as Hkeep.
    { intros a Ha es. subst root1. destruct (path_exists book root); [|apply Ha].
      destruct (lookup_path [a] root) as [[c|es']|] eqn:E.
      - by rewrite (remove_incomplete_keeps_file _ _ _ _ c E).
      - by destruct (Ha es').
      - by rewrite (remove_incomplete_keeps_none _ _ _ _ E). }
    destruct (unlink_all_ok ["ttf_character_mapping.json"; "decoded_book.epub"]
                root1 Hsingle) as [Hok Hall].
    { repeat constructor; by apply Hkeep. }
    split; [done|].
    apply Forall_cons in Hall as [H1 Hall]. apply Forall_cons in Hall as [H2 _].
    done.
  - intros es c Hm He.
    set (root1 := if path_exists book root then _ else root).
    assert (exists es', lookup_path ["ttf_character_mapping.json"] root1
                        = Some (Dir es')) as [es' Hm1].
    { subst root1. destruct (path_exists book root); [|eauto].
      apply (remove_incomplete_keeps_dir_at book _ root _ es Hm).
      apply Forall_forall. intros name Hin%list_elem_of_In%glob_spec ->.
      by destruct Hin as (? & _ & _ & ?). }
    assert (lookup_path ["decoded_book.epub"] root1 = Some (File c)) as He1.
    { subst root1. destruct (path_exists book root); [|done].
      by apply remove_incomplete_keeps_file. }
    cbn [unlink_all]. unfold path_exists, unlink_missing_ok.
    change (parts (mkPath "ttf_character_mapping.json"))
      with ["ttf_character_mapping.json"].
    by rewrite Hm1.
Qed.

Lemma cleanup_on_failure_spec_witness :
  let w' := snd (cleanup_on_failure idle_host (book "B0FLBTR2FS")
                   (start idle_host failed_root tt)) in
  fst (cleanup_on_failure idle_host (book "B0FLBTR2FS")
         (start idle_host failed_root tt)) = Ok tt
  /\ lookup_path ["ttf_character_mapping.json"] (fs idle_host w') = None
  /\ lookup_path ["decoded_book.epub"] (fs idle_host w') = None
  /\ lookup_path ["downloads"; "B0FLBTR2FS"; "batch_1"] (fs idle_host w') = None
  /\ lookup_path ["downloads"; "B0FLBTR2FS"; "batch_0"] (fs idle_host w')
     = Some (Dir (<[ "page_data_0_4.json" := File "[]" ]>
                    {[ "metadata.json" := File "{}" ]})).
Proof.
  intros w'.
  destruct (cleanup_on_failure_spec idle_host (book "B0FLBTR2FS")
              (start idle_host failed_root tt)) as (Hbatch & Hfiles & _).
  destruct Hfiles as (Hok & Hmap & Hepub);
    [intros es; by vm_compute | intros es; by vm_compute |].
  split; [exact Hok|]. split; [exact Hmap|]. split; [exact Hepub|]. split.
  - apply (proj2 (Hbatch "batch_1" {[ "metadata.json" := File "{}" ]}
                    eq_refl eq_refl)).
    intros n [x Hn]. apply lookup_singleton_Some in Hn as [<- _]. reflexivity.
  - apply (proj1 (Hbatch "batch_0" (<[ "page_data_0_4.json" := File "[]" ]>
                                      {[ "metadata.json" := File "{}" ]})
                    eq_refl eq_refl)).
    exists "page_data_0_4.json". split; [by eexists|reflexivity].
Defined.

(** C3, as stated, fails.  With [ttf_character_mapping.json] a
    directory the cleanup raises at that name and never reaches
    [decoded_book.epub], which is not removed although it is present;
    and a batch directory that holds no file named [page_data_*.json],
    only a directory of such a name, is kept. *)
Lemma cleanup_on_failure_blocked :
  let out := cleanup_on_failure idle_host (book "B0FLBTR2FS")
               (start idle_host blocked_root tt) in
  fst out = Raise OSError
  /\ lookup_path ["decoded_book.epub"] (fs idle_host (snd out)) = Some (File "epub")
  /\ lookup_path ["downloads"; "B0FLBTR2FS"; "batch_6"] (fs idle_host (snd out))
     = Some (Dir {[ "page_data_1.json" := Dir ∅ ]})
  /\ (forall n c,
        ({[ "page_data_1.json" := Dir ∅ ]} : gmap string node) !! n ≠ Some (File c)).
Proof.
  intros out. subst out. rewrite cleanup_on_failure_pure. cbn [fst snd fs].
  split; [by vm_compute|]. split; [by vm_compute|]. split; [by vm_compute|].
  intros n c [_ ?]%lookup_singleton_Some. done.
Qed.

(** ** C1: a failed step fails the pipeline *)

(** C1, as amended.  A step whose process exits with a code other than
    zero fails, and so does a step that does not find its artifact once
    the process has returned, even with the exit code zero: for the
    download the book directory with at least one entry named [batch_*],
    file or directory, for the decoding [ttf_character_mapping.json],
    for the packaging [decoded_book.epub].  When a step of the pipeline
    fails, the cleanup is run on the world the step left and an
    exception is raised to the caller: the one of the step when the
    cleanup returns, which it does when neither artifact name is a
    directory, and the [OSError] of the cleanup when one of them is.  The
    run ends with the cleanup: no later step is started and no success
    is reported. *)
Theorem step_failure_is_final (H : Host) (self : KindleProcessor) :
  (forall s cmd w c ext' fs',
     step_cmd self s = Ok cmd ->
     spawn H cmd (ext H w) (fs H w) = (c, ext', fs') ->
     returncode c ≠ 0%Z \/ artifact_present self s fs' = false ->
     exists e, step_func H self s w = (Raise e, ran H cmd w ext' fs'))
  /\ (forall root,
        artifact_present self DownloadBook root = true <->
        exists es rest,
          lookup_path (parts (book_dir self)) root = Some (Dir es)
          /\ is_Some (es !! ("batch_" +:+ rest)))
  /\ (forall root,
        artifact_present self DecodeGlyphs root = true <->
        is_Some (lookup_path ["ttf_character_mapping.json"] root))
  /\ (forall root,
        artifact_present self CreateEpub root = true <->
        is_Some (lookup_path ["decoded_book.epub"] root))
  /\ (forall pre s post w w1 e w2,
        build_steps self = Ok (pre ++ s :: post) ->
        let n := length (pre ++ s :: post) in
        run_steps H self n 1 pre w = (Ok tt, w1) ->
        step_func H self s (log H (EvStep (1 + length pre) n (step_name s)) w1)
        = (Raise e, w2) ->
        let w3 := log H (EvStepFailed (step_name s)) w2 in
        run_pipeline H self w = reraise_after_cleanup H self e w3
        /\ snd (run_pipeline H self w) = snd (cleanup_on_failure H self w3)
        /\ (exists e', fst (run_pipeline H self w) = Raise e')
        /\ (no_dir_at "ttf_character_mapping.json" (fs H w2) ->
            no_dir_at "decoded_book.epub" (fs H w2) ->
            fst (run_pipeline H self w) = Raise e)
        /\ events H (snd (run_pipeline H self w))
           = events H w2 ++ [EvStepFailed (step_name s); EvCleanup]
        /\ (forall es,
              lookup_path ["ttf_character_mapping.json"] (fs H w2) = Some (Dir es)
              \/ lookup_path ["decoded_book.epub"] (fs H w2) = Some (Dir es) ->
              fst (run_pipeline H self w) = Raise OSError)
        /\ (fst (run_pipeline H self w) = Raise e
            \/ fst (run_pipeline H self w) = Raise OSError)).
Proof.
  split; [|split; [|split; [|split]]].
  - intros s cmd w c ext' fs' Hc Hs [Hr|Ha].
    + rewrite (step_func_exit_code H self s cmd w c ext' fs' Hc Hs Hr). eauto.
    + destruct (step_func_no_artifact H self s cmd w c ext' fs' Hc Hs Ha)
        as (e & -> & _). eauto.
  - apply download_artifact_spec.
  - intros root. apply (path_exists_spec mapping_file).
  - intros root. apply (path_exists_spec epub_file).
  - intros pre s post w w1 e w2 Hb n Hpre Hs w3.
    assert (run_pipeline H self w = reraise_after_cleanup H self e w3) as Hrun.
    { rewrite (run_pipeline_run H self _ w Hb). fold n.
      rewrite (run_steps_fail H self n 1 pre s post w w1 e w2 Hpre Hs). fold w3.
      destruct (reraise_after_cleanup_raises H self e w3) as [e' He'].
      destruct (reraise_after_cleanup H self e w3) as [[[]|e''] w4]; done. }
    rewrite Hrun. split; [done|]. split; [|split; [|split; [|split; [|split]]]].
    + unfold reraise_after_cleanup.
      by destruct (cleanup_on_failure H self w3) as [[[]|e'] w4].
    + apply reraise_after_cleanup_raises.
    + intros Hn1 Hn2. by apply reraise_after_cleanup_same.
    + rewrite reraise_after_cleanup_events. subst w3. unfold log. simpl.
      by rewrite <- app_assoc.
    + intros es Hdir. by apply (reraise_after_cleanup_blocked H self e w3 es).
    + unfold reraise_after_cleanup.
      destruct (cleanup_on_failure_outcome H self w3) as [_ Herr].
      destruct (cleanup_on_failure H self w3) as [[[]|e'] w4]; simpl in *;
        [by left|right]. by rewrite (Herr e' eq_refl).
Qed.

Lemma step_failure_is_final_witness :
  let w := start idle_host (Dir ∅) tt in
  fst (run_pipeline idle_host (book "B0FLBTR2FS") w)
  = Raise (Exception
             "Download failed - book directory not created: downloads/B0FLBTR2FS")
  /\ events idle_host (snd (run_pipeline idle_host (book "B0FLBTR2FS") w))
     = [EvStep 1 3 "Download Book";
        EvRun ["python3"; "download_full_book.py"; "B0FLBTR2FS"];
        EvStepFailed "Download Book"; EvCleanup].
Proof.
  intros w.
  destruct (proj2 (proj2 (proj2 (proj2
              (step_failure_is_final idle_host (book "B0FLBTR2FS")))))
              [] DownloadBook [DecodeGlyphs; CreateEpub] w w
              (Exception
                 "Download failed - book directory not created: downloads/B0FLBTR2FS")
              (ran idle_host ["python3"; "download_full_book.py"; "B0FLBTR2FS"]
                 (log idle_host (EvStep 1 3 "Download Book") w) tt (Dir ∅)))
    as (_ & _ & _ & Hsame & Hev & _);
    [by vm_compute | reflexivity | by vm_compute |].
  split.
  - apply Hsame; intros es; by vm_compute.
  - exact Hev.
Defined.

(** C1, as stated, fails.  The download asks for an entry named
    [batch_*], not for a directory: with the exit code zero and a book
    directory that holds the file [batch_notes.txt] and no directory at
    all, the step returns.  And the exception of a failed step is not
    always the one raised: where [decoded_book.epub] is a directory the
    cleanup raises, and the caller sees [OSError] instead of the failure
    of the download. *)
Lemma download_accepts_batch_file :
  fst (download_book idle_host (book "B0FLBTR2FS") (start idle_host notes_root tt))
  = Ok tt
  /\ (forall name sub,
        lookup_path ["downloads"; "B0FLBTR2FS"; name] notes_root ≠ Some (Dir sub))
  /\ fst (step_func idle_host (book "B0FLBTR2FS") DownloadBook
            (log idle_host (EvStep 1 3 "Download Book")
               (start idle_host epub_dir_root tt)))
     = Raise (Exception
                "Download failed - book directory not created: downloads/B0FLBTR2FS")
  /\ fst (run_pipeline idle_host (book "B0FLBTR2FS") (start idle_host epub_dir_root tt))
     = Raise OSError.
Proof.
  split; [reflexivity|]. split; [|split; reflexivity].
  intros name sub.
  change (lookup_path [name] (Dir {[ "batch_notes.txt" := File "" ]}) ≠ Some (Dir sub)).
  rewrite lookup_entry. by intros [_ ?]%lookup_singleton_Some.
Qed.

(** ** Command line over file over defaults *)

Lemma get3_get_path config a b c v :
  get3 config a b c = Ok v <-> get_path [a; b; c] (VDict config) = Some v.
Proof.
  unfold get3. simpl.
  destruct (config !! a) as [sec|]; simpl; [|done].
  destruct sec as [| | | | |sd]; simpl; try done.
  destruct (sd !! b) as [sub|]; simpl; [|done].
  destruct sub as [| | | | |d]; simpl; try done.
  destruct (d !! c); simpl; split; congruence.
Qed.

Lemma load_config_file root f text custom :
  f ≠ "" ->
  lookup_path (parts (mkPath f)) root = Some (File text) ->
  parse_simple_config text = Ok (VDict custom) ->
  load_config root (Some f) = Ok (merge_dicts default_config (VDict custom)).
Proof.
  intros Hne Hl Hp. unfold load_config, path_exists, read_text.
  rewrite Hl. destruct f; [done|]. simpl. by rewrite Hp.
Qed.

(** X24.  A setting is taken from the command line first,
    from the override file second, from the defaults last.  For the
    decode mode and the output name, in a configuration [main] has
    loaded from an override file and overridden: the value the command
    line asks for is the value; else the value the file binds the key to,
    if it binds it to a value that is not a mapping; else, if the file
    does not mention the key, the default, [progressive] and [auto]. *)
Theorem setting_precedence (root : node) (args : Args) (f text : string)
    (custom cfg : gmap string value) :
  arg_config args = Some f -> f ≠ "" ->
  lookup_path (parts (mkPath f)) root = Some (File text) ->
  parse_simple_config text = Ok (VDict custom) ->
  configure root args = Ok cfg ->
  (forall m, cli_mode args = Some m ->
     get3 cfg "pipeline" "decode" "mode" = Ok (VStr m))
  /\ (forall v, cli_mode args = None ->
        get_path ["pipeline"; "decode"; "mode"] (VDict custom) = Some v ->
        (forall d, v ≠ VDict d) ->
        get3 cfg "pipeline" "decode" "mode" = Ok v)
  /\ (cli_mode args = None ->
      unset ["pipeline"; "decode"; "mode"] (VDict custom) = true ->
      get3 cfg "pipeline" "decode" "mode" = Ok (VStr "progressive"))
  /\ (forall name, cli_output_name args = Some name ->
        get3 cfg "pipeline" "epub" "output_name" = Ok (VStr name))
  /\ (forall v, cli_output_name args = None ->
        get_path ["pipeline"; "epub"; "output_name"] (VDict custom) = Some v ->
        (forall d, v ≠ VDict d) ->
        get3 cfg "pipeline" "epub" "output_name" = Ok v)
  /\ (cli_output_name args = None ->
      unset ["pipeline"; "epub"; "output_name"] (VDict custom) = true ->
      get3 cfg "pipeline" "epub" "output_name" = Ok (VStr "auto")).
Proof.
  intros Hf Hne Hl Hp. unfold configure.
  rewrite Hf, (load_config_file root f text custom Hne Hl Hp). cbn [bind].
  intros Ha.
  destruct (apply_cli_overrides_reads args _ cfg Ha) as (Hmode & _ & Hname & _).
  split; [|split; [|split; [|split; [|split]]]].
  - intros m Hm. by rewrite Hmode, Hm.
  - intros v Hm Hg Hv. rewrite Hmode, Hm. apply get3_get_path.
    by apply merge_dicts_get_path_custom.
  - intros Hm Hu. rewrite Hmode, Hm. apply get3_get_path.
    by rewrite merge_dicts_get_path_unset.
  - intros name Hn. by rewrite Hname, Hn.
  - intros v Hn Hg Hv. rewrite Hname, Hn. apply get3_get_path.
    by apply merge_dicts_get_path_custom.
  - intros Hn Hu. rewrite Hname, Hn. apply get3_get_path.
    by rewrite merge_dicts_get_path_unset.
Qed.

Lemma setting_precedence_witness :
  get3 (file_config false) "pipeline" "decode" "mode" = Ok (VStr "fast")
  /\ get3 (file_config true) "pipeline" "decode" "mode" = Ok (VStr "full")
  /\ get3 (file_config true) "pipeline" "epub" "output_name" = Ok (VStr "auto").
Proof.
  assert (parse_simple_config override_text = Ok (VDict override_dict)) as Hp
    by (by vm_compute).
  pose proof (setting_precedence override_root (file_args false) "my_config.txt"
                override_text override_dict (file_config false)
                eq_refl ltac:(done) eq_refl Hp eq_refl) as (_ & Hfile & _).
  pose proof (setting_precedence override_root (file_args true) "my_config.txt"
                override_text override_dict (file_config true)
                eq_refl ltac:(done) eq_refl Hp eq_refl)
    as (Hcli & _ & _ & _ & _ & Hdefault).
  split; [|split].
  - apply Hfile; [reflexivity | by vm_compute | done].
  - by apply Hcli.
  - apply Hdefault; [reflexivity | by vm_compute].
Defined.

(** ** A file of settings, read back *)

Lemma diverge_cons k keys keys' :
  diverge (k :: keys) (k :: keys') -> diverge keys keys'.
Proof.
  intros (p & a & r & a' & r' & H1 & H2 & Hne).
  destruct p as [|b p]; simpl in *.
  - congruence.
  - injection H1 as -> ->. injection H2 as ->. by exists p, a, r, a', r'.
Qed.

Lemma diverge_nonempty keys keys' : diverge keys keys' -> keys ≠ [] /\ keys' ≠ [].
Proof.
  intros (p & a & r & a' & r' & -> & -> & _). by destruct p.
Qed.

Lemma diverge_single k rest : ¬ diverge (k :: rest) [k].
Proof.
  intros (p & a & r & a' & r' & H1 & H2 & Hne).
  destruct p as [|b p]; simpl in *; [congruence|].
  injection H2 as _ H2. by destruct p.
Qed.

(** In a mapping whose values other than mappings all sit at keys that
    part ways with [keys], the path of [keys] is free. *)
Lemma path_free_apart keys current :
  keys ≠ [] ->
  (exists d, current = VDict d) ->
  (forall p v, get_path p current = Some v -> scalar v -> diverge keys p) ->
  path_free keys current.
Proof.
  revert current. induction keys as [|k rest IH]; intros current; [done|].
  intros _ [d ->] Hs. destruct (decide (rest = [])) as [->|Hr]; [done|].
  apply path_free_cons; [done|].
  destruct (d !! k) as [child|] eqn:E; [|done].
  assert (get_path [k] (VDict d) = Some child) as Hk by (simpl; by rewrite E).
  assert (exists c, child = VDict c) as [c ->].
  { destruct child; eauto;
      by destruct (diverge_single k rest (Hs [k] _ Hk ltac:(done))). }
  apply IH; [done|eauto|].
  intros p v Hg Hv. apply (diverge_cons k).
  apply (Hs (k :: p) v); [|done]. simpl. by rewrite E.
Qed.

Lemma diverge_cons_2 k keys keys' : diverge keys keys' -> diverge (k :: keys) (k :: keys').
Proof.
  intros (p & a & r & a' & r' & -> & -> & Hne). by exists (k :: p), a, r, a', r'.
Qed.

(** The values other than mappings that an assignment of such a value
    leaves are the ones that were there at keys that part ways with its
    key, and its own. *)
Lemma set_nested_scalars keys v current current' p x :
  scalar v ->
  set_nested keys v current = Ok current' ->
  get_path p current' = Some x -> scalar x ->
  (p = keys /\ x = v) \/ (diverge keys p /\ get_path p current = Some x).
Proof.
  intros Hv. revert current current' p. induction keys as [|k rest IH];
    intros current current' p; [done|].
  intros Hs Hg Hx.
  destruct (set_nested_in_dict _ _ _ _ Hs) as [d ->].
  destruct (set_nested_dict _ _ _ _ Hs) as [d' ->].
  destruct p as [|k' p]; [simpl in Hg; injection Hg as <-; by destruct (Hx d')|].
  destruct (decide (k = k')) as [<-|Hne].
  - destruct (decide (rest = [])) as [->|Hr].
    + simpl in Hs. injection Hs as <-. simpl in Hg.
      rewrite lookup_insert_eq in Hg.
      destruct p as [|k2 p]; [left; simpl in Hg; by injection Hg as <-|].
      destruct v; simpl in Hg; try done. by destruct (Hv d0).
    + destruct (set_nested_child k rest v d d' Hr Hs) as (child' & Hc & Hs').
      cbn [get_path] in Hg. rewrite Hc in Hg.
      destruct (IH _ _ _ Hs' Hg Hx) as [[-> ->]|[Hd Hg']]; [by left|].
      right. split; [by apply diverge_cons_2|].
      cbn [get_path]. destruct (d !! k) as [child|]; [done|].
      simpl in Hg'. destruct p as [|k2 p]; simpl in Hg'.
      * injection Hg' as <-. by destruct (Hx ∅).
      * by rewrite lookup_empty in Hg'.
  - right. split; [by exists [], k, rest, k', p|].
    cbn [get_path] in *. by rewrite <- (set_nested_other k rest v d d' k' Hs Hne).
Qed.

Lemma Forall_diverge_scalars keys (done_ : list (list string * value)) current :
  Forall (fun s => diverge keys (fst s)) done_ ->
  (forall p x, get_path p current = Some x -> scalar x -> In (p, x) done_) ->
  forall p x, get_path p current = Some x -> scalar x -> diverge keys p.
Proof.
  intros Hf Hin p x Hg Hx. specialize (Hin p x Hg Hx).
  rewrite Forall_forall in Hf. by apply (Hf (p, x)), list_elem_of_In.
Qed.

(** Settings whose keys part ways two by two are all stored, and
    nothing else is. *)
Lemma set_settings_apart (todo done_ : list (list string * value)) d :
  Forall (fun s => fst s ≠ [] /\ scalar (snd s)) todo ->
  apart todo ->
  Forall (fun s => Forall (fun s' => diverge (fst s) (fst s')) done_) todo ->
  (forall p x, get_path p (VDict d) = Some x -> scalar x -> In (p, x) done_) ->
  (forall p x, In (p, x) done_ -> get_path p (VDict d) = Some x) ->
  exists d',
    foldl (fun r s => config <- r ;; set_nested (fst s) (snd s) config)
      (Ok (VDict d)) todo = Ok (VDict d')
    /\ (forall p x, In (p, x) (done_ ++ todo) -> get_path p (VDict d') = Some x)
    /\ (forall p x, get_path p (VDict d') = Some x -> scalar x ->
          In (p, x) (done_ ++ todo)).
Proof.
  revert done_ d. induction todo as [|[keys v] todo IH]; intros done_ d.
  - intros _ _ _ Hs Hd. exists d. rewrite app_nil_r. done.
  - intros [[Hk Hv] Hwf]%Forall_cons [Hapart Hrest] [Hdone Hdone']%Forall_cons Hs Hd.
    simpl in Hk, Hv, Hdone.
    assert (path_free keys (VDict d)) as Hfree.
    { apply path_free_apart; [done|eauto|].
      by apply (Forall_diverge_scalars keys done_). }
    destruct (set_nested_ok keys v d Hfree) as (d1 & Hset & Hget).
    cbn [foldl bind fst snd]. rewrite Hset.
    destruct (IH (done_ ++ [(keys, v)]) d1) as (d' & Hfold & Hall & Honly).
    + done.
    + done.
    + rewrite Forall_forall in Hdone'. apply Forall_forall. intros s Hin.
      apply Forall_app. split; [by apply Hdone'|].
      apply Forall_cons. split; [|constructor]. simpl.
      rewrite Forall_forall in Hapart. by apply diverge_sym, Hapart.
    + intros p x Hg Hx. apply in_or_app.
      destruct (set_nested_scalars keys v _ _ p x Hv Hset Hg Hx)
        as [[-> ->]|[_ Hg']]; [right; by left|left; by apply Hs].
    + intros p x [Hin|[[= <- <-]|[]]]%in_app_or; [|done].
      rewrite (set_nested_frame keys v _ _ p Hset); [by apply Hd|].
      rewrite Forall_forall in Hdone. by apply (Hdone (p, x)), list_elem_of_In.
    + exists d'. split; [done|]. rewrite <- app_assoc in Hall, Honly. done.
Qed.

Lemma foldl_settings_raise e (l : list (list string * value)) :
  foldl (fun r s => config <- r ;; set_nested (fst s) (snd s) config) (Raise e) l
  = Raise e.
Proof. induction l as [|s l IH]; [done|]. simpl. apply IH. Qed.

Lemma foldl_texts_raise e (l : list (list string * string)) :
  foldl (fun r s => config <- r ;; v <- convert (snd s) ;;
                    set_nested (fst s) v config) (Raise e) l
  = Raise e.
Proof. induction l as [|s l IH]; [done|]. simpl. apply IH. Qed.

(** Parsing is converting and assigning the settings of the file in
    order. *)
Lemma parse_lines_settings config lines :
  parse_lines config lines
  = foldl (fun r s => config <- r ;; v <- convert (snd s) ;;
                      set_nested (fst s) v config)
      (Ok config) (settings lines).
Proof.
  unfold settings. revert config.
  induction lines as [|line rest IH]; intros config; [done|].
  cbn [parse_lines]. rewrite parse_line_assignment.
  change (omap assignment (line :: rest))
    with (match assignment line with
          | Some y => y :: omap assignment rest
          | None => omap assignment rest
          end).
  destruct (assignment line) as [[keys val]|]; cbn [foldl bind fst snd].
  - destruct (convert val) as [v|e]; cbn [bind].
    + destruct (set_nested keys v config) as [c|e]; simpl.
      * apply IH.
      * by rewrite foldl_texts_raise.
    + by rewrite foldl_texts_raise.
  - apply IH.
Qed.

Lemma converted_ok l vals :
  converted l = Ok vals <->
  Forall2 (fun s sv => fst s = fst sv /\ convert (snd s) = Ok (snd sv)) l vals.
Proof.
  revert vals. induction l as [|[keys val] l IH]; intros vals; simpl.
  - split; [intros [= <-]; constructor|]. by intros ->%Forall2_nil_inv_l.
  - destruct (convert val) as [v|e] eqn:Ec; simpl.
    + destruct (converted l) as [rest|e] eqn:El; simpl.
      * split.
        -- intros [= <-]. constructor; [done|]. by apply IH.
        -- intros ([keys' v'] & rest' & [Hk Hv] & Hr & ->)%Forall2_cons_inv_l.
           simpl in *. subst. apply IH in Hr. congruence.
      * split; [done|].
        intros ([keys' v'] & rest' & _ & Hr & ->)%Forall2_cons_inv_l.
        apply IH in Hr. done.
    + split; [done|].
      intros ([keys' v'] & rest' & [_ Hv] & _ & ->)%Forall2_cons_inv_l.
      simpl in Hv. congruence.
Qed.

(** The first value that does not convert. *)
Lemma converted_raises l e :
  converted l = Raise e ->
  exists pre keys val post vals,
    l = pre ++ (keys, val) :: post
    /\ converted pre = Ok vals
    /\ convert val = Raise e.
Proof.
  induction l as [|[keys val] l IH]; simpl; [done|].
  destruct (convert val) as [v|e'] eqn:Ec; simpl.
  - destruct (converted l) as [rest|e'] eqn:El; simpl; [done|].
    intros [= <-]. destruct (IH eq_refl) as (pre & k & x & post & vals & -> & Hp & Hx).
    exists ((keys, val) :: pre), k, x, post, ((keys, v) :: vals).
    split; [done|]. simpl. by rewrite Ec, Hp.
  - intros [= <-]. by exists [], keys, val, l, [].
Qed.

Lemma foldl_converted l vals r :
  converted l = Ok vals ->
  foldl (fun r s => config <- r ;; v <- convert (snd s) ;;
                    set_nested (fst s) v config) r l
  = foldl (fun r s => config <- r ;; set_nested (fst s) (snd s) config) r vals.
Proof.
  revert vals r. induction l as [|[keys val] l IH]; intros vals r; simpl.
  - by intros [= <-].
  - destruct (convert val) as [v|] eqn:Ec; simpl; [|done].
    destruct (converted l) as [rest|] eqn:El; simpl; [|done].
    intros [= <-]. cbn [foldl fst snd]. rewrite <- (IH rest) by done.
    f_equal.
Qed.

Lemma apart_keys {A B : Type} (l : list (list string * A))
    (l' : list (list string * B)) :
  map fst l = map fst l' -> apart l -> apart l'.
Proof.
  revert l'. induction l as [|[keys x] l IH]; intros [|[keys' y] l']; try done.
  simpl. intros [= <- Hm] [Hf Ha]. split; [|by apply IH].
  clear IH Ha. revert l' Hm. induction Hf as [|[k x'] l Hd _ IH];
    intros [|[k' y'] l']; try done.
  simpl. intros [= <- Hm]. constructor; [done|by apply IH].
Qed.

Lemma apart_app_l {A : Type} (l l' : list (list string * A)) :
  apart (l ++ l') -> apart l.
Proof.
  induction l as [|[keys x] l IH]; simpl; [done|].
  intros [Hf Ha]. apply Forall_app in Hf as [Hf _]. split; [done|by apply IH].
Qed.

Lemma converted_keys l vals : converted l = Ok vals -> map fst l = map fst vals.
Proof.
  intros Hc%converted_ok. induction Hc as [|[k x] [k' v] l vals [Hk _] _ IH]; [done|].
  simpl in *. by rewrite Hk, IH.
Qed.

Lemma settings_wf lines vals :
  converted (settings lines) = Ok vals ->
  Forall (fun s => fst s ≠ [] /\ scalar (snd s)) vals.
Proof.
  intros Hc%converted_ok.
  assert (Forall (fun s => exists line, assignment line = Some s) (settings lines))
    as Hs.
  { apply Forall_forall. intros s Hin. unfold settings in Hin.
    apply list_elem_of_omap in Hin as (line & _ & Ha). eauto. }
  induction Hc as [|[k x] [k' v] l vs [Hk Hv] _ IH]; [constructor|].
  apply Forall_cons in Hs as [[line Ha] Hs]. simpl in *. subst k'.
  constructor; [|by apply IH]. simpl. split.
  - by eapply assignment_keys_nonempty.
  - by eapply convert_scalar.
Qed.

(** Settings whose keys part ways and whose values convert are stored:
    the fold returns a mapping. *)
Lemma fold_settings_apart (vals : list (list string * value)) :
  Forall (fun s => fst s ≠ [] /\ scalar (snd s)) vals ->
  apart vals ->
  exists d,
    foldl (fun r s => config <- r ;; set_nested (fst s) (snd s) config)
      (Ok (VDict ∅)) vals = Ok (VDict d)
    /\ (forall p x, In (p, x) vals -> get_path p (VDict d) = Some x)
    /\ (forall p x, get_path p (VDict d) = Some x -> scalar x -> In (p, x) vals).
Proof.
  intros Hwf Ha.
  destruct (set_settings_apart vals [] ∅) as (d & Hfold & Hall & Honly);
    try done.
  - apply Forall_forall. intros s _. constructor.
  - intros p x Hg Hx. destruct p as [|k p]; simpl in Hg.
    + injection Hg as <-. by destruct (Hx ∅).
    + by rewrite lookup_empty in Hg.
  - exists d. done.
Qed.

(** X25.  An override file in which the keys of the assignment lines
    part ways two by two, none being another or a prefix of another,
    parses without error exactly when the value of every assignment
    converts.  The mapping it then parses to holds exactly the settings
    of the file: the converted value of every assignment line at the key
    of the line, and no other value that is not a mapping.  When a value
    does not convert, the parser raises the [ValueError] of the first
    such value. *)
Theorem parse_settings_apart (text : string) :
  apart (settings (Py.readlines text)) ->
  (forall vals,
     converted (settings (Py.readlines text)) = Ok vals ->
     exists d,
       parse_simple_config text = Ok (VDict d)
       /\ (forall keys v, In (keys, v) vals -> get_path keys (VDict d) = Some v)
       /\ (forall keys v,
             get_path keys (VDict d) = Some v -> scalar v -> In (keys, v) vals))
  /\ (forall e,
        converted (settings (Py.readlines text)) = Raise e ->
        parse_simple_config text = Raise e /\ exists msg, e = ValueError msg)
  /\ (forall vals,
        converted (settings (Py.readlines text)) = Ok vals <->
        Forall2 (fun s sv => fst s = fst sv /\ convert (snd s) = Ok (snd sv))
          (settings (Py.readlines text)) vals)
  /\ (forall e,
        converted (settings (Py.readlines text)) = Raise e <->
        exists pre keys val post vals,
          settings (Py.readlines text) = pre ++ (keys, val) :: post
          /\ converted pre = Ok vals
          /\ convert val = Raise e).
Proof.
  intros Ha. unfold parse_simple_config. rewrite parse_lines_settings.
  split; [|split; [|split]].
  - intros vals Hc. rewrite (foldl_converted _ vals _ Hc).
    apply fold_settings_apart; [by eapply settings_wf|].
    by apply (apart_keys _ _ (converted_keys _ _ Hc)).
  - intros e Hc.
    destruct (converted_raises _ _ Hc) as (pre & keys & val & post & vals & Hl & Hp & Hv).
    rewrite Hl in *. rewrite foldl_app. rewrite (foldl_converted _ vals _ Hp).
    destruct (fold_settings_apart vals) as (d & -> & _).
    + apply converted_ok in Hp.
      assert (Forall (fun s : list string * string =>
                        exists line, assignment line = Some s) pre) as Hs.
      { apply Forall_forall. intros s Hin.
        assert (s ∈ settings (Py.readlines text)) as Hin'
          by (rewrite Hl; apply elem_of_app; by left).
        unfold settings in Hin'.
        apply list_elem_of_omap in Hin' as (line & _ & Hline). eauto. }
      clear Hl Hc Ha. induction Hp as [|[k x] [k' v] l vs [Hk Hx] _ IH]; [constructor|].
      apply Forall_cons in Hs as [[line Hline] Hs]. simpl in *. subst k'.
      constructor; [|by apply IH]. simpl. split.
      * by eapply assignment_keys_nonempty.
      * by eapply convert_scalar.
    + apply (apart_keys pre vals (converted_keys _ _ Hp)).
      by apply (apart_app_l pre ((keys, val) :: post)).
    + cbn [foldl bind fst snd]. rewrite Hv. cbn [bind].
      rewrite foldl_texts_raise. split; [done|].
      apply convert_raises in Hv as (msg & -> & _). eauto.
  - apply converted_ok.
  - intros e. split; [apply converted_raises|].
    intros (pre & keys & val & post & vals & -> & Hp & Hv).
    clear Ha. revert vals Hp. induction pre as [|[k x] pre IH]; intros vals Hp.
    + simpl. by rewrite Hv.
    + simpl in *. destruct (convert x) as [v|]; simpl in *; [|done].
      destruct (converted pre) as [rest|] eqn:E; simpl in *; [|done].
      by rewrite (IH rest eq_refl).
Qed.

Lemma parse_settings_apart_witness :
  exists d,
    parse_simple_config settings_text = Ok (VDict d)
    /\ get_path ["pipeline"; "epub"; "output_name"] (VDict d) = Some (VStr "book")
    /\ get_path ["paths"; "downloads"] (VDict d) = Some (VStr "/tmp/books").
Proof.
  destruct (proj1 (parse_settings_apart settings_text
              ltac:(change (apart [(["pipeline"; "decode"; "mode"], "fast");
                                   (["pipeline"; "epub"; "output_name"], "book");
                                   (["paths"; "downloads"], "/tmp/books")]);
                    simpl; repeat split; repeat constructor; simpl;
                    [by exists ["pipeline"], "decode", ["mode"], "epub", ["output_name"]
                    |by exists [], "pipeline", ["decode"; "mode"], "paths", ["downloads"]
                    |by exists [], "pipeline", ["epub"; "output_name"], "paths",
                               ["downloads"]]))
             [(["pipeline"; "decode"; "mode"], VStr "fast");
              (["pipeline"; "epub"; "output_name"], VStr "book");
              (["paths"; "downloads"], VStr "/tmp/books")] eq_refl)
    as (d & Hp & Hall & _).
  exists d. split; [exact Hp|]. split; apply Hall; simpl; tauto.
Defined.

(** ** The report file *)

(** Writing a file changes nothing at a path that parts ways with the
    path of the file. *)
Lemma write_text_frame p content root root' q :
  write_text p content root = Ok root' ->
  diverge p q ->
  lookup_path q root' = lookup_path q root.
Proof.
  intros Hw (prefix & k & r & k' & r' & -> & -> & Hne).
  revert root root' Hw. induction prefix as [|a prefix IH]; intros root root' Hw.
  - destruct root as [c|es]; [done|]. cbn [app write_text] in Hw.
    assert (exists es', root' = Dir es' /\ es' !! k' = es !! k') as (es' & -> & He).
    { destruct r as [|k2 r].
      - destruct (es !! k) as [[c|d]|]; try done;
          injection Hw as <-; eexists; split; try done;
          by rewrite lookup_insert_ne.
      - destruct (es !! k) as [child|]; [|done].
        destruct (write_text (k2 :: r) content child) as [child'|]; [|done].
        injection Hw as <-. eexists. split; [done|]. by rewrite lookup_insert_ne. }
    simpl. by rewrite He.
  - destruct root as [c|es]; [done|]. rewrite <- !app_comm_cons in *.
    cbn [write_text] in Hw.
    destruct (prefix ++ k :: r) as [|b l] eqn:E; [by destruct prefix|].
    destruct (es !! a) as [child|] eqn:Ea; [|done].
    destruct (write_text (b :: l) content child) as [child'|] eqn:Ew; [|done].
    injection Hw as <-. cbn [lookup_path]. rewrite lookup_insert_eq, Ea.
    by apply IH.
Qed.

(** X26.  [generate_batch_report] prints the summary and
    writes one file, [batch_report_<time>.json] in the current directory.
    When it returns, that file holds the records as JSON and every path
    that parts ways with the path of the report is as it was.  When it
    raises, because the name of the report is taken by a directory, no
    file has changed.  Either way it starts no process. *)
Theorem generate_batch_report_spec (H : Host) (results : list batch_record)
    (w : world H) :
  let w' := snd (generate_batch_report H results w) in
  events H w' = events H w ++ [EvSummary results]
  /\ ext H w' = ext H w
  /\ (fst (generate_batch_report H results w) = Ok tt ->
      lookup_path (parts (report_file H w)) (fs H w')
      = Some (File (json_dumps H results))
      /\ forall q, diverge (parts (report_file H w)) q ->
                   lookup_path q (fs H w') = lookup_path q (fs H w))
  /\ (forall e, fst (generate_batch_report H results w) = Raise e ->
                fs H w' = fs H w)
  /\ (forall name es,
        parts (report_file H w) = [name] -> fs H w = Dir es ->
        (fst (generate_batch_report H results w) = Ok tt <->
         forall sub, es !! name ≠ Some (Dir sub))).
Proof.
  intros w'. subst w'.
  unfold generate_batch_report, mbind, emit, put_fs, report_file. simpl.
  destruct (write_text _ _ (fs H w)) as [root'|e] eqn:E; simpl.
  - split; [done|]. split; [done|]. split; [|split; [done|]].
    + intros _. split; [by apply write_text_lookup in E|].
      intros q Hq. by apply (write_text_frame _ _ _ _ q E).
    + intros name es Hn Hes. rewrite Hn, Hes in E. simpl in E.
      split; [|done]. intros _ sub Hsub. by rewrite Hsub in E.
  - split; [done|]. split; [done|]. split; [done|]. split; [done|].
    intros name es Hn Hes. rewrite Hn, Hes in E. simpl in E.
    split; [done|]. intros Hnd.
    destruct (es !! name) as [[c|sub]|] eqn:En; try done. by destruct (Hnd sub).
Qed.

Lemma generate_batch_report_spec_witness :
  let w := start idle_host ready_root tt in
  let w' := snd (generate_batch_report idle_host [RSuccess "B1"] w) in
  lookup_path ["batch_report_20260101_000000.json"] (fs idle_host w')
  = Some (File "B1")
  /\ lookup_path ["headers.json"] (fs idle_host w') = Some (File "{}").
Proof.
  intros w w'.
  destruct (generate_batch_report_spec idle_host [RSuccess "B1"] w)
    as (_ & _ & Hok & _).
  destruct (Hok eq_refl) as [Hfile Hframe]. split; [exact Hfile|].
  unfold w'. rewrite (Hframe ["headers.json"]); [reflexivity|].
  by exists [], "batch_report_20260101_000000.json", [], "headers.json", [].
Defined.
